(** * Campaign execution and plan-quota enforcement

    A shallow embedding of the campaign routes, the status webhook and the
    plan-access middleware of the WhatsApp backend:

    - [src/middleware/planAccess.ts]: [checkUsageLimit], [incrementUsage];
    - campaign routes (PUT /:id, POST /:id/start, POST /:id/pause) and the
      background function [processCampaignMessages];
    - [src/routes/whatsapp.ts]: [handleMessageStatus].

    The Prisma client is modelled as an explicit store; every awaited Prisma
    call may throw, which is decided by a fault schedule carried next to the
    store, so that the [try]/[catch] blocks of the source keep their
    meaning. *)

From stdpp Require Import gmap strings list fin_maps.

Local Open Scope string_scope.
Local Open Scope list_scope.
Local Open Scope Z_scope.

(** ** Prisma enums *)

Module CampaignStatus.
Inductive t := DRAFT | SCHEDULED | RUNNING | PAUSED | COMPLETED | FAILED.
#[global] Instance eq_dec : EqDecision t.
Proof. solve_decision. Defined.
End CampaignStatus.

Module CampaignContactStatus.
Inductive t := PENDING | SENT | DELIVERED | READ | FAILED.
#[global] Instance eq_dec : EqDecision t.
Proof. solve_decision. Defined.
End CampaignContactStatus.

Module MessageStatus.
Inductive t := SENT | DELIVERED | READ | FAILED.
#[global] Instance eq_dec : EqDecision t.
Proof. solve_decision. Defined.
End MessageStatus.

Module MessageDirection.
Inductive t := INBOUND | OUTBOUND.
End MessageDirection.

Module MessageType.
Inductive t := TEXT | TEMPLATE | IMAGE | DOCUMENT | AUDIO | VIDEO.
End MessageType.

(** ** Prisma models (the columns the modelled code reads or writes).
    A [DateTime] is a number of milliseconds, a nullable column an
    [option]. *)

Module Plan.
Record t := mk {
  name : string;
  features : list string;
  limits : gmap string Z          (* Json: resource name -> cap *)
}.
End Plan.

Module User.
Record t := mk {
  planId : option string;
  quotaUsed : gmap string Z       (* Json: resource name -> consumed *)
}.
Definition set_quotaUsed (q : gmap string Z) (u : t) : t :=
  {| planId := planId u; quotaUsed := q |}.
End User.

Module Template.
Record t := mk { name : string }.
End Template.

Module Campaign.
Record t := mk {
  userId : string;
  whatsappAccountId : string;
  templateId : option string;
  name : string;
  description : option string;
  status : CampaignStatus.t;
  scheduledAt : option Z;
  startedAt : option Z;
  completedAt : option Z;
  totalContacts : Z;
  sentCount : Z;
  deliveredCount : Z;
  readCount : Z;
  failedCount : Z
}.
End Campaign.

Module CampaignContact.
Record t := mk {
  campaignId : string;
  contactId : string;
  status : CampaignContactStatus.t;
  sentAt : option Z;
  deliveredAt : option Z;
  readAt : option Z;
  failedAt : option Z;
  errorMessage : option string
}.
#[global] Instance eq_dec : EqDecision t.
Proof. solve_decision. Defined.
End CampaignContact.

Module Message.
Record t := mk {
  userId : string;
  whatsappAccountId : string;
  contactId : string;
  campaignId : option string;
  templateId : option string;
  direction : MessageDirection.t;
  type : MessageType.t;
  content : string;
  status : MessageStatus.t;
  whatsappMessageId : option string;
  errorMessage : option string;
  deliveredAt : option Z;
  readAt : option Z
}.
End Message.

(** ** The store behind the Prisma client.  Tables with a primary key that
    the code looks up are maps; [campaign_contacts] and [messages] are
    lists in insertion order, because the worker slices the former and the
    webhook updates many rows of the latter. *)

Record DB := mkDB {
  plans : gmap string Plan.t;
  users : gmap string User.t;
  templates : gmap string Template.t;
  campaigns : gmap string Campaign.t;
  campaignContacts : list CampaignContact.t;
  messages : list Message.t
}.

Definition set_users (f : gmap string User.t -> gmap string User.t) (d : DB) : DB :=
  {| plans := plans d; users := f (users d); templates := templates d;
     campaigns := campaigns d; campaignContacts := campaignContacts d;
     messages := messages d |}.

Definition set_campaigns (f : gmap string Campaign.t -> gmap string Campaign.t) (d : DB) : DB :=
  {| plans := plans d; users := users d; templates := templates d;
     campaigns := f (campaigns d); campaignContacts := campaignContacts d;
     messages := messages d |}.

Definition set_campaignContacts
    (f : list CampaignContact.t -> list CampaignContact.t) (d : DB) : DB :=
  {| plans := plans d; users := users d; templates := templates d;
     campaigns := campaigns d; campaignContacts := f (campaignContacts d);
     messages := messages d |}.

Definition set_messages (f : list Message.t -> list Message.t) (d : DB) : DB :=
  {| plans := plans d; users := users d; templates := templates d;
     campaigns := campaigns d; campaignContacts := campaignContacts d;
     messages := f (messages d) |}.

(** ** Async functions with exceptions

    [World] is the store, the schedule of database faults still to come
    ([true]: the next Prisma call rejects; an exhausted schedule means no
    further fault) and the clock read by [new Date()]. *)

Record World := mkWorld {
  store : DB;
  faults : list bool;
  now : Z
}.

Inductive completion (A : Type) :=
| Returns (a : A)
| Throws.
Arguments Returns {A} a.
Arguments Throws {A}.

Definition Eff (A : Type) : Type := World -> completion A * World.

Definition ret {A} (a : A) : Eff A := fun w => (Returns a, w).

Definition bind {A B} (m : Eff A) (k : A -> Eff B) : Eff B := fun w =>
  match m w with
  | (Returns a, w') => k a w'
  | (Throws, w') => (Throws, w')
  end.

(** [try { m } catch (error) { h }] *)
Definition try_catch {A} (m h : Eff A) : Eff A := fun w =>
  match m w with
  | (Returns a, w') => (Returns a, w')
  | (Throws, w') => h w'
  end.

(** A call of an async function that is not awaited: its rejection does
    not reach the caller. *)
Definition detached (m : Eff unit) : Eff unit := fun w =>
  (Returns tt, snd (m w)).

(** [new Date()] *)
Definition new_Date : Eff Z := fun w => (Returns (now w), w).

(** One awaited Prisma call.  [op] is the query on the store; [None] is
    Prisma's own rejection (record to update not found, data refused). *)
Definition prisma {A} (op : DB -> option (A * DB)) : Eff A := fun w =>
  match faults w with
  | true :: fs => (Throws, {| store := store w; faults := fs; now := now w |})
  | fs =>
      match op (store w) with
      | Some (a, d) => (Returns a, {| store := d; faults := tail fs; now := now w |})
      | None => (Throws, {| store := store w; faults := tail fs; now := now w |})
      end
  end.

Notation "x <- m ;; k" := (bind m (fun x => k))
  (at level 100, m at next level, right associativity).
Notation "m ;;; k" := (bind m (fun _ => k))
  (at level 100, right associativity).

(** [for (const x of l) { await body(x) }] *)
Fixpoint for_of {A} (l : list A) (body : A -> Eff unit) : Eff unit :=
  match l with
  | [] => ret tt
  | x :: l' => body x ;;; for_of l' body
  end.

(** ** HTTP replies *)

Inductive jsval :=
| JString (s : string)
| JNumber (n : Z)
| JBool (b : bool)
| JUndefined.

Definition js_number (v : option Z) : jsval :=
  match v with
  | Some n => JNumber n
  | None => JUndefined
  end.

Inductive reply :=
| Next                                              (* next() *)
| Status (code : Z) (body : list (string * jsval))  (* res.status(code).json(body) *)
| Entity (code : Z) (c : Campaign.t).               (* res.json(campaign) *)

(** An Express route [router.verb(path, m1, ..., mn)]: a middleware that
    calls [next()] hands over to the following one, one that replies ends
    the chain. *)
Fixpoint express_chain (ms : list (Eff reply)) : Eff reply :=
  match ms with
  | [] => ret Next
  | m :: ms' =>
      r <- m ;;
      match r with
      | Next => express_chain ms'
      | _ => ret r
      end
  end.

(** ** Quota ledger: src/middleware/planAccess.ts *)

(** [prisma.user.findUnique({ where: { id }, include: { plan: true } })] *)
Definition user_findUnique_plan (id : string) : Eff (option (User.t * option Plan.t)) :=
  prisma (fun d =>
    Some (match users d !! id with
          | Some u => Some (u, User.planId u ≫= (fun p => plans d !! p))
          | None => None
          end, d)).

(** [v || 0] on an entry of a [Record<string, number>]: a missing entry is
    [undefined], which is falsy, as is [0]. *)
Definition or_zero (v : option Z) : Z := default 0 v.

(** [limit !== n] where [limit] may be [undefined]. *)
Definition strict_ne (limit : option Z) (n : Z) : bool :=
  match limit with
  | Some l => negb (l =? n)
  | None => true
  end.

(** [used >= limit] where [limit] may be [undefined]: [undefined] converts
    to [NaN] and every comparison with [NaN] is [false]. *)
Definition js_ge (used : Z) (limit : option Z) : bool :=
  match limit with
  | Some l => l <=? used
  | None => false
  end.

Definition usage_exceeded_body (resource : string) (limit : option Z) (used : Z) :=
  [("error", JString "Usage limit exceeded"); ("resource", JString resource);
   ("limit", js_number limit); ("used", JNumber used);
   ("upgradeRequired", JBool true)].

Definition checkUsageLimit (resource : string) (userId : string) : Eff reply :=
  try_catch
    (r <- user_findUnique_plan userId ;;
     match r with
     | None | Some (_, None) => ret (Status 403 [("error", JString "No active plan")])
     | Some (user, Some plan) =>
         let limit := Plan.limits plan !! resource in
         let used := or_zero (User.quotaUsed user !! resource) in
         if strict_ne limit (-1) && js_ge used limit
         then ret (Status 403 (usage_exceeded_body resource limit used))
         else ret Next
     end)
    (ret (Status 500 [("error", JString "Failed to check usage limit")])).

(** The numbers of the ledger are integers held in JavaScript doubles.
    [to_double n] is the double nearest to the integer [n], ties to even:
    [n] itself up to 2^53 in magnitude, and beyond that the nearest
    integer whose significand fits 53 bits.  (Magnitudes from 2^1024 on,
    where a double is [Infinity], are outside the model.) *)
Definition to_double (n : Z) : Z :=
  let e := Z.log2 (Z.abs n) - 52 in
  if e <=? 0 then n
  else
    let q := Z.abs n / 2 ^ e in
    let r := Z.abs n mod 2 ^ e in
    let half := 2 ^ (e - 1) in
    let q' := if (half <? r) || ((r =? half) && Z.odd q) then q + 1 else q in
    Z.sgn n * (q' * 2 ^ e).

(** [a + b] on two such numbers: the exact sum, rounded once. *)
Definition js_add (a b : Z) : Z := to_double (a + b).

(** [incrementUsage(userId, resource, amount = 1)] *)
Definition incrementUsage (userId resource : string) (amount : Z) : Eff unit :=
  try_catch
    (u <- prisma (fun d => Some (users d !! userId, d)) ;;
     match u with
     | None => ret tt
     | Some user =>
         let quotaUsed :=
           <[resource := js_add (or_zero (User.quotaUsed user !! resource)) amount]>
             (User.quotaUsed user) in
         prisma (fun d =>
           match users d !! userId with
           | Some u' => Some (tt, set_users (insert userId (User.set_quotaUsed quotaUsed u')) d)
           | None => None
           end)
     end)
    (ret tt).

(** ** Campaign queries *)

(** [{ ...campaign, field: v }] for the columns the routes write. *)
Module Campaign_set.
Definition status (v : CampaignStatus.t) '(Campaign.mk u w t n d s sa st ca tc sc dc rc fc)
    : Campaign.t :=
  Campaign.mk u w t n d v sa st ca tc sc dc rc fc.
Definition startedAt (v : option Z) '(Campaign.mk u w t n d s sa st ca tc sc dc rc fc)
    : Campaign.t :=
  Campaign.mk u w t n d s sa v ca tc sc dc rc fc.
Definition completedAt (v : option Z) '(Campaign.mk u w t n d s sa st ca tc sc dc rc fc)
    : Campaign.t :=
  Campaign.mk u w t n d s sa st v tc sc dc rc fc.
Definition sentCount (v : Z) '(Campaign.mk u w t n d s sa st ca tc sc dc rc fc)
    : Campaign.t :=
  Campaign.mk u w t n d s sa st ca tc v dc rc fc.
Definition failedCount (v : Z) '(Campaign.mk u w t n d s sa st ca tc sc dc rc fc)
    : Campaign.t :=
  Campaign.mk u w t n d s sa st ca tc sc dc rc v.
(** The [data] of PUT /:id.  A field that is [undefined] in [data] is
    left as it is by Prisma. *)
Definition edit (name' : option string) (description' : option (option string))
    (scheduledAt' : option Z) (status' : CampaignStatus.t)
    '(Campaign.mk u w t n d s sa st ca tc sc dc rc fc) : Campaign.t :=
  Campaign.mk u w t (default n name') (default d description') status' scheduledAt' st ca tc sc dc rc fc.
End Campaign_set.

(** [prisma.campaign.findFirst({ where: { id, userId } })] *)
Definition find_campaign (d : DB) (id userId : string) : option Campaign.t :=
  match campaigns d !! id with
  | Some c => if bool_decide (Campaign.userId c = userId) then Some c else None
  | None => None
  end.

Definition campaign_findFirst (id userId : string) : Eff (option Campaign.t) :=
  prisma (fun d => Some (find_campaign d id userId, d)).

(** [prisma.campaign.update({ where: { id }, data })]: rejects when there
    is no such row. *)
Definition campaign_update (id : string) (data : Campaign.t -> Campaign.t)
    : Eff Campaign.t :=
  prisma (fun d =>
    match campaigns d !! id with
    | Some c => Some (data c, set_campaigns (insert id (data c)) d)
    | None => None
    end).

(** The result of [findFirst] with
    [include: { template: true, contacts: { include: { contact: true } } }]:
    the object that POST /:id/start hands to the worker. *)
Module CampaignWithRelations.
Record t := mk {
  id : string;
  campaign : Campaign.t;
  template : option Template.t;
  contacts : list CampaignContact.t
}.
End CampaignWithRelations.

Definition contacts_of (d : DB) (campaignId : string) : list CampaignContact.t :=
  filter (fun r => CampaignContact.campaignId r = campaignId) (campaignContacts d).

Definition campaign_findFirst_include (id userId : string)
    : Eff (option CampaignWithRelations.t) :=
  prisma (fun d =>
    Some (match find_campaign d id userId with
          | Some c =>
              Some (CampaignWithRelations.mk id c
                      (Campaign.templateId c ≫= (fun t => templates d !! t))
                      (contacts_of d id))
          | None => None
          end, d)).

(** ** Campaign state machine: PUT /:id, POST /:id/start, POST /:id/pause *)

Record UpdateBody := mkUpdateBody {
  body_name : option string;                 (* validated: non-empty when present *)
  body_description : option (option string); (* absent, null or a string *)
  body_scheduledAt : option Z                (* validated ISO 8601, as a Date *)
}.

Definition is_status (c : Campaign.t) (s : CampaignStatus.t) : bool :=
  bool_decide (Campaign.status c = s).

Definition updateCampaign (id userId : string) (body : UpdateBody) : Eff reply :=
  try_catch
    (c <- campaign_findFirst id userId ;;
     match c with
     | None => ret (Status 404 [("error", JString "Campaign not found")])
     | Some campaign =>
         if is_status campaign CampaignStatus.RUNNING
            || is_status campaign CampaignStatus.COMPLETED
         then ret (Status 400
                     [("error", JString "Cannot edit running or completed campaign")])
         else
           updatedCampaign <-
             campaign_update id
               (Campaign_set.edit (body_name body) (body_description body)
                  (body_scheduledAt body)
                  (match body_scheduledAt body with
                   | Some _ => CampaignStatus.SCHEDULED
                   | None => CampaignStatus.DRAFT
                   end)) ;;
           ret (Entity 200 updatedCampaign)
     end)
    (ret (Status 500 [("error", JString "Failed to update campaign")])).

Definition pauseCampaign (id userId : string) : Eff reply :=
  try_catch
    (c <- campaign_findFirst id userId ;;
     match c with
     | None => ret (Status 404 [("error", JString "Campaign not found")])
     | Some campaign =>
         if negb (is_status campaign CampaignStatus.RUNNING)
         then ret (Status 400 [("error", JString "Campaign is not running")])
         else
           campaign_update id (Campaign_set.status CampaignStatus.PAUSED) ;;;
           ret (Status 200 [("message", JString "Campaign paused successfully")])
     end)
    (ret (Status 500 [("error", JString "Failed to pause campaign")])).

(** ** Dispatch worker: processCampaignMessages *)

(** [prisma.message.create({ data })] *)
Definition message_create (m : Message.t) : Eff unit :=
  prisma (fun d => Some (tt, set_messages (fun ms => (ms ++ [m])%list) d)).

Definition same_row (campaignId contactId : string) (r : CampaignContact.t) : bool :=
  bool_decide (CampaignContact.campaignId r = campaignId)
  && bool_decide (CampaignContact.contactId r = contactId).

(** [prisma.campaignContact.update({ where: { campaignId_contactId }, data })]:
    rejects when there is no such row. *)
Definition campaignContact_update (campaignId contactId : string)
    (data : CampaignContact.t -> CampaignContact.t) : Eff unit :=
  prisma (fun d =>
    if existsb (same_row campaignId contactId) (campaignContacts d)
    then Some (tt, set_campaignContacts
                     (map (fun r => if same_row campaignId contactId r
                                    then data r else r)) d)
    else None).

Definition is_pending (r : CampaignContact.t) : bool :=
  bool_decide (CampaignContact.status r = CampaignContactStatus.PENDING).

(** [prisma.campaignContact.count({ where: { campaignId, status: 'PENDING' } })] *)
Definition campaignContact_count_pending (campaignId : string) : Eff Z :=
  prisma (fun d =>
    Some (Z.of_nat (length (filter (fun r => is_pending r = true)
                              (contacts_of d campaignId))), d)).

Module CampaignContact_set.
(** [{ status: 'SENT', sentAt }] *)
Definition sent (at_ : Z) '(CampaignContact.mk c k s sa da ra fa e)
    : CampaignContact.t :=
  CampaignContact.mk c k CampaignContactStatus.SENT (Some at_) da ra fa e.
(** [{ status: 'FAILED', failedAt, errorMessage }] *)
Definition failed (at_ : Z) (msg : string) '(CampaignContact.mk c k s sa da ra fa e)
    : CampaignContact.t :=
  CampaignContact.mk c k CampaignContactStatus.FAILED sa da ra (Some at_) (Some msg).
End CampaignContact_set.

(** [campaign.template?.name || 'Campaign message'] *)
Definition message_content (campaign : CampaignWithRelations.t) : string :=
  match CampaignWithRelations.template campaign with
  | Some t => if bool_decide (Template.name t = "") then "Campaign message"
              else Template.name t
  | None => "Campaign message"
  end.

Definition campaign_message (campaign : CampaignWithRelations.t)
    (campaignContact : CampaignContact.t) : Message.t :=
  let c := CampaignWithRelations.campaign campaign in
  {| Message.userId := Campaign.userId c;
     Message.whatsappAccountId := Campaign.whatsappAccountId c;
     Message.contactId := CampaignContact.contactId campaignContact;
     Message.campaignId := Some (CampaignWithRelations.id campaign);
     Message.templateId := Campaign.templateId c;
     Message.direction := MessageDirection.OUTBOUND;
     Message.type := MessageType.TEMPLATE;
     Message.content := message_content campaign;
     Message.status := MessageStatus.SENT;
     Message.whatsappMessageId := None;
     Message.errorMessage := None;
     Message.deliveredAt := None;
     Message.readAt := None |}.

Definition increment_sentCount (c : Campaign.t) : Campaign.t :=
  Campaign_set.sentCount (Campaign.sentCount c + 1) c.

Definition increment_failedCount (c : Campaign.t) : Campaign.t :=
  Campaign_set.failedCount (Campaign.failedCount c + 1) c.

(** The body of the worker's loop, with its own [try]/[catch]. *)
Definition dispatch_contact (campaign : CampaignWithRelations.t)
    (campaignContact : CampaignContact.t) : Eff unit :=
  let id := CampaignWithRelations.id campaign in
  let contactId := CampaignContact.contactId campaignContact in
  try_catch
    (message_create (campaign_message campaign campaignContact) ;;;
     sentAt <- new_Date ;;
     campaignContact_update id contactId (CampaignContact_set.sent sentAt) ;;;
     campaign_update id increment_sentCount ;;;
     ret tt)
    (failedAt <- new_Date ;;
     campaignContact_update id contactId
       (CampaignContact_set.failed failedAt "Failed to send message") ;;;
     campaign_update id increment_failedCount ;;;
     ret tt).

(** The [try] block of the worker: the loop over the first five contacts
    of the object it was given, then the completion test. *)
Definition dispatch_loop (campaign : CampaignWithRelations.t) : Eff unit :=
  let id := CampaignWithRelations.id campaign in
  for_of (take 5 (CampaignWithRelations.contacts campaign))
         (dispatch_contact campaign) ;;;
  pendingCount <- campaignContact_count_pending id ;;
  if pendingCount =? 0
  then
    completedAt <- new_Date ;;
    campaign_update id
      (fun c => Campaign_set.completedAt (Some completedAt)
                  (Campaign_set.status CampaignStatus.COMPLETED c)) ;;;
    ret tt
  else ret tt.

Definition processCampaignMessages (campaign : CampaignWithRelations.t) : Eff unit :=
  try_catch
    (dispatch_loop campaign)
    (campaign_update (CampaignWithRelations.id campaign)
       (Campaign_set.status CampaignStatus.FAILED) ;;;
     ret tt).

(** POST /:id/start.  The handler calls the worker without awaiting it:
    the reply comes with the object the worker was started on, and the
    worker's run is a separate unit of work. *)
Definition startCampaign (id userId : string)
    : Eff (reply * option CampaignWithRelations.t) :=
  try_catch
    (c <- campaign_findFirst_include id userId ;;
     match c with
     | None => ret (Status 404 [("error", JString "Campaign not found")], None)
     | Some campaign =>
         let row := CampaignWithRelations.campaign campaign in
         if negb (is_status row CampaignStatus.DRAFT)
            && negb (is_status row CampaignStatus.SCHEDULED)
         then ret (Status 400 [("error", JString "Campaign cannot be started")], None)
         else
           startedAt <- new_Date ;;
           campaign_update id
             (fun c => Campaign_set.startedAt (Some startedAt)
                         (Campaign_set.status CampaignStatus.RUNNING c)) ;;;
           ret (Status 200 [("message", JString "Campaign started successfully")],
                Some campaign)
     end)
    (ret (Status 500 [("error", JString "Failed to start campaign")], None)).

(** The start request followed by the run of the worker it launched, with
    no other request in between. *)
Definition start_and_dispatch (id userId : string) : Eff reply :=
  r <- startCampaign id userId ;;
  match snd r with
  | Some campaign => detached (processCampaignMessages campaign) ;;; ret (fst r)
  | None => ret (fst r)
  end.

(** ** Status ingestion: handleMessageStatus in src/routes/whatsapp.ts *)

(** One entry of [statuses] in the webhook payload.  [cb_timestamp] is
    what [parseInt(timestamp)] reads: an integer (seconds), or [None] for
    [NaN]. *)
Record StatusCallback := mkStatusCallback {
  cb_id : string;
  cb_status : string;
  cb_timestamp : option Z;
  cb_error_title : option string     (* status.errors?.[0]?.title *)
}.

(** A JavaScript [Date]: a time value in milliseconds, or the Invalid
    Date. *)
Inductive Date :=
| TimeValue (ms : Z)
| InvalidDate.

(** [new Date(n)] for a number [n]: the Invalid Date for [NaN] and for a
    number beyond 8.64e15 ms on either side of the epoch.  (The product
    [parseInt(timestamp) * 1000] is taken on doubles; up to 8.64e15 it is
    exact, and a product that is rounded lies beyond that bound before
    and after rounding.) *)
Definition Date_of_number (n : option Z) : Date :=
  match n with
  | Some ms => if Z.abs ms <=? 8640000000000000 then TimeValue ms else InvalidDate
  | None => InvalidDate
  end.

(** [updateData]: the columns that were assigned. *)
Record UpdateData := mkUpdateData {
  upd_status : option MessageStatus.t;
  upd_deliveredAt : option Date;
  upd_readAt : option Date;
  upd_errorMessage : option string
}.

(** A [DateTime] column after [data] was written: the assigned time, or
    what the column held when none was assigned. *)
Definition written_date (assigned : option Date) (column : option Z) : option Z :=
  match assigned with
  | Some (TimeValue ms) => Some ms
  | _ => column
  end.

Definition apply_update (u : UpdateData) (m : Message.t) : Message.t :=
  {| Message.userId := Message.userId m;
     Message.whatsappAccountId := Message.whatsappAccountId m;
     Message.contactId := Message.contactId m;
     Message.campaignId := Message.campaignId m;
     Message.templateId := Message.templateId m;
     Message.direction := Message.direction m;
     Message.type := Message.type m;
     Message.content := Message.content m;
     Message.status := default (Message.status m) (upd_status u);
     Message.whatsappMessageId := Message.whatsappMessageId m;
     Message.errorMessage :=
       match upd_errorMessage u with Some e => Some e | None => Message.errorMessage m end;
     Message.deliveredAt := written_date (upd_deliveredAt u) (Message.deliveredAt m);
     Message.readAt := written_date (upd_readAt u) (Message.readAt m) |}.

(** [new Date(parseInt(timestamp) * 1000)] *)
Definition callback_date (cb : StatusCallback) : Date :=
  Date_of_number ((fun seconds => seconds * 1000) <$> cb_timestamp cb).

(** [status.errors?.[0]?.title || 'Message failed'] *)
Definition callback_error (cb : StatusCallback) : string :=
  match cb_error_title cb with
  | Some t => if bool_decide (t = "") then "Message failed" else t
  | None => "Message failed"
  end.

(** The [switch (messageStatus)]. *)
Definition status_updateData (cb : StatusCallback) : UpdateData :=
  if bool_decide (cb_status cb = "delivered") then
    mkUpdateData (Some MessageStatus.DELIVERED) (Some (callback_date cb)) None None
  else if bool_decide (cb_status cb = "read") then
    mkUpdateData (Some MessageStatus.READ) None (Some (callback_date cb)) None
  else if bool_decide (cb_status cb = "failed") then
    mkUpdateData (Some MessageStatus.FAILED) None None (Some (callback_error cb))
  else
    mkUpdateData None None None None.

Definition addressed (id : string) (m : Message.t) : bool :=
  bool_decide (Message.whatsappMessageId m = Some id).

(** Prisma validates [data] before it queries: an Invalid Date in it is
    refused. *)
Definition is_invalid (assigned : option Date) : bool :=
  match assigned with
  | Some InvalidDate => true
  | _ => false
  end.

Definition data_accepted (data : UpdateData) : bool :=
  negb (is_invalid (upd_deliveredAt data)) && negb (is_invalid (upd_readAt data)).

(** [prisma.message.updateMany({ where: { whatsappMessageId: id }, data })]:
    rejected when [data] holds an Invalid Date. *)
Definition message_updateMany (id : string) (data : UpdateData) : Eff unit :=
  prisma (fun d =>
    if data_accepted data
    then Some (tt, set_messages
                     (map (fun m => if addressed id m then apply_update data m else m)) d)
    else None).

Definition handleMessageStatus (status : StatusCallback) : Eff unit :=
  try_catch
    (message_updateMany (cb_id status) (status_updateData status))
    (ret tt).

(** ** Feature gate: checkPlanAccess in src/middleware/planAccess.ts *)

Module Role.
Inductive t := USER | ADMIN | SUPER_ADMIN.
#[global] Instance eq_dec : EqDecision t.
Proof. solve_decision. Defined.
End Role.

(** The columns [role] and [planEndDate] of a user, which [User.t] does
    not carry.  They are handed to the middleware next to the store; a
    user without an entry has the schema defaults (USER, no end date). *)
Module UserAccess.
Record t := mk {
  role : Role.t;
  planEndDate : option Z
}.
Definition default : t := mk Role.USER None.
End UserAccess.

Definition access_of (access : gmap string UserAccess.t) (userId : string)
    : UserAccess.t :=
  default UserAccess.default (access !! userId).

(** [planFeatures.includes(feature)] *)
Definition includes (features : list string) (feature : string) : bool :=
  bool_decide (feature ∈ features).

Definition checkPlanAccess (access : gmap string UserAccess.t)
    (feature userId : string) : Eff reply :=
  try_catch
    (r <- user_findUnique_plan userId ;;
     match r with
     | None => ret (Status 401 [("error", JString "User not found")])
     | Some (user, plan) =>
         let columns := access_of access userId in
         if bool_decide (UserAccess.role columns = Role.SUPER_ADMIN) then ret Next
         else
           match plan with
           | None =>
               ret (Status 403 [("error", JString "No active plan");
                                ("feature", JString feature);
                                ("upgradeRequired", JBool true)])
           | Some plan =>
               if negb (includes (Plan.features plan) feature)
               then ret (Status 403
                           [("error", JString "Feature not available in your plan");
                            ("feature", JString feature);
                            ("currentPlan", JString (Plan.name plan));
                            ("upgradeRequired", JBool true)])
               else
                 match UserAccess.planEndDate columns with
                 | Some planEndDate =>
                     today <- new_Date ;;
                     if planEndDate <? today
                     then ret (Status 403 [("error", JString "Plan expired");
                                           ("expiredAt", JNumber planEndDate);
                                           ("renewalRequired", JBool true)])
                     else ret Next
                 | None => ret Next
                 end
           end
     end)
    (ret (Status 500 [("error", JString "Failed to check plan access")])).

(** ** Admin routes on users: POST /:id/reset-quota and PUT /:id/plan *)

(** [logAuditAction]: one insert into the audit log, a table outside the
    store, inside its own [try]/[catch]. *)
Definition logAuditAction : Eff unit :=
  try_catch (prisma (fun d => Some (tt, d))) (ret tt).

Inductive user_reply :=
| UserError (code : Z) (error : string)
| UserBody (code : Z) (message : option string) (user : User.t).

(** [prisma.user.update({ where: { id }, data })]: rejects when there is
    no such row. *)
Definition user_update (id : string) (data : User.t -> User.t) : Eff User.t :=
  prisma (fun d =>
    match users d !! id with
    | Some u => Some (data u, set_users (insert id (data u)) d)
    | None => None
    end).

Definition resetUserQuota (id : string) : Eff user_reply :=
  try_catch
    (user <- user_update id (User.set_quotaUsed ∅) ;;
     logAuditAction ;;;
     ret (UserBody 200 (Some "User quota reset successfully") user))
    (ret (UserError 500 "Failed to reset user quota")).

(** PUT /:id/plan.  The handler also writes [planStartDate] and
    [planEndDate], columns that [User.t] does not carry; the two lookups
    of its [Promise.all] are taken one after the other. *)
Definition updateUserPlan (id planId : string) : Eff user_reply :=
  try_catch
    (user <- prisma (fun d => Some (users d !! id, d)) ;;
     plan <- prisma (fun d => Some (plans d !! planId, d)) ;;
     match user, plan with
     | None, _ => ret (UserError 404 "User not found")
     | Some _, None => ret (UserError 404 "Plan not found")
     | Some _, Some _ =>
         updatedUser <-
           user_update id
             (fun u => {| User.planId := Some planId; User.quotaUsed := ∅ |}) ;;
         logAuditAction ;;;
         ret (UserBody 200 None updatedUser)
     end)
    (ret (UserError 500 "Failed to update user plan")).

(** ** Campaign routes: POST / and DELETE /:id *)

Module Contact.
Record t := mk {
  id : string;
  userId : string
}.
#[global] Instance eq_dec : EqDecision t.
Proof. solve_decision. Defined.
End Contact.

Module TemplateStatus.
Inductive t := PENDING | APPROVED | REJECTED.
#[global] Instance eq_dec : EqDecision t.
Proof. solve_decision. Defined.
End TemplateStatus.

(** The tables that POST / only reads: the owner of each WhatsApp
    account, the owner and status of each template, and the contacts in
    table order. *)
Module Catalog.
Record t := mk {
  whatsappAccounts : gmap string string;
  templateRows : gmap string (string * TemplateStatus.t);
  contacts : list Contact.t
}.
End Catalog.

Record CreateBody := mkCreateBody {
  new_whatsappAccountId : string;
  new_name : string;                    (* validated: non-empty *)
  new_description : option string;
  new_templateId : option string;
  new_contactIds : list string;         (* validated: at least one *)
  new_scheduledAt : option Z            (* validated ISO 8601, as a Date *)
}.

(** [prisma.contact.findMany({ where: { id: { in: contactIds }, userId } })] *)
Definition contacts_findMany (catalog : Catalog.t) (contactIds : list string)
    (userId : string) : list Contact.t :=
  filter (fun c => Contact.id c ∈ contactIds /\ Contact.userId c = userId)
         (Catalog.contacts catalog).

Definition new_campaign (userId : string) (body : CreateBody) (total : nat)
    : Campaign.t :=
  {| Campaign.userId := userId;
     Campaign.whatsappAccountId := new_whatsappAccountId body;
     Campaign.templateId := new_templateId body;
     Campaign.name := new_name body;
     Campaign.description := new_description body;
     Campaign.status := match new_scheduledAt body with
                        | Some _ => CampaignStatus.SCHEDULED
                        | None => CampaignStatus.DRAFT
                        end;
     Campaign.scheduledAt := new_scheduledAt body;
     Campaign.startedAt := None;
     Campaign.completedAt := None;
     Campaign.totalContacts := Z.of_nat total;
     Campaign.sentCount := 0;
     Campaign.deliveredCount := 0;
     Campaign.readCount := 0;
     Campaign.failedCount := 0 |}.

(** [contacts.map(contact => ({ campaignId, contactId, status: 'PENDING' }))] *)
Definition pending_rows (campaignId : string) (contacts : list Contact.t)
    : list CampaignContact.t :=
  map (fun contact =>
         CampaignContact.mk campaignId (Contact.id contact)
           CampaignContactStatus.PENDING None None None None None)
      contacts.

(** [prisma.campaign.create({ data })]; [id] is the uuid the database
    draws, and the insert is rejected when the key is taken. *)
Definition campaign_create (id : string) (c : Campaign.t) : Eff Campaign.t :=
  prisma (fun d =>
    match campaigns d !! id with
    | Some _ => None
    | None => Some (c, set_campaigns (insert id c) d)
    end).

Definition row_key (r : CampaignContact.t) : string * string :=
  (CampaignContact.campaignId r, CampaignContact.contactId r).

(** [prisma.campaignContact.createMany({ data })]: rejected as a whole
    when it would break the unique key (campaignId, contactId). *)
Definition campaignContact_createMany (rows : list CampaignContact.t) : Eff unit :=
  prisma (fun d =>
    if bool_decide (NoDup (map row_key (campaignContacts d ++ rows)))
    then Some (tt, set_campaignContacts (fun t => t ++ rows) d)
    else None).

Definition createCampaign (catalog : Catalog.t) (id userId : string)
    (body : CreateBody) : Eff reply :=
  try_catch
    (whatsappAccount <-
       prisma (fun d =>
         Some (bool_decide (Catalog.whatsappAccounts catalog
                              !! new_whatsappAccountId body = Some userId), d)) ;;
     if negb whatsappAccount
     then ret (Status 404 [("error", JString "WhatsApp account not found")])
     else
       template <-
         match new_templateId body with
         | Some templateId =>
             prisma (fun d =>
               Some (bool_decide (Catalog.templateRows catalog !! templateId
                                  = Some (userId, TemplateStatus.APPROVED)), d))
         | None => ret true
         end ;;
       if negb template
       then ret (Status 404 [("error", JString "Template not found or not approved")])
       else
         contacts <-
           prisma (fun d =>
             Some (contacts_findMany catalog (new_contactIds body) userId, d)) ;;
         if negb (length contacts =? length (new_contactIds body))%nat
         then ret (Status 400 [("error", JString "Some contacts not found")])
         else
           campaign <- campaign_create id (new_campaign userId body (length contacts)) ;;
           campaignContact_createMany (pending_rows id contacts) ;;;
           ret (Entity 201 campaign))
    (ret (Status 500 [("error", JString "Failed to create campaign")])).

(** [prisma.campaign.delete({ where: { id } })] with the rules of the
    schema: rows of [campaign_contacts] go with their campaign (ON DELETE
    CASCADE), messages stay with [campaignId] null (ON DELETE SET NULL). *)
Definition detach_message (id : string) (m : Message.t) : Message.t :=
  if bool_decide (Message.campaignId m = Some id)
  then {| Message.userId := Message.userId m;
          Message.whatsappAccountId := Message.whatsappAccountId m;
          Message.contactId := Message.contactId m;
          Message.campaignId := None;
          Message.templateId := Message.templateId m;
          Message.direction := Message.direction m;
          Message.type := Message.type m;
          Message.content := Message.content m;
          Message.status := Message.status m;
          Message.whatsappMessageId := Message.whatsappMessageId m;
          Message.errorMessage := Message.errorMessage m;
          Message.deliveredAt := Message.deliveredAt m;
          Message.readAt := Message.readAt m |}
  else m.

Definition campaign_delete (id : string) : Eff unit :=
  prisma (fun d =>
    match campaigns d !! id with
    | Some _ =>
        Some (tt,
              set_messages (map (detach_message id))
                (set_campaignContacts
                   (filter (fun r => CampaignContact.campaignId r <> id))
                   (set_campaigns (delete id) d)))
    | None => None
    end).

Definition deleteCampaign (id userId : string) : Eff reply :=
  try_catch
    (c <- campaign_findFirst id userId ;;
     match c with
     | None => ret (Status 404 [("error", JString "Campaign not found")])
     | Some campaign =>
         if is_status campaign CampaignStatus.RUNNING
         then ret (Status 400 [("error", JString "Cannot delete running campaign")])
         else
           campaign_delete id ;;;
           ret (Status 200 [("message", JString "Campaign deleted successfully")])
     end)
    (ret (Status 500 [("error", JString "Failed to delete campaign")])).

(** GET /:id reads the campaign with its relations and writes nothing. *)
Definition getCampaign (id userId : string)
    : Eff (reply + CampaignWithRelations.t) :=
  try_catch
    (c <- campaign_findFirst_include id userId ;;
     match c with
     | None => ret (inl (Status 404 [("error", JString "Campaign not found")]))
     | Some campaign => ret (inr campaign)
     end)
    (ret (inl (Status 500 [("error", JString "Failed to get campaign")]))).

(** ** The statuses of one webhook change: the loop of POST /webhook
    [for (const status of statuses) { await handleMessageStatus(status) }] *)
Definition handleStatuses (statuses : list StatusCallback) : Eff unit :=
  for_of statuses handleMessageStatus.

(** ** Specification vocabulary *)

(** The next Prisma call is not hit by a database fault. *)
Definition next_call_succeeds (w : World) : Prop := hd false (faults w) = false.

(** No database fault is scheduled at all. *)
Definition fault_free (w : World) : Prop := faults w = [].

(** The world after a computation, and what it completed with. *)
Definition after {A} (m : Eff A) (w : World) : DB := store (snd (m w)).
Definition outcome {A} (m : Eff A) (w : World) : completion A := fst (m w).

(** Partial-correctness triple over stores, for every fault schedule and
    both ways to complete. *)
Definition triple {A} (P : DB -> Prop) (m : Eff A) (Q : completion A -> DB -> Prop)
    : Prop :=
  forall w, P (store w) -> Q (outcome m w) (after m w).

(** A computation that keeps [P], however it completes. *)
Definition keeps {A} (P : DB -> Prop) (m : Eff A) : Prop :=
  triple P m (fun _ d => P d).

Definition campaign_status (d : DB) (id : string) : option CampaignStatus.t :=
  Campaign.status <$> campaigns d !! id.

(** The counters of a campaign are within bounds. *)
Definition counters_bounded (c : Campaign.t) : Prop :=
  Campaign.sentCount c + Campaign.failedCount c <= Campaign.totalContacts c
  /\ Campaign.deliveredCount c <= Campaign.sentCount c
  /\ Campaign.readCount c <= Campaign.deliveredCount c.

(** The status a webhook callback reports, for the three values the
    webhook knows. *)
Definition reports (cb : StatusCallback) (s : MessageStatus.t) : Prop :=
  (cb_status cb = "delivered" /\ s = MessageStatus.DELIVERED)
  \/ (cb_status cb = "read" /\ s = MessageStatus.READ)
  \/ (cb_status cb = "failed" /\ s = MessageStatus.FAILED).

(** The callback carries the time [seconds]: a number of seconds from
    1970 to the end of the year 9999, a time that a [Date], Prisma's
    ISO-8601 encoding of it and the TIMESTAMP(3) columns all hold. *)
Definition timestamped (cb : StatusCallback) (seconds : Z) : Prop :=
  cb_timestamp cb = Some seconds /\ 0 <= seconds <= 253402300799.

(** A number that doubles add without rounding is within
    [Number.MAX_SAFE_INTEGER] of zero. *)
Definition safe_integer (n : Z) : Prop := Z.abs n <= 9007199254740991.

(** The writes the worker's loop body can make for campaign [id] and
    contact [k]; [P] is stable when each of them keeps it. *)
Record loop_stable (id k : string) (P : DB -> Prop) : Prop := mkLoopStable {
  stable_message :
    forall d m, P d -> P (set_messages (fun ms => (ms ++ [m])%list) d);
  stable_sent :
    forall d t, P d ->
      P (set_campaignContacts
           (map (fun r => if same_row id k r
                          then CampaignContact_set.sent t r else r)) d);
  stable_failed :
    forall d t, P d ->
      P (set_campaignContacts
           (map (fun r => if same_row id k r
                          then CampaignContact_set.failed t "Failed to send message" r
                          else r)) d);
  stable_sentCount :
    forall d c, P d -> campaigns d !! id = Some c ->
      P (set_campaigns (insert id (increment_sentCount c)) d);
  stable_failedCount :
    forall d c, P d -> campaigns d !! id = Some c ->
      P (set_campaigns (insert id (increment_failedCount c)) d)
}.


(** Every row is as in [t0], or SENT, or FAILED for the one reason the
    worker gives. *)
Definition rows_sent_or_failed (t0 : list CampaignContact.t) (d : DB) : Prop :=
  forall (i : nat) (r' : CampaignContact.t),
    campaignContacts d !! i = Some r' ->
    t0 !! i = Some r'
    \/ CampaignContact.status r' = CampaignContactStatus.SENT
    \/ (CampaignContact.status r' = CampaignContactStatus.FAILED
        /\ CampaignContact.errorMessage r' = Some "Failed to send message").

(** The store when the [try] block of the worker's loop body is cut short
    at its write number [n] (0: the message, 1: the row, 2: [sentCount]):
    the writes before that one were made. *)
Definition written_before (n : nat) (campaign : CampaignWithRelations.t)
    (campaignContact : CampaignContact.t) (at_ : Z) (d : DB) : DB :=
  let id := CampaignWithRelations.id campaign in
  let k := CampaignContact.contactId campaignContact in
  let with_message :=
    set_messages (fun ms => (ms ++ [campaign_message campaign campaignContact])%list) d in
  match n with
  | O => d
  | S O => with_message
  | _ => set_campaignContacts
           (map (fun r => if same_row id k r
                          then CampaignContact_set.sent at_ r else r))
           with_message
  end.

(** The row of contact [k] of campaign [id] as the [catch] block of the
    loop body marks it. *)
Definition marked_failed (id k : string) (at_ : Z) (d : DB) : DB :=
  set_campaignContacts
    (map (fun r => if same_row id k r
                   then CampaignContact_set.failed at_ "Failed to send message" r
                   else r))
    d.

(** The table has a row for contact [k] of campaign [id]. *)
Definition row_present (id k : string) (d : DB) : Prop :=
  existsb (same_row id k) (campaignContacts d) = true.

(** Campaign [id] has dispatched at most [n] contacts since its row was
    [c0]: [sentCount] and [failedCount] have grown by at most [n]
    together, and the other counters are those of [c0]. *)
Definition counted (id : string) (c0 : Campaign.t) (n : Z) (d : DB) : Prop :=
  exists c,
    campaigns d !! id = Some c
    /\ Campaign.sentCount c + Campaign.failedCount c
       <= Campaign.sentCount c0 + Campaign.failedCount c0 + n
    /\ Campaign.sentCount c0 <= Campaign.sentCount c
    /\ Campaign.failedCount c0 <= Campaign.failedCount c
    /\ Campaign.deliveredCount c = Campaign.deliveredCount c0
    /\ Campaign.readCount c = Campaign.readCount c0
    /\ Campaign.totalContacts c = Campaign.totalContacts c0.

(** The usage a tenant has recorded for a resource, as the ledger reads
    it. *)
Definition usage (d : DB) (userId resource : string) : Z :=
  match users d !! userId with
  | Some u => or_zero (User.quotaUsed u !! resource)
  | None => 0
  end.

(** The usage-limit check lets a request through: the resource is not
    listed, is unlimited, or is used below its cap. *)
Definition below_limit (limit : option Z) (used : Z) : Prop :=
  limit = None \/ limit = Some (-1) \/ exists L, limit = Some L /\ used < L.

(** A route that checks the limit of a resource and then counts one use
    of it, as the two functions of the ledger are made to be mounted. *)
Definition metered_route (resource userId : string) (done : reply) : Eff reply :=
  express_chain
    [checkUsageLimit resource userId;
     incrementUsage userId resource 1 ;;; ret done].

(** Two requests of one tenant on such a route, the check of the second
    running before the increment of the first: the check and the
    increment are separate awaits, so the event loop allows this order. *)
Definition two_requests_overlapped (resource userId : string)
    : Eff (reply * reply) :=
  first <- checkUsageLimit resource userId ;;
  second <- checkUsageLimit resource userId ;;
  incrementUsage userId resource 1 ;;;
  incrementUsage userId resource 1 ;;;
  ret (first, second).

(** Two campaign rows that agree on every column but [status]. *)
Definition same_but_status (c c' : Campaign.t) : Prop :=
  Campaign.userId c' = Campaign.userId c
  /\ Campaign.whatsappAccountId c' = Campaign.whatsappAccountId c
  /\ Campaign.templateId c' = Campaign.templateId c
  /\ Campaign.name c' = Campaign.name c
  /\ Campaign.description c' = Campaign.description c
  /\ Campaign.scheduledAt c' = Campaign.scheduledAt c
  /\ Campaign.startedAt c' = Campaign.startedAt c
  /\ Campaign.completedAt c' = Campaign.completedAt c
  /\ Campaign.totalContacts c' = Campaign.totalContacts c
  /\ Campaign.sentCount c' = Campaign.sentCount c
  /\ Campaign.deliveredCount c' = Campaign.deliveredCount c
  /\ Campaign.readCount c' = Campaign.readCount c
  /\ Campaign.failedCount c' = Campaign.failedCount c.

(** A message with its link to a campaign cut: [campaignId] is null and
    every other column is as in [m]. *)
Definition without_campaign (m : Message.t) : Message.t :=
  Message.mk (Message.userId m) (Message.whatsappAccountId m) (Message.contactId m)
    None (Message.templateId m) (Message.direction m) (Message.type m)
    (Message.content m) (Message.status m) (Message.whatsappMessageId m)
    (Message.errorMessage m) (Message.deliveredAt m) (Message.readAt m).

(** The feature gate lets a user through: a super admin always, anyone
    else with a plan that lists the feature and has not ended before
    [today]. *)
Definition has_access (columns : UserAccess.t) (plan : option Plan.t)
    (feature : string) (today : Z) : Prop :=
  UserAccess.role columns = Role.SUPER_ADMIN
  \/ exists p, plan = Some p
               /\ feature ∈ Plan.features p
               /\ forall e, UserAccess.planEndDate columns = Some e -> today <= e.

(** [x] is the id of a contact of [userId]. *)
Definition owned (catalog : Catalog.t) (userId x : string) : Prop :=
  exists c, c ∈ Catalog.contacts catalog
            /\ Contact.id c = x /\ Contact.userId c = userId.

(** The request names an account of the user and, if any, an approved
    template of the user. *)
Definition account_and_template_ok (catalog : Catalog.t) (userId : string)
    (body : CreateBody) : Prop :=
  Catalog.whatsappAccounts catalog !! new_whatsappAccountId body = Some userId
  /\ forall t, new_templateId body = Some t ->
       Catalog.templateRows catalog !! t = Some (userId, TemplateStatus.APPROVED).

(** What a fault-free run of the worker's loop makes of a row: the rows
    of the batch are SENT at [at_], the others are as they were. *)
Definition mark_sent (id : string) (batch : list CampaignContact.t) (at_ : Z)
    (r : CampaignContact.t) : CampaignContact.t :=
  if existsb (fun b => same_row id (CampaignContact.contactId b) r) batch
  then CampaignContact_set.sent at_ r else r.

(** ** Concrete stores used by the examples below *)

Module Scenario.

(** A plan that caps [messages] at 5 and does not list [flows]. *)
Definition capped : Plan.t :=
  Plan.mk "Capped" ["campaigns"] {[ "messages" := 5 ]}.

(** A tenant on that plan who has used its 5 messages. *)
Definition tenant : User.t :=
  User.mk (Some "plan-capped") {[ "messages" := 5; "flows" := 70 ]}.

Definition contact_row (campaignId contactId : string) : CampaignContact.t :=
  CampaignContact.mk campaignId contactId CampaignContactStatus.PENDING
    None None None None None.

(** A campaign as POST / creates it for [n] contacts, with no schedule. *)
Definition created (n : Z) : Campaign.t :=
  Campaign.mk "tenant" "wa-1" None "Launch" None CampaignStatus.DRAFT
    None None None n 0 0 0 0.

Definition rows (campaignId : string) (contactIds : list string)
    : list CampaignContact.t :=
  map (contact_row campaignId) contactIds.

Definition outbound_message (s : MessageStatus.t) : Message.t :=
  {| Message.userId := "tenant"; Message.whatsappAccountId := "wa-1";
     Message.contactId := "k1"; Message.campaignId := None;
     Message.templateId := None;
     Message.direction := MessageDirection.OUTBOUND;
     Message.type := MessageType.TEXT; Message.content := "Hi";
     Message.status := s; Message.whatsappMessageId := Some "wamid.1";
     Message.errorMessage := None; Message.deliveredAt := None;
     Message.readAt := None |}.

(** The initial store: campaign [c6] was created for six contacts and
    [c1] for one, both are DRAFT with all their rows PENDING; one outbound
    message is known to the gateway as [wamid.1]. *)
Definition db : DB :=
  {| plans := {[ "plan-capped" := capped ]};
     users := {[ "tenant" := tenant ]};
     templates := ∅;
     campaigns := {[ "c6" := created 6; "c1" := created 1 ]};
     campaignContacts :=
       rows "c6" ["k1"; "k2"; "k3"; "k4"; "k5"; "k6"] ++ rows "c1" ["k1"];
     messages := [outbound_message MessageStatus.SENT] |}.

(** The initial store with no database fault ahead, at time 1000. *)
Definition world : World := mkWorld db [] 1000.

Definition run {A} (m : Eff A) (w : World) : World := snd (m w).

Definition campaign_of (w : World) (id : string) : Campaign.t :=
  default (created 0) (campaigns (store w) !! id).

(** [c6] after its start and the run of its worker: RUNNING. *)
Definition started6 : World := run (start_and_dispatch "c6" "tenant") world.

(** ... and then paused: PAUSED. *)
Definition paused6 : World := run (pauseCampaign "c6" "tenant") started6.

(** [c1] after its start and the run of its worker: COMPLETED. *)
Definition completed1 : World := run (start_and_dispatch "c1" "tenant") world.

(** [c6] started while the database rejects the creation of the first
    message and then the increment of [failedCount] in the catch block:
    the worker's outer handler marks the campaign FAILED. *)
Definition failed6 : World :=
  run (start_and_dispatch "c6" "tenant")
      (mkWorld db [false; false; true; false; true] 1000).

Definition rename : UpdateBody := mkUpdateBody (Some "Relaunch") None None.

Definition callback (status : string) (timestamp : Z) : StatusCallback :=
  mkStatusCallback "wamid.1" status (Some timestamp) None.

End Scenario.

(** ** More concrete stores *)

Module Cases.

(** The store of [Scenario] with a second user, [root], who has no plan,
    and a second plan without any cap on messages. *)
Definition open_plan : Plan.t :=
  Plan.mk "Open" ["campaigns"; "retargeting"] {[ "messages" := -1; "flows" := 2 ]}.

Definition db : DB :=
  set_users (insert "root" (User.mk None ∅))
    (mkDB (<["plan-open" := open_plan]> (plans Scenario.db))
          (users Scenario.db) (templates Scenario.db) (campaigns Scenario.db)
          (campaignContacts Scenario.db) (messages Scenario.db)).

Definition world : World := mkWorld db [] 1000.

(** [root] is a super admin; the plan of [tenant] ends at time 1000, the
    time of [world]. *)
Definition access : gmap string UserAccess.t :=
  {[ "root" := UserAccess.mk Role.SUPER_ADMIN None;
     "tenant" := UserAccess.mk Role.USER (Some 1000) ]}.

(** The tenant owns the account [wa-1], an approved and a pending
    template, and the contacts [k1] to [k3]; [k9] is another tenant's. *)
Definition catalog : Catalog.t :=
  {| Catalog.whatsappAccounts := {[ "wa-1" := "tenant" ]};
     Catalog.templateRows :=
       {[ "t-ok" := ("tenant", TemplateStatus.APPROVED);
          "t-wait" := ("tenant", TemplateStatus.PENDING) ]};
     Catalog.contacts :=
       [Contact.mk "k1" "tenant"; Contact.mk "k2" "tenant";
        Contact.mk "k9" "other"; Contact.mk "k3" "tenant"] |}.

Definition request (contactIds : list string) : CreateBody :=
  mkCreateBody "wa-1" "Spring" None (Some "t-ok") contactIds None.

(** The tenant of [Scenario] after a quota reset and four messages: one
    message below the cap of 5. *)
Definition one_left : World :=
  Scenario.run (incrementUsage "tenant" "messages" 4)
    (Scenario.run (resetUserQuota "tenant") Scenario.world).

End Cases.

(** * Properties *)

(** ** The effect layer *)

Lemma prisma_succeeds {A} (op : DB -> option (A * DB)) (w : World) :
  next_call_succeeds w ->
  prisma op w =
    match op (store w) with
    | Some (a, d) => (Returns a, mkWorld d (tail (faults w)) (now w))
    | None => (Throws, mkWorld (store w) (tail (faults w)) (now w))
    end.
Proof.
  unfold next_call_succeeds, prisma.
  destruct (faults w) as [|[] fs]; simpl; intros H; try discriminate; reflexivity.
Qed.

Lemma fault_free_next (w : World) : fault_free w -> next_call_succeeds w.
Proof. unfold fault_free, next_call_succeeds. intros ->. reflexivity. Qed.

(** ** Quota ledger *)

Lemma checkUsageLimit_reads_only (resource userId : string) (w : World) :
  after (checkUsageLimit resource userId) w = store w.
Proof.
  unfold after, checkUsageLimit, try_catch, bind, user_findUnique_plan, prisma.
  destruct (faults w) as [|[] fs]; simpl; try reflexivity.
  - destruct (users (store w) !! userId) as [u|]; simpl; [|reflexivity].
    destruct (User.planId u ≫= _) as [p|]; simpl; [|reflexivity].
    destruct (strict_ne _ _ && js_ge _ _); reflexivity.
  - destruct (users (store w) !! userId) as [u|]; simpl; [|reflexivity].
    destruct (User.planId u ≫= _) as [p|]; simpl; [|reflexivity].
    destruct (strict_ne _ _ && js_ge _ _); reflexivity.
Qed.

(** C1: with a finite limit L (not -1) and recorded usage at least L, the
    usage-limit check replies 403 "Usage limit exceeded" with the fields
    resource, limit and used; it does not call next(), so whatever follows
    it in the route (such as a handler that increments the usage) is not
    run, and the tenant's recorded usage is what it was. *)
Theorem checkUsageLimit_rejects_at_limit
    (w : World) (userId resource planId : string)
    (user : User.t) (plan : Plan.t) (L : Z) (route : list (Eff reply)) :
  next_call_succeeds w ->
  users (store w) !! userId = Some user ->
  User.planId user = Some planId ->
  plans (store w) !! planId = Some plan ->
  Plan.limits plan !! resource = Some L ->
  L <> -1 ->
  L <= or_zero (User.quotaUsed user !! resource) ->
  let used := or_zero (User.quotaUsed user !! resource) in
  let rejection :=
    Status 403
      [("error", JString "Usage limit exceeded"); ("resource", JString resource);
       ("limit", JNumber L); ("used", JNumber used);
       ("upgradeRequired", JBool true)] in
  outcome (checkUsageLimit resource userId) w = Returns rejection
  /\ after (checkUsageLimit resource userId) w = store w
  /\ outcome (express_chain (checkUsageLimit resource userId :: route)) w
     = Returns rejection
  /\ after (express_chain (checkUsageLimit resource userId :: route)) w = store w
  /\ users (after (express_chain (checkUsageLimit resource userId :: route)) w)
       !! userId = Some user.
Proof.
  intros Hnext Hu Hp Hplan HL Hfin Hused used rejection.
  assert (Hrun : checkUsageLimit resource userId w
                 = (Returns rejection, mkWorld (store w) (tail (faults w)) (now w))).
  { unfold checkUsageLimit, try_catch, bind, user_findUnique_plan.
    rewrite prisma_succeeds by assumption.
    rewrite Hu. simpl. rewrite Hp. simpl. rewrite Hplan. simpl. rewrite HL.
    unfold strict_ne, js_ge.
    destruct (Z.eqb_spec L (-1)) as [|_]; [contradiction|].
    destruct (Z.leb_spec L (or_zero (User.quotaUsed user !! resource))) as [_|]; [|lia].
    reflexivity. }
  assert (Hchain : express_chain (checkUsageLimit resource userId :: route) w
                   = (Returns rejection, mkWorld (store w) (tail (faults w)) (now w))).
  { simpl. unfold bind. rewrite Hrun. reflexivity. }
  unfold outcome, after. rewrite Hrun, Hchain. simpl. auto.
Qed.

Lemma checkUsageLimit_rejects_at_limit_witness :
  outcome (express_chain
             [checkUsageLimit "messages" "tenant";
              incrementUsage "tenant" "messages" 1 ;;; ret (Status 200 [])])
          Scenario.world
  = Returns (Status 403
      [("error", JString "Usage limit exceeded"); ("resource", JString "messages");
       ("limit", JNumber 5); ("used", JNumber 5); ("upgradeRequired", JBool true)])
  /\ users (after (express_chain
             [checkUsageLimit "messages" "tenant";
              incrementUsage "tenant" "messages" 1 ;;; ret (Status 200 [])])
          Scenario.world) !! "tenant" = Some Scenario.tenant.
Proof.
  pose proof (checkUsageLimit_rejects_at_limit Scenario.world "tenant" "messages"
                "plan-capped" Scenario.tenant Scenario.capped 5
                [incrementUsage "tenant" "messages" 1 ;;; ret (Status 200 [])]) as H.
  destruct H as (_ & _ & Hreply & _ & Husers);
    [reflexivity | reflexivity | reflexivity | reflexivity | reflexivity
    | lia | vm_compute; discriminate | ].
  split; [exact Hreply | exact Husers].
Defined.

(** C10: a resource with no entry in the plan's limits passes the
    usage-limit check whatever the recorded usage is: the check calls
    next() and leaves the store as it was. *)
Theorem checkUsageLimit_unlisted_resource_passes
    (w : World) (userId resource planId : string)
    (user : User.t) (plan : Plan.t) :
  next_call_succeeds w ->
  users (store w) !! userId = Some user ->
  User.planId user = Some planId ->
  plans (store w) !! planId = Some plan ->
  Plan.limits plan !! resource = None ->
  outcome (checkUsageLimit resource userId) w = Returns Next
  /\ after (checkUsageLimit resource userId) w = store w.
Proof.
  intros Hnext Hu Hp Hplan HL. split; [|apply checkUsageLimit_reads_only].
  unfold outcome, checkUsageLimit, try_catch, bind, user_findUnique_plan.
  rewrite prisma_succeeds by assumption.
  rewrite Hu. simpl. rewrite Hp. simpl. rewrite Hplan. simpl. rewrite HL.
  reflexivity.
Qed.

Lemma checkUsageLimit_unlisted_resource_passes_witness :
  or_zero (User.quotaUsed Scenario.tenant !! "flows") = 70
  /\ outcome (checkUsageLimit "flows" "tenant") Scenario.world = Returns Next.
Proof.
  split; [reflexivity|].
  apply (checkUsageLimit_unlisted_resource_passes Scenario.world "tenant" "flows"
           "plan-capped" Scenario.tenant Scenario.capped); reflexivity.
Defined.

(** ** Rules for triples *)

Section Rules.
Context {A B : Type}.
Implicit Types (P R : DB -> Prop).

Lemma triple_weaken P (m : Eff A) (Q Q' : completion A -> DB -> Prop) :
  triple P m Q -> (forall r d, Q r d -> Q' r d) -> triple P m Q'.
Proof. unfold triple. auto. Qed.

Lemma triple_ret P (a : A) (Q : completion A -> DB -> Prop) :
  (forall d, P d -> Q (Returns a) d) -> triple P (ret a) Q.
Proof. unfold triple, outcome, after, ret. simpl. auto. Qed.

Lemma triple_bind P (m : Eff A) (k : A -> Eff B) (S : A -> DB -> Prop)
    (Q : completion B -> DB -> Prop) :
  triple P m (fun r d => match r with Returns a => S a d | Throws => Q Throws d end) ->
  (forall a, triple (S a) (k a) Q) ->
  triple P (bind m k) Q.
Proof.
  unfold triple, outcome, after, bind. intros Hm Hk w HP.
  specialize (Hm w HP). destruct (m w) as [[a|] w']; simpl in *; auto.
Qed.

Lemma triple_try_catch P R (m h : Eff A) (Q : completion A -> DB -> Prop) :
  triple P m (fun r d => match r with Returns a => Q (Returns a) d | Throws => R d end) ->
  triple R h Q ->
  triple P (try_catch m h) Q.
Proof.
  unfold triple, outcome, after, try_catch. intros Hm Hh w HP.
  specialize (Hm w HP). destruct (m w) as [[a|] w']; simpl in *; auto.
Qed.

Lemma triple_prisma P (op : DB -> option (A * DB)) (Q : completion A -> DB -> Prop) :
  (forall d, P d -> Q Throws d) ->
  (forall d a d', P d -> op d = Some (a, d') -> Q (Returns a) d') ->
  triple P (prisma op) Q.
Proof.
  unfold triple, outcome, after, prisma. intros Ht Hr w HP.
  destruct (faults w) as [|[] fs]; simpl; auto;
    destruct (op (store w)) as [[a d']|] eqn:Hop; simpl; eauto.
Qed.

Lemma keeps_ret P (a : A) : keeps P (ret a).
Proof. apply triple_ret. auto. Qed.

Lemma keeps_bind P (m : Eff A) (k : A -> Eff B) :
  keeps P m -> (forall a, keeps P (k a)) -> keeps P (bind m k).
Proof.
  intros Hm Hk. apply (triple_bind P m k (fun _ => P)); [|exact Hk].
  eapply triple_weaken; [exact Hm|]. intros [a|] d; auto.
Qed.

Lemma keeps_try_catch P (m h : Eff A) :
  keeps P m -> keeps P h -> keeps P (try_catch m h).
Proof.
  intros Hm Hh. apply (triple_try_catch P P); [|exact Hh].
  eapply triple_weaken; [exact Hm|]. intros [a|] d; auto.
Qed.

Lemma keeps_prisma P (op : DB -> option (A * DB)) :
  (forall d a d', P d -> op d = Some (a, d') -> P d') -> keeps P (prisma op).
Proof. intros H. apply triple_prisma; auto. Qed.
End Rules.

Lemma keeps_for_of {A} (P : DB -> Prop) (l : list A) (body : A -> Eff unit) :
  (forall x, x ∈ l -> keeps P (body x)) -> keeps P (for_of l body).
Proof.
  induction l as [|x l IH]; intros Hbody; simpl.
  - apply keeps_ret.
  - apply keeps_bind.
    + apply Hbody. apply list_elem_of_here.
    + intros _. apply IH. intros y Hy. apply Hbody.
      apply list_elem_of_further, Hy.
Qed.


Lemma keeps_new_Date (P : DB -> Prop) : keeps P new_Date.
Proof. unfold keeps, triple, outcome, after, new_Date. simpl. auto. Qed.

(** ** The dispatch worker keeps what its writes keep *)

Lemma keeps_campaign_update (P : DB -> Prop) (id : string)
    (data : Campaign.t -> Campaign.t) :
  (forall d c, P d -> campaigns d !! id = Some c ->
     P (set_campaigns (insert id (data c)) d)) ->
  keeps P (campaign_update id data).
Proof.
  intros H. apply keeps_prisma. intros d a d' HP.
  destruct (campaigns d !! id) as [c|] eqn:Hc; [|discriminate].
  intros [= <- <-]. apply H; assumption.
Qed.

Lemma keeps_campaignContact_update (P : DB -> Prop) (id k : string)
    (data : CampaignContact.t -> CampaignContact.t) :
  (forall d, P d ->
     P (set_campaignContacts
          (map (fun r => if same_row id k r then data r else r)) d)) ->
  keeps P (campaignContact_update id k data).
Proof.
  intros H. apply keeps_prisma. intros d a d' HP.
  destruct (existsb _ _); [|discriminate].
  intros [= <- <-]. apply H; assumption.
Qed.

Lemma keeps_dispatch_contact (P : DB -> Prop) (campaign : CampaignWithRelations.t)
    (campaignContact : CampaignContact.t) :
  loop_stable (CampaignWithRelations.id campaign)
    (CampaignContact.contactId campaignContact) P ->
  keeps P (dispatch_contact campaign campaignContact).
Proof.
  intros [Hm Hs Hf Hsc Hfc]. unfold dispatch_contact.
  apply keeps_try_catch.
  - apply keeps_bind.
    { apply keeps_prisma. intros d a d' HP [= <- <-]. apply Hm, HP. }
    intros _. apply keeps_bind; [apply keeps_new_Date|]. intros t.
    apply keeps_bind.
    { apply keeps_campaignContact_update. intros d HP. apply Hs, HP. }
    intros _. apply keeps_bind; [|intros; apply keeps_ret].
    apply keeps_campaign_update. exact Hsc.
  - apply keeps_bind; [apply keeps_new_Date|]. intros t.
    apply keeps_bind.
    { apply keeps_campaignContact_update. intros d HP. apply Hf, HP. }
    intros _. apply keeps_bind; [|intros; apply keeps_ret].
    apply keeps_campaign_update. exact Hfc.
Qed.

Lemma keeps_dispatch_batch (P : DB -> Prop) (campaign : CampaignWithRelations.t)
    (batch : list CampaignContact.t) :
  (forall r, r ∈ batch ->
     loop_stable (CampaignWithRelations.id campaign) (CampaignContact.contactId r) P) ->
  keeps P (for_of batch (dispatch_contact campaign)).
Proof.
  intros H. apply keeps_for_of. intros r Hr. apply keeps_dispatch_contact, H, Hr.
Qed.

(** ** Campaign state machine *)

Lemma find_campaign_Some (d : DB) (id userId : string) (c : Campaign.t) :
  find_campaign d id userId = Some c ->
  campaigns d !! id = Some c /\ Campaign.userId c = userId.
Proof.
  unfold find_campaign. destruct (campaigns d !! id) as [c'|]; [|discriminate].
  case_bool_decide; [|discriminate]. intros [= ->]. auto.
Qed.

Lemma find_campaign_owner (d : DB) (id userId : string) (c : Campaign.t) :
  campaigns d !! id = Some c -> Campaign.userId c = userId ->
  find_campaign d id userId = Some c.
Proof.
  unfold find_campaign. intros -> Ho. rewrite bool_decide_eq_true_2; auto.
Qed.

Lemma find_campaign_cases (d : DB) (id userId : string) (c : Campaign.t) :
  campaigns d !! id = Some c ->
  find_campaign d id userId = Some c \/ find_campaign d id userId = None.
Proof.
  unfold find_campaign. intros ->. case_bool_decide; auto.
Qed.

Lemma is_status_true (c : Campaign.t) (s : CampaignStatus.t) :
  Campaign.status c = s -> is_status c s = true.
Proof. intros H. unfold is_status. apply bool_decide_eq_true_2, H. Qed.

Lemma is_status_false (c : Campaign.t) (s : CampaignStatus.t) :
  Campaign.status c <> s -> is_status c s = false.
Proof. intros H. unfold is_status. apply bool_decide_eq_false_2, H. Qed.

Lemma status_set_status (s : CampaignStatus.t) (c : Campaign.t) :
  Campaign.status (Campaign_set.status s c) = s.
Proof. destruct c; reflexivity. Qed.

Lemma status_set_startedAt (v : option Z) (c : Campaign.t) :
  Campaign.status (Campaign_set.startedAt v c) = Campaign.status c.
Proof. destruct c; reflexivity. Qed.

Lemma status_edit n d sa (s : CampaignStatus.t) (c : Campaign.t) :
  Campaign.status (Campaign_set.edit n d sa s c) = s.
Proof. destruct c; reflexivity. Qed.

(** A start request on a campaign that is neither DRAFT nor SCHEDULED
    writes nothing and launches no worker, for every fault schedule. *)
Lemma startCampaign_refused (w : World) (id userId : string) (c : Campaign.t) :
  campaigns (store w) !! id = Some c ->
  Campaign.status c <> CampaignStatus.DRAFT ->
  Campaign.status c <> CampaignStatus.SCHEDULED ->
  exists r w', startCampaign id userId w = (Returns (r, None), w')
               /\ store w' = store w.
Proof.
  intros Hc Hd Hs.
  unfold startCampaign, try_catch, bind, campaign_findFirst_include, prisma.
  destruct (find_campaign_cases _ id userId _ Hc) as [Hf|Hf]; rewrite Hf;
    destruct (faults w) as [|[] fs]; simpl;
    rewrite ?is_status_false by assumption; simpl; eauto.
Qed.

Lemma start_and_dispatch_refused (w : World) (id userId : string) (c : Campaign.t) :
  campaigns (store w) !! id = Some c ->
  Campaign.status c <> CampaignStatus.DRAFT ->
  Campaign.status c <> CampaignStatus.SCHEDULED ->
  after (startCampaign id userId) w = store w
  /\ after (start_and_dispatch id userId) w = store w.
Proof.
  intros Hc Hd Hs.
  destruct (startCampaign_refused w id userId c Hc Hd Hs) as (r & w' & Hrun & Hst).
  unfold after, start_and_dispatch, bind. rewrite Hrun. simpl. auto.
Qed.

Lemma pauseCampaign_refused (w : World) (id userId : string) (c : Campaign.t) :
  campaigns (store w) !! id = Some c ->
  Campaign.status c <> CampaignStatus.RUNNING ->
  after (pauseCampaign id userId) w = store w.
Proof.
  intros Hc Hr.
  unfold after, pauseCampaign, try_catch, bind, campaign_findFirst, prisma.
  destruct (find_campaign_cases _ id userId _ Hc) as [Hf|Hf]; rewrite Hf;
    destruct (faults w) as [|[] fs]; simpl;
    rewrite ?is_status_false by assumption; simpl; auto.
Qed.

Lemma updateCampaign_refused (w : World) (id userId : string) (c : Campaign.t)
    (body : UpdateBody) :
  campaigns (store w) !! id = Some c ->
  Campaign.status c = CampaignStatus.RUNNING
  \/ Campaign.status c = CampaignStatus.COMPLETED ->
  after (updateCampaign id userId body) w = store w.
Proof.
  intros Hc Hr.
  assert (Hg : is_status c CampaignStatus.RUNNING
               || is_status c CampaignStatus.COMPLETED = true).
  { destruct Hr as [Hr|Hr]; rewrite (is_status_true _ _ Hr); auto using orb_true_r. }
  unfold after, updateCampaign, try_catch, bind, campaign_findFirst, prisma.
  destruct (find_campaign_cases _ id userId _ Hc) as [Hf|Hf]; rewrite Hf;
    destruct (faults w) as [|[] fs]; simpl; rewrite ?Hg; simpl; auto.
Qed.

(** What an accepted edit does when no database call fails. *)
Lemma updateCampaign_accepted (w : World) (id userId : string) (c : Campaign.t)
    (body : UpdateBody) :
  fault_free w ->
  find_campaign (store w) id userId = Some c ->
  Campaign.status c <> CampaignStatus.RUNNING ->
  Campaign.status c <> CampaignStatus.COMPLETED ->
  let edited :=
    Campaign_set.edit (body_name body) (body_description body) (body_scheduledAt body)
      (match body_scheduledAt body with
       | Some _ => CampaignStatus.SCHEDULED
       | None => CampaignStatus.DRAFT
       end) c in
  outcome (updateCampaign id userId body) w = Returns (Entity 200 edited)
  /\ after (updateCampaign id userId body) w
     = set_campaigns (insert id edited) (store w).
Proof.
  intros Hff Hf Hr Hc edited.
  destruct (find_campaign_Some _ _ _ _ Hf) as [Hl _].
  unfold outcome, after, updateCampaign, try_catch, bind, campaign_findFirst,
    campaign_update, prisma.
  rewrite Hff. simpl. rewrite Hf.
  rewrite !is_status_false by assumption. simpl. rewrite Hl. simpl. auto.
Qed.

(** C7: start succeeds, and moves the campaign to RUNNING, only from
    DRAFT or SCHEDULED; in any other status (RUNNING and COMPLETED
    included, hence on a second start) it replies 400 "Campaign cannot be
    started", writes nothing and launches no worker. *)
Theorem start_requires_draft_or_scheduled
    (w : World) (id userId : string) (c : Campaign.t) :
  find_campaign (store w) id userId = Some c ->
  (forall body job,
      outcome (startCampaign id userId) w = Returns (Status 200 body, job) ->
      (Campaign.status c = CampaignStatus.DRAFT
       \/ Campaign.status c = CampaignStatus.SCHEDULED)
      /\ campaign_status (after (startCampaign id userId) w) id
         = Some CampaignStatus.RUNNING)
  /\ (Campaign.status c <> CampaignStatus.DRAFT ->
      Campaign.status c <> CampaignStatus.SCHEDULED ->
      next_call_succeeds w ->
      outcome (startCampaign id userId) w
      = Returns (Status 400 [("error", JString "Campaign cannot be started")], None)
      /\ outcome (start_and_dispatch id userId) w
         = Returns (Status 400 [("error", JString "Campaign cannot be started")])
      /\ after (startCampaign id userId) w = store w
      /\ after (start_and_dispatch id userId) w = store w)
  /\ (Campaign.status c = CampaignStatus.DRAFT
      \/ Campaign.status c = CampaignStatus.SCHEDULED ->
      fault_free w ->
      outcome (startCampaign id userId) w
      = Returns (Status 200 [("message", JString "Campaign started successfully")],
                 Some (CampaignWithRelations.mk id c
                         (Campaign.templateId c ≫= (fun t => templates (store w) !! t))
                         (contacts_of (store w) id)))
      /\ campaign_status (after (startCampaign id userId) w) id
         = Some CampaignStatus.RUNNING).
Proof.
  intros Hf. destruct (find_campaign_Some _ _ _ _ Hf) as [Hl _].
  split; [|split].
  - intros body job.
    unfold outcome, after, campaign_status, startCampaign, try_catch, bind,
      campaign_findFirst_include, campaign_update, new_Date, prisma.
    destruct (faults w) as [|[] fs]; simpl; rewrite ?Hf; simpl;
      try discriminate;
      unfold is_status; destruct (Campaign.status c) eqn:Hs; simpl;
      try discriminate;
      try (destruct fs as [|[] fs]; simpl); rewrite ?Hl; simpl;
      try discriminate;
      intros _; (split; [auto|]);
      rewrite lookup_insert_eq; simpl;
      rewrite status_set_startedAt, status_set_status; reflexivity.
  - intros Hd Hs Hnext.
    destruct (start_and_dispatch_refused w id userId c Hl Hd Hs) as [Ha Hb].
    assert (Hrun : startCampaign id userId w
                   = (Returns (Status 400 [("error", JString "Campaign cannot be started")],
                               None),
                      mkWorld (store w) (tail (faults w)) (now w))).
    { unfold startCampaign, try_catch, bind, campaign_findFirst_include.
      rewrite prisma_succeeds by assumption. rewrite Hf. simpl.
      rewrite !is_status_false by assumption. reflexivity. }
    repeat split; try assumption.
    + unfold outcome. rewrite Hrun. reflexivity.
    + unfold outcome, start_and_dispatch, bind. rewrite Hrun. reflexivity.
  - intros Hs Hff.
    unfold outcome, after, campaign_status, startCampaign, try_catch, bind,
      campaign_findFirst_include, campaign_update, new_Date, prisma.
    rewrite Hff. simpl. rewrite Hf.
    assert (Hg : negb (is_status c CampaignStatus.DRAFT)
                 && negb (is_status c CampaignStatus.SCHEDULED) = false).
    { destruct Hs as [Hs|Hs]; rewrite (is_status_true _ _ Hs); simpl; auto using andb_false_r. }
    simpl. rewrite Hg. simpl. rewrite Hl. simpl. split; [reflexivity|].
    rewrite lookup_insert_eq. simpl.
    rewrite status_set_startedAt, status_set_status. reflexivity.
Qed.

(** Starting twice: the second start of campaign [c6], after its first
    start and the run of its worker, is refused. *)
Lemma start_requires_draft_or_scheduled_witness :
  campaign_status (store Scenario.started6) "c6" = Some CampaignStatus.RUNNING
  /\ outcome (start_and_dispatch "c6" "tenant") Scenario.started6
     = Returns (Status 400 [("error", JString "Campaign cannot be started")])
  /\ after (start_and_dispatch "c6" "tenant") Scenario.started6
     = store Scenario.started6.
Proof.
  destruct (start_requires_draft_or_scheduled Scenario.started6 "c6" "tenant"
              (Scenario.campaign_of Scenario.started6 "c6"))
    as (_ & Hrefuse & _); [reflexivity|].
  destruct Hrefuse as (_ & Hreply & _ & Hstore);
    [discriminate | discriminate | reflexivity |].
  split; [reflexivity | split; assumption].
Defined.

(** C6, as the code has it: COMPLETED is terminal (start, pause and edit
    all leave the store as it is); FAILED is terminal for start and pause
    only, since the edit guard names RUNNING and COMPLETED and nothing
    else: an edit of a FAILED campaign by its owner is accepted and puts
    it back to SCHEDULED (with a schedule) or DRAFT (without). *)
Theorem completed_terminal_failed_editable
    (w : World) (id userId : string) (c : Campaign.t) (body : UpdateBody) :
  campaigns (store w) !! id = Some c ->
  (Campaign.status c = CampaignStatus.COMPLETED ->
     after (startCampaign id userId) w = store w
     /\ after (start_and_dispatch id userId) w = store w
     /\ after (pauseCampaign id userId) w = store w
     /\ after (updateCampaign id userId body) w = store w)
  /\ (Campaign.status c = CampaignStatus.FAILED ->
     after (startCampaign id userId) w = store w
     /\ after (start_and_dispatch id userId) w = store w
     /\ after (pauseCampaign id userId) w = store w
     /\ (Campaign.userId c = userId -> fault_free w ->
         campaign_status (after (updateCampaign id userId body) w) id
         = Some (match body_scheduledAt body with
                 | Some _ => CampaignStatus.SCHEDULED
                 | None => CampaignStatus.DRAFT
                 end))).
Proof.
  intros Hl. split; intros Hs.
  - destruct (start_and_dispatch_refused w id userId c Hl) as [H1 H2];
      try (rewrite Hs; discriminate).
    repeat split; auto.
    + apply (pauseCampaign_refused w id userId c Hl). rewrite Hs. discriminate.
    + apply (updateCampaign_refused w id userId c body Hl). auto.
  - destruct (start_and_dispatch_refused w id userId c Hl) as [H1 H2];
      try (rewrite Hs; discriminate).
    repeat split; auto.
    + apply (pauseCampaign_refused w id userId c Hl). rewrite Hs. discriminate.
    + intros Ho Hff.
      destruct (updateCampaign_accepted w id userId c body Hff) as [_ Hafter];
        try (rewrite Hs; discriminate).
      { apply find_campaign_owner; assumption. }
      rewrite Hafter. unfold campaign_status. simpl.
      rewrite lookup_insert_eq. simpl. rewrite status_edit. reflexivity.
Qed.

Lemma completed_terminal_failed_editable_witness :
  (campaign_status (store Scenario.completed1) "c1" = Some CampaignStatus.COMPLETED
   /\ after (start_and_dispatch "c1" "tenant") Scenario.completed1
      = store Scenario.completed1
   /\ after (pauseCampaign "c1" "tenant") Scenario.completed1
      = store Scenario.completed1
   /\ after (updateCampaign "c1" "tenant" Scenario.rename) Scenario.completed1
      = store Scenario.completed1)
  /\ (campaign_status (store Scenario.failed6) "c6" = Some CampaignStatus.FAILED
      /\ after (start_and_dispatch "c6" "tenant") Scenario.failed6
         = store Scenario.failed6
      /\ after (pauseCampaign "c6" "tenant") Scenario.failed6
         = store Scenario.failed6
      /\ campaign_status
           (after (updateCampaign "c6" "tenant" Scenario.rename) Scenario.failed6)
           "c6" = Some CampaignStatus.DRAFT).
Proof.
  destruct (completed_terminal_failed_editable Scenario.completed1 "c1" "tenant"
              (Scenario.campaign_of Scenario.completed1 "c1") Scenario.rename)
    as [Hdone _]; [reflexivity|].
  destruct Hdone as (_ & Hstart & Hpause & Hedit); [reflexivity|].
  destruct (completed_terminal_failed_editable Scenario.failed6 "c6" "tenant"
              (Scenario.campaign_of Scenario.failed6 "c6") Scenario.rename)
    as [_ Hbroken]; [reflexivity|].
  destruct Hbroken as (_ & Hstart' & Hpause' & Hedit'); [reflexivity|].
  split; [split; [reflexivity|auto]|].
  split; [reflexivity|]. split; [exact Hstart'|]. split; [exact Hpause'|].
  apply Hedit'; reflexivity.
Defined.

(** C6 as stated fails: campaign [c6] is FAILED after a run of its worker
    that the database interrupted, and an edit by its owner moves it to
    DRAFT. *)
Lemma failed_campaign_leaves_failed_by_edit :
  campaign_status (store Scenario.failed6) "c6" = Some CampaignStatus.FAILED
  /\ campaign_status
       (after (updateCampaign "c6" "tenant" Scenario.rename) Scenario.failed6)
       "c6" = Some CampaignStatus.DRAFT.
Proof. split; vm_compute; reflexivity. Qed.

(** C8, as the code has it: an edit is refused exactly when the campaign
    is RUNNING or COMPLETED, with 400 "Cannot edit running or completed
    campaign" and no write; in every other status (DRAFT, SCHEDULED, and
    also PAUSED and FAILED) it is accepted, stores the new name,
    description and schedule, and sets the status to SCHEDULED or DRAFT. *)
Theorem edit_refused_iff_running_or_completed
    (w : World) (id userId : string) (c : Campaign.t) (body : UpdateBody) :
  find_campaign (store w) id userId = Some c ->
  fault_free w ->
  let edited :=
    Campaign_set.edit (body_name body) (body_description body) (body_scheduledAt body)
      (match body_scheduledAt body with
       | Some _ => CampaignStatus.SCHEDULED
       | None => CampaignStatus.DRAFT
       end) c in
  (Campaign.status c = CampaignStatus.RUNNING
   \/ Campaign.status c = CampaignStatus.COMPLETED ->
     outcome (updateCampaign id userId body) w
     = Returns (Status 400
                  [("error", JString "Cannot edit running or completed campaign")])
     /\ after (updateCampaign id userId body) w = store w)
  /\ (Campaign.status c <> CampaignStatus.RUNNING ->
      Campaign.status c <> CampaignStatus.COMPLETED ->
      outcome (updateCampaign id userId body) w = Returns (Entity 200 edited)
      /\ campaigns (after (updateCampaign id userId body) w) !! id = Some edited).
Proof.
  intros Hf Hff edited.
  destruct (find_campaign_Some _ _ _ _ Hf) as [Hl _].
  split.
  - intros Hs. split; [|apply (updateCampaign_refused w id userId c body Hl Hs)].
    unfold outcome, updateCampaign, try_catch, bind, campaign_findFirst, prisma.
    rewrite Hff. simpl. rewrite Hf.
    destruct Hs as [Hs|Hs]; rewrite (is_status_true _ _ Hs); simpl;
      rewrite ?orb_true_r; reflexivity.
  - intros Hr Hc.
    destruct (updateCampaign_accepted w id userId c body Hff Hf Hr Hc) as [Ho Ha].
    split; [exact Ho|]. rewrite Ha. simpl. apply lookup_insert_eq.
Qed.

Lemma edit_refused_iff_running_or_completed_witness :
  campaign_status (store Scenario.started6) "c6" = Some CampaignStatus.RUNNING
  /\ outcome (updateCampaign "c6" "tenant" Scenario.rename) Scenario.started6
     = Returns (Status 400
                  [("error", JString "Cannot edit running or completed campaign")])
  /\ after (updateCampaign "c6" "tenant" Scenario.rename) Scenario.started6
     = store Scenario.started6.
Proof.
  destruct (edit_refused_iff_running_or_completed Scenario.started6 "c6" "tenant"
              (Scenario.campaign_of Scenario.started6 "c6") Scenario.rename)
    as [Hlocked _]; [reflexivity | reflexivity |].
  split; [reflexivity|]. apply Hlocked. left. reflexivity.
Defined.

(** C8 as stated fails: campaign [c6], started and then paused, is
    PAUSED with five contacts dispatched; the edit is accepted, renames it
    and takes it out of PAUSED. *)
Lemma paused_campaign_is_edited :
  campaign_status (store Scenario.paused6) "c6" = Some CampaignStatus.PAUSED
  /\ outcome (updateCampaign "c6" "tenant" Scenario.rename) Scenario.paused6
     = Returns (Entity 200
         (Campaign.mk "tenant" "wa-1" None "Relaunch" None CampaignStatus.DRAFT
            None (Some 1000) None 6 5 0 0 0))
  /\ campaign_status
       (after (updateCampaign "c6" "tenant" Scenario.rename) Scenario.paused6)
       "c6" = Some CampaignStatus.DRAFT.
Proof. repeat split; vm_compute; reflexivity. Qed.
(** ** Status ingestion *)

Lemma timestamped_date (cb : StatusCallback) (seconds : Z) :
  timestamped cb seconds -> callback_date cb = TimeValue (seconds * 1000).
Proof.
  intros [Ht Hrange]. unfold callback_date, Date_of_number. rewrite Ht. simpl.
  destruct (Z.abs (seconds * 1000) <=? 8640000000000000) eqn:Hle;
    [reflexivity | apply Z.leb_gt in Hle; lia].
Qed.

(** What a callback with a usable time, or a failed one, makes Prisma
    write. *)
Lemma dated_data_accepted (cb : StatusCallback) :
  (cb_status cb <> "failed" -> exists seconds, timestamped cb seconds) ->
  data_accepted (status_updateData cb) = true.
Proof.
  intros Hdated. unfold status_updateData.
  destruct (bool_decide (cb_status cb = "failed")) eqn:Hf.
  - apply bool_decide_eq_true_1 in Hf. rewrite Hf. reflexivity.
  - apply bool_decide_eq_false_1 in Hf.
    destruct (Hdated Hf) as (seconds & Ht).
    rewrite (timestamped_date cb seconds Ht).
    repeat case_bool_decide; reflexivity.
Qed.

Lemma handleMessageStatus_run (w : World) (cb : StatusCallback) :
  next_call_succeeds w ->
  data_accepted (status_updateData cb) = true ->
  handleMessageStatus cb w
  = (Returns tt,
     mkWorld
       (set_messages
          (map (fun m => if addressed (cb_id cb) m
                         then apply_update (status_updateData cb) m else m))
          (store w))
       (tail (faults w)) (now w)).
Proof.
  intros Hnext Hdata. unfold handleMessageStatus, try_catch, message_updateMany.
  rewrite prisma_succeeds by assumption. rewrite Hdata. reflexivity.
Qed.

(** A callback whose data Prisma refuses is dropped: nothing is written,
    and the webhook carries on. *)
Lemma handleMessageStatus_refused (w : World) (cb : StatusCallback) :
  data_accepted (status_updateData cb) = false ->
  outcome (handleMessageStatus cb) w = Returns tt
  /\ after (handleMessageStatus cb) w = store w.
Proof.
  intros Hdata.
  unfold outcome, after, handleMessageStatus, try_catch, message_updateMany, prisma, ret.
  rewrite Hdata. destruct (faults w) as [|[] fs]; simpl; split; reflexivity.
Qed.

(** A delivered or read callback whose timestamp is not a number, or
    leads beyond the range of a [Date], is such a callback. *)
Lemma undated_callback_refused (cb : StatusCallback) :
  cb_status cb = "delivered" \/ cb_status cb = "read" ->
  callback_date cb = InvalidDate ->
  data_accepted (status_updateData cb) = false.
Proof.
  intros [Hs|Hs] Hdate; unfold status_updateData; rewrite Hs, Hdate; reflexivity.
Qed.

(** So a delivered or read callback whose timestamp is not a number, or
    lies more than 8.64e12 seconds from the epoch, writes nothing, under
    every schedule of database faults. *)
Lemma undated_callback_dropped (w : World) (cb : StatusCallback) :
  cb_status cb = "delivered" \/ cb_status cb = "read" ->
  cb_timestamp cb = None
  \/ (exists seconds, cb_timestamp cb = Some seconds
                      /\ 8640000000000 < Z.abs seconds) ->
  outcome (handleMessageStatus cb) w = Returns tt
  /\ after (handleMessageStatus cb) w = store w.
Proof.
  intros Hs Ht. apply handleMessageStatus_refused, undated_callback_refused;
    [exact Hs|].
  unfold callback_date, Date_of_number.
  destruct Ht as [-> | (seconds & -> & Hfar)]; [reflexivity|]. simpl.
  destruct (Z.abs (seconds * 1000) <=? 8640000000000000) eqn:Hle;
    [apply Z.leb_le in Hle; lia | reflexivity].
Qed.

Lemma reports_updateData (cb : StatusCallback) (s : MessageStatus.t) :
  reports cb s -> upd_status (status_updateData cb) = Some s.
Proof.
  unfold reports, status_updateData.
  intros [[Hc ->]|[[Hc ->]|[Hc ->]]]; rewrite Hc; reflexivity.
Qed.

Lemma messages_after_callback (w : World) (cb : StatusCallback) (i : nat) :
  next_call_succeeds w ->
  data_accepted (status_updateData cb) = true ->
  messages (after (handleMessageStatus cb) w) !! i
  = (fun m => if addressed (cb_id cb) m
              then apply_update (status_updateData cb) m else m)
      <$> messages (store w) !! i.
Proof.
  intros Hnext Hdata. unfold after. rewrite handleMessageStatus_run by assumption.
  simpl. apply list_lookup_fmap.
Qed.

(** C3, as the code has it: the webhook overwrites.  After a failed
    callback, or a delivered or read callback whose timestamp is a time
    from 1970 to the year 9999, every message carrying the callback's
    provider message id has the callback's status, whatever its status
    was before (FAILED and DELIVERED included); the other messages are as
    they were. *)
Theorem status_callback_overwrites
    (w : World) (cb : StatusCallback) (s : MessageStatus.t)
    (i : nat) (m : Message.t) :
  next_call_succeeds w ->
  reports cb s ->
  (cb_status cb <> "failed" -> exists seconds, timestamped cb seconds) ->
  messages (store w) !! i = Some m ->
  (Message.whatsappMessageId m = Some (cb_id cb) ->
     exists m', messages (after (handleMessageStatus cb) w) !! i = Some m'
                /\ Message.status m' = s)
  /\ (Message.whatsappMessageId m <> Some (cb_id cb) ->
     messages (after (handleMessageStatus cb) w) !! i = Some m).
Proof.
  intros Hnext Hrep Hdated Hm.
  rewrite messages_after_callback by (try assumption; apply dated_data_accepted, Hdated).
  rewrite Hm. simpl.
  unfold addressed. split; intros Hid.
  - rewrite bool_decide_eq_true_2 by assumption.
    eexists; split; [reflexivity|]. simpl.
    rewrite (reports_updateData cb s Hrep). reflexivity.
  - rewrite bool_decide_eq_false_2 by assumption. reflexivity.
Qed.

Lemma status_callback_overwrites_witness :
  let failed :=
    Scenario.run (handleMessageStatus (Scenario.callback "failed" 10)) Scenario.world in
  Message.status <$> messages (store failed) !! 0%nat = Some MessageStatus.FAILED
  /\ exists m',
       messages (after (handleMessageStatus (Scenario.callback "read" 20)) failed)
         !! 0%nat = Some m'
       /\ Message.status m' = MessageStatus.READ.
Proof.
  intros failed. split; [reflexivity|].
  destruct (messages (store failed) !! 0%nat) as [m|] eqn:Hm;
    [|vm_compute in Hm; discriminate].
  apply (status_callback_overwrites failed (Scenario.callback "read" 20)
           MessageStatus.READ 0 m); try assumption.
  - reflexivity.
  - right; left. split; reflexivity.
  - intros _. exists 20. split; [reflexivity | lia].
  - vm_compute in Hm. injection Hm as <-. reflexivity.
Defined.

(** C3 as stated fails both ways: a delivered callback after a failed one
    leaves the message DELIVERED, and a failed callback after a delivered
    one leaves it FAILED. *)
Lemma failed_and_delivered_overwrite_each_other :
  let failed :=
    Scenario.run (handleMessageStatus (Scenario.callback "failed" 10)) Scenario.world in
  let delivered :=
    Scenario.run (handleMessageStatus (Scenario.callback "delivered" 10)) Scenario.world in
  map Message.status (messages (store failed)) = [MessageStatus.FAILED]
  /\ map Message.status
       (messages (after (handleMessageStatus (Scenario.callback "delivered" 20)) failed))
     = [MessageStatus.DELIVERED]
  /\ map Message.status (messages (store delivered)) = [MessageStatus.DELIVERED]
  /\ map Message.status
       (messages (after (handleMessageStatus (Scenario.callback "failed" 20)) delivered))
     = [MessageStatus.FAILED].
Proof. repeat split; vm_compute; reflexivity. Qed.

(** C4, as the code has it: a read callback whose timestamp is a time
    from 1970 to the year 9999 sets the status READ and [readAt] to that
    time (its seconds times 1000) on every message carrying the provider
    message id, and leaves [deliveredAt] as it was; with no delivered
    callback recorded it stays null. *)
Theorem read_callback_sets_readAt_only
    (w : World) (cb : StatusCallback) (seconds : Z) (i : nat) (m : Message.t) :
  next_call_succeeds w ->
  cb_status cb = "read" ->
  timestamped cb seconds ->
  messages (store w) !! i = Some m ->
  Message.whatsappMessageId m = Some (cb_id cb) ->
  exists m', messages (after (handleMessageStatus cb) w) !! i = Some m'
             /\ Message.status m' = MessageStatus.READ
             /\ Message.readAt m' = Some (seconds * 1000)
             /\ Message.deliveredAt m' = Message.deliveredAt m.
Proof.
  intros Hnext Hread Ht Hm Hid.
  rewrite messages_after_callback
    by (try assumption; apply dated_data_accepted; intros _; exists seconds; exact Ht).
  rewrite Hm. simpl.
  unfold addressed. rewrite bool_decide_eq_true_2 by assumption.
  eexists; split; [reflexivity|].
  unfold status_updateData. rewrite Hread, (timestamped_date cb seconds Ht).
  simpl. auto.
Qed.

Lemma read_callback_sets_readAt_only_witness :
  exists m',
    messages (after (handleMessageStatus (Scenario.callback "read" 20)) Scenario.world)
      !! 0%nat = Some m'
    /\ Message.status m' = MessageStatus.READ
    /\ Message.readAt m' = Some 20000
    /\ Message.deliveredAt m' = None.
Proof.
  apply (read_callback_sets_readAt_only Scenario.world (Scenario.callback "read" 20)
           20 0 (Scenario.outbound_message MessageStatus.SENT));
    try reflexivity.
  split; [reflexivity | lia].
Defined.

(** C4 as stated fails: after a read callback on a message with no
    delivered callback recorded, [readAt] is the callback's time and
    [deliveredAt] is still null. *)
Lemma read_callback_leaves_deliveredAt_null :
  map Message.deliveredAt (messages Scenario.db) = [None]
  /\ map Message.readAt
       (messages (after (handleMessageStatus (Scenario.callback "read" 20))
                        Scenario.world)) = [Some 20000]
  /\ map Message.deliveredAt
       (messages (after (handleMessageStatus (Scenario.callback "read" 20))
                        Scenario.world)) = [None].
Proof. repeat split; vm_compute; reflexivity. Qed.

(** ** Dispatch worker *)

Lemma lookup_updated_rows {A B} (t : list A) (i : nat) (g : A -> B) :
  map g t !! i = g <$> t !! i.
Proof. apply (list_lookup_fmap g). Qed.




Section Invariants.
Variables (id : string) (ks : list string) (t0 : list CampaignContact.t).

(** The worker writes neither users nor plans. *)
Lemma quota_tables_stable (k : string) (u0 : gmap string User.t)
    (p0 : gmap string Plan.t) :
  loop_stable id k (fun d => users d = u0 /\ plans d = p0).
Proof. constructor; intros; simpl; assumption. Qed.


Lemma rows_sent_or_failed_stable (k : string) :
  loop_stable id k (rows_sent_or_failed t0).
Proof.
  assert (Hrows : forall d g,
             (forall r,
                 CampaignContact.status (g r) = CampaignContactStatus.SENT
                 \/ (CampaignContact.status (g r) = CampaignContactStatus.FAILED
                     /\ CampaignContact.errorMessage (g r)
                        = Some "Failed to send message")) ->
             rows_sent_or_failed t0 d ->
             rows_sent_or_failed t0
               (set_campaignContacts
                  (map (fun r => if same_row id k r then g r else r)) d)).
  { intros d g Hg H i r'. simpl. rewrite lookup_updated_rows.
    destruct (campaignContacts d !! i) as [r|] eqn:Hr; [|discriminate].
    simpl. destruct (same_row id k r); intros [= <-].
    - right. apply Hg.
    - apply (H i r Hr). }
  constructor.
  - intros d m H. exact H.
  - intros d t H. apply Hrows; [|exact H]. intros r. left. destruct r; reflexivity.
  - intros d t H. apply Hrows; [|exact H]. intros r. right.
    destruct r; split; reflexivity.
  - intros d c H _. exact H.
  - intros d c H _. exact H.
Qed.


End Invariants.

Lemma keeps_count_pending (P : DB -> Prop) (id : string) :
  keeps P (campaignContact_count_pending id).
Proof. apply keeps_prisma. intros d a d' HP [= _ <-]. exact HP. Qed.

(** A predicate that the loop's writes and any write to the campaign row
    keep is kept by the whole worker. *)
Lemma keeps_processCampaignMessages (P : DB -> Prop)
    (campaign : CampaignWithRelations.t) :
  let id := CampaignWithRelations.id campaign in
  (forall r, r ∈ take 5 (CampaignWithRelations.contacts campaign) ->
     loop_stable id (CampaignContact.contactId r) P) ->
  (forall d c c', P d -> campaigns d !! id = Some c ->
     P (set_campaigns (insert id c') d)) ->
  keeps P (processCampaignMessages campaign).
Proof.
  intros id Hloop Hrow. unfold processCampaignMessages, dispatch_loop.
  apply keeps_try_catch.
  - apply keeps_bind; [apply keeps_dispatch_batch, Hloop|]. intros _.
    apply keeps_bind; [apply keeps_count_pending|]. intros n.
    destruct (n =? 0); [|apply keeps_ret].
    apply keeps_bind; [apply keeps_new_Date|]. intros t.
    apply keeps_bind; [|intros; apply keeps_ret].
    apply keeps_campaign_update. intros d c. apply Hrow.
  - apply keeps_bind; [|intros; apply keeps_ret].
    apply keeps_campaign_update. intros d c. apply Hrow.
Qed.

(** The worker reads and writes neither the users nor the plans: the
    quota ledger is the same before and after a run. *)
Lemma worker_leaves_quota (campaign : CampaignWithRelations.t) (w : World) :
  users (after (processCampaignMessages campaign) w) = users (store w)
  /\ plans (after (processCampaignMessages campaign) w) = plans (store w).
Proof.
  apply (keeps_processCampaignMessages
           (fun d => users d = users (store w) /\ plans d = plans (store w)));
    auto.
  intros r _. apply quota_tables_stable.
Qed.




(** The start handler always replies; either it has written nothing and
    launched nothing, or it has set the campaign RUNNING and launched the
    worker on the object it had read. *)
Lemma startCampaign_cases (w : World) (id userId : string) (c : Campaign.t) :
  campaigns (store w) !! id = Some c ->
  (exists r w1, startCampaign id userId w = (Returns (r, None), w1)
                /\ store w1 = store w)
  \/ (exists r w1,
        startCampaign id userId w
        = (Returns (r, Some (CampaignWithRelations.mk id c
                               (Campaign.templateId c
                                  ≫= (fun t => templates (store w) !! t))
                               (contacts_of (store w) id))), w1)
        /\ store w1
           = set_campaigns
               (insert id (Campaign_set.startedAt (Some (now w))
                             (Campaign_set.status CampaignStatus.RUNNING c)))
               (store w)).
Proof.
  intros Hc.
  unfold startCampaign, try_catch, bind, campaign_findFirst_include,
    campaign_update, new_Date, prisma.
  destruct (find_campaign_cases _ id userId _ Hc) as [Hfind|Hfind]; rewrite Hfind;
    destruct (faults w) as [|[] fs]; simpl; eauto;
    destruct (negb _ && negb _); simpl; eauto;
    try (destruct fs as [|[] fs]; simpl); rewrite ?Hc; simpl; eauto.
Qed.


(** *** Runs without database faults *)

Lemma prisma_fault_free {A} (op : DB -> option (A * DB)) (w : World) :
  fault_free w ->
  prisma op w =
    match op (store w) with
    | Some (a, d) => (Returns a, mkWorld d [] (now w))
    | None => (Throws, mkWorld (store w) [] (now w))
    end.
Proof.
  intros Hff. rewrite prisma_succeeds by (apply fault_free_next, Hff).
  rewrite Hff. reflexivity.
Qed.

Lemma same_row_sent (id k : string) (t : Z) (r : CampaignContact.t) :
  same_row id k (CampaignContact_set.sent t r) = same_row id k r.
Proof. destruct r; reflexivity. Qed.

Lemma existsb_same_row_updated (id k k' : string)
    (g : CampaignContact.t -> CampaignContact.t) (t : list CampaignContact.t) :
  (forall r, same_row id k (g r) = same_row id k r) ->
  existsb (same_row id k) (map (fun r => if same_row id k' r then g r else r) t)
  = existsb (same_row id k) t.
Proof.
  intros Hg. induction t as [|r t IH]; simpl; [reflexivity|].
  rewrite IH. destruct (same_row id k' r); rewrite ?Hg; reflexivity.
Qed.

Lemma row_present_in_table (d : DB) (id : string) (r : CampaignContact.t) :
  r ∈ contacts_of d id -> row_present id (CampaignContact.contactId r) d.
Proof.
  unfold contacts_of, row_present. intros Hr.
  apply list_elem_of_filter in Hr as [Hc Hin].
  apply existsb_exists. exists r. split; [apply list_elem_of_In, Hin|].
  unfold same_row. rewrite !bool_decide_eq_true_2; auto.
Qed.

(** One contact, no fault: a SENT message is created, the row is marked
    SENT at the current time and [sentCount] is incremented. *)
Lemma dispatch_contact_fault_free (campaign : CampaignWithRelations.t)
    (campaignContact : CampaignContact.t) (w : World) (c : Campaign.t) :
  let id := CampaignWithRelations.id campaign in
  let k := CampaignContact.contactId campaignContact in
  fault_free w ->
  campaigns (store w) !! id = Some c ->
  row_present id k (store w) ->
  dispatch_contact campaign campaignContact w
  = (Returns tt,
     mkWorld
       (set_campaigns (insert id (increment_sentCount c))
          (set_campaignContacts
             (map (fun r => if same_row id k r
                            then CampaignContact_set.sent (now w) r else r))
             (set_messages
                (fun ms => (ms ++ [campaign_message campaign campaignContact])%list)
                (store w))))
       [] (now w)).
Proof.
  intros id k Hff Hc Hrow.
  unfold dispatch_contact, try_catch, bind, message_create, new_Date,
    campaignContact_update, campaign_update.
  rewrite prisma_fault_free by assumption. simpl.
  rewrite prisma_fault_free by reflexivity. simpl.
  fold id k. unfold row_present in Hrow. rewrite Hrow.
  rewrite prisma_fault_free by reflexivity. simpl.
  fold id. rewrite Hc. reflexivity.
Qed.






(** One contact whose message cannot be created, the handler's writes
    going through: the row is marked FAILED with the reason "Failed to
    send message" and [failedCount] is incremented. *)
Lemma row_present_written_before (n : nat) (campaign : CampaignWithRelations.t)
    (campaignContact : CampaignContact.t) (at_ : Z) (d : DB) :
  let id := CampaignWithRelations.id campaign in
  let k := CampaignContact.contactId campaignContact in
  row_present id k d ->
  row_present id k (written_before n campaign campaignContact at_ d).
Proof.
  intros id k Hrow. destruct n as [|[|n]]; simpl; try exact Hrow.
  unfold row_present. simpl. fold id k.
  rewrite existsb_same_row_updated; [exact Hrow | apply same_row_sent].
Qed.

(** The loop body when write number [n] of its [try] block is the first
    to be rejected: the writes before it stay, and the [catch] block runs
    on what they left. *)
Lemma dispatch_contact_cut_short (n : nat) (fs : list bool)
    (campaign : CampaignWithRelations.t) (campaignContact : CampaignContact.t)
    (w : World) :
  let id := CampaignWithRelations.id campaign in
  let k := CampaignContact.contactId campaignContact in
  (n < 3)%nat ->
  faults w = replicate n false ++ true :: fs ->
  row_present id k (store w) ->
  dispatch_contact campaign campaignContact w
  = (failedAt <- new_Date ;;
     campaignContact_update id k
       (CampaignContact_set.failed failedAt "Failed to send message") ;;;
     campaign_update id increment_failedCount ;;;
     ret tt)
      (mkWorld (written_before n campaign campaignContact (now w) (store w))
               fs (now w)).
Proof.
  intros id k Hn Hfs Hrow. unfold row_present in Hrow.
  unfold dispatch_contact, try_catch. fold id k.
  unfold bind at 1 2 3 4, message_create, new_Date at 1, campaignContact_update at 1,
    campaign_update at 1.
  destruct n as [|[|[|n]]]; [| | |lia]; simpl in Hfs.
  - unfold prisma at 1. rewrite Hfs. reflexivity.
  - unfold prisma at 1 2. rewrite Hfs. reflexivity.
  - unfold prisma at 1 2 3. rewrite Hfs. simpl. fold id k. rewrite Hrow. reflexivity.
Qed.

(** C5, as the code has it: the worker makes no quota check.  It neither
    reads nor writes the users and plans; a contact whose three writes go
    through is marked SENT and counted in [sentCount], whatever the
    tenant's limit and usage are.  A row is marked FAILED only by the
    catch block of its iteration, with the reason "Failed to send
    message": when one of the three writes is rejected (the message, the
    row, or [sentCount]) and the two writes of the catch block go
    through, the row is FAILED and [failedCount] is one more, and what
    was written before the rejection stays; when the second write of the
    catch block is rejected, the row is FAILED, [failedCount] is as it
    was, and the iteration throws. *)
Theorem worker_makes_no_quota_check
    (campaign : CampaignWithRelations.t) (campaignContact : CampaignContact.t)
    (w : World) (c : Campaign.t) :
  let id := CampaignWithRelations.id campaign in
  let k := CampaignContact.contactId campaignContact in
  campaigns (store w) !! id = Some c ->
  row_present id k (store w) ->
  (users (after (processCampaignMessages campaign) w) = users (store w)
   /\ plans (after (processCampaignMessages campaign) w) = plans (store w))
  /\ rows_sent_or_failed (campaignContacts (store w))
       (after (processCampaignMessages campaign) w)
  /\ (fault_free w ->
      after (dispatch_contact campaign campaignContact) w
      = set_campaigns (insert id (increment_sentCount c))
          (set_campaignContacts
             (map (fun r => if same_row id k r
                            then CampaignContact_set.sent (now w) r else r))
             (set_messages
                (fun ms => ms ++ [campaign_message campaign campaignContact])
                (store w))))
  /\ (forall (n : nat) (fs : list bool),
        (n < 3)%nat ->
        faults w = replicate n false ++ true :: false :: false :: fs ->
        outcome (dispatch_contact campaign campaignContact) w = Returns tt
        /\ after (dispatch_contact campaign campaignContact) w
           = set_campaigns (insert id (increment_failedCount c))
               (marked_failed id k (now w)
                  (written_before n campaign campaignContact (now w) (store w))))
  /\ (forall (n : nat) (fs : list bool),
        (n < 3)%nat ->
        faults w = replicate n false ++ true :: false :: true :: fs ->
        outcome (dispatch_contact campaign campaignContact) w = Throws
        /\ after (dispatch_contact campaign campaignContact) w
           = marked_failed id k (now w)
               (written_before n campaign campaignContact (now w) (store w))).
Proof.
  intros id k Hc Hrow. split; [apply worker_leaves_quota|].
  split; [|split; [|split]].
  - apply (keeps_processCampaignMessages
             (rows_sent_or_failed (campaignContacts (store w)))).
    + intros r _. apply rows_sent_or_failed_stable.
    + intros d c0 c' H _. exact H.
    + intros i r Hi. left. exact Hi.
  - intros Hff. unfold after.
    rewrite (dispatch_contact_fault_free campaign campaignContact w c Hff Hc Hrow).
    reflexivity.
  - intros n fs Hn Hfs.
    pose proof (row_present_written_before n campaign campaignContact (now w)
                  (store w) Hrow) as Hrow'.
    assert (Hc' : campaigns (written_before n campaign campaignContact (now w)
                               (store w)) !! id = Some c)
      by (destruct n as [|[|n]]; exact Hc).
    unfold outcome, after.
    rewrite (dispatch_contact_cut_short n _ campaign campaignContact w Hn Hfs Hrow).
    fold id k.
    unfold bind, new_Date, campaignContact_update, campaign_update, marked_failed.
    unfold row_present in Hrow'. fold id k in Hrow'.
    unfold prisma. simpl. rewrite Hrow'. simpl. rewrite Hc'. split; reflexivity.
  - intros n fs Hn Hfs.
    pose proof (row_present_written_before n campaign campaignContact (now w)
                  (store w) Hrow) as Hrow'.
    unfold outcome, after.
    rewrite (dispatch_contact_cut_short n _ campaign campaignContact w Hn Hfs Hrow).
    fold id k.
    unfold bind, new_Date, campaignContact_update, campaign_update, marked_failed.
    unfold row_present in Hrow'. fold id k in Hrow'.
    unfold prisma. simpl. rewrite Hrow'. simpl. split; reflexivity.
Qed.

(** The tenant of the scenario is at its limit for messages, and the
    contact of campaign [c1] is dispatched all the same; when the update
    of its row is rejected, the row is FAILED, counted in [failedCount],
    and the message created before stays. *)
Lemma worker_makes_no_quota_check_witness :
  let campaign :=
    CampaignWithRelations.mk "c1" (Scenario.created 1) None
      (Scenario.rows "c1" ["k1"]) in
  let d' := after (dispatch_contact campaign (Scenario.contact_row "c1" "k1"))
                  Scenario.world in
  let rejected :=
    after (dispatch_contact campaign (Scenario.contact_row "c1" "k1"))
          (mkWorld Scenario.db [false; true; false; false] 1000) in
  (contacts_of d' "c1"
   = [CampaignContact.mk "c1" "k1" CampaignContactStatus.SENT (Some 1000)
        None None None None]
   /\ users d' = users Scenario.db)
  /\ contacts_of rejected "c1"
     = [CampaignContact.mk "c1" "k1" CampaignContactStatus.FAILED None
          None None (Some 1000) (Some "Failed to send message")]
  /\ (Campaign.failedCount <$> campaigns rejected !! "c1") = Some 1
  /\ length (messages rejected) = 2%nat.
Proof.
  intros campaign d' rejected. split.
  - destruct (worker_makes_no_quota_check campaign (Scenario.contact_row "c1" "k1")
                Scenario.world (Scenario.created 1))
      as (_ & _ & Hsent & _); [reflexivity | reflexivity |].
    unfold d'. rewrite Hsent by reflexivity. split; reflexivity.
  - destruct (worker_makes_no_quota_check campaign (Scenario.contact_row "c1" "k1")
                (mkWorld Scenario.db [false; true; false; false] 1000)
                (Scenario.created 1))
      as (_ & _ & _ & Hfailed & _); [reflexivity | reflexivity |].
    destruct (Hfailed 1%nat [] ltac:(lia) eq_refl) as [_ Hstore].
    unfold rejected. rewrite Hstore. repeat split; reflexivity.
Defined.

(** C5 as stated fails: the quota check for [messages] rejects the
    tenant, and the worker marks the tenant's pending contact SENT, with
    no error message, and counts it in [sentCount], not [failedCount]. *)
Lemma over_quota_contact_is_sent :
  let d' := after (start_and_dispatch "c1" "tenant") Scenario.world in
  outcome (checkUsageLimit "messages" "tenant") Scenario.world
  = Returns (Status 403 (usage_exceeded_body "messages" (Some 5) 5))
  /\ contacts_of Scenario.db "c1" = [Scenario.contact_row "c1" "k1"]
  /\ contacts_of d' "c1"
     = [CampaignContact.mk "c1" "k1" CampaignContactStatus.SENT (Some 1000)
          None None None None]
  /\ Campaign.sentCount <$> campaigns d' !! "c1" = Some 1
  /\ Campaign.failedCount <$> campaigns d' !! "c1" = Some 0.
Proof. repeat split; vm_compute; reflexivity. Qed.

(** ** Counters over one run of the worker *)

Lemma counted_mono (id : string) (c0 : Campaign.t) (n m : Z) (d : DB) :
  n <= m -> counted id c0 n d -> counted id c0 m d.
Proof.
  intros Hle (c & Hc & Hsum & H). exists c. split; [exact Hc|]. split; [lia|exact H].
Qed.

Lemma counted_other_tables (id : string) (c0 : Campaign.t) (n : Z) (d d' : DB) :
  campaigns d' = campaigns d -> counted id c0 n d -> counted id c0 n d'.
Proof. unfold counted. intros ->. auto. Qed.

(** A write to the campaign row that leaves the five counters alone. *)
Lemma counted_status_write (id : string) (c0 : Campaign.t) (n : Z)
    (data : Campaign.t -> Campaign.t) :
  (forall c, Campaign.sentCount (data c) = Campaign.sentCount c
             /\ Campaign.failedCount (data c) = Campaign.failedCount c
             /\ Campaign.deliveredCount (data c) = Campaign.deliveredCount c
             /\ Campaign.readCount (data c) = Campaign.readCount c
             /\ Campaign.totalContacts (data c) = Campaign.totalContacts c) ->
  keeps (counted id c0 n) (campaign_update id data).
Proof.
  intros Hdata. apply keeps_campaign_update.
  intros d c (c' & Hc' & H) Hc. rewrite Hc in Hc'. injection Hc' as <-.
  exists (data c). simpl. rewrite lookup_insert_eq. split; [reflexivity|].
  destruct (Hdata c) as (-> & -> & -> & -> & ->). exact H.
Qed.

Lemma counted_increment (id : string) (c0 : Campaign.t) (n : Z)
    (data : Campaign.t -> Campaign.t) :
  data = increment_sentCount \/ data = increment_failedCount ->
  triple (counted id c0 n) (campaign_update id data)
    (fun r d => match r with
                | Returns _ => counted id c0 (n + 1) d
                | Throws => counted id c0 n d
                end).
Proof.
  intros Hdata. apply triple_prisma; [auto|].
  intros d a d' (c' & Hc' & Hsum & Hs & Hf & Hd & Hr & Ht).
  rewrite Hc'. intros [= <- <-].
  exists (data c'). simpl. rewrite lookup_insert_eq. split; [reflexivity|].
  destruct Hdata as [-> | ->]; destruct c'; simpl in *; repeat split; lia.
Qed.

Lemma counted_dispatch_contact (campaign : CampaignWithRelations.t)
    (campaignContact : CampaignContact.t) (c0 : Campaign.t) (n : Z) :
  triple (counted (CampaignWithRelations.id campaign) c0 n)
         (dispatch_contact campaign campaignContact)
         (fun _ d => counted (CampaignWithRelations.id campaign) c0 (n + 1) d).
Proof.
  set (id := CampaignWithRelations.id campaign).
  assert (Hrows : forall k data,
             keeps (counted id c0 n) (campaignContact_update id k data)).
  { intros k data. apply keeps_campaignContact_update.
    intros d. apply counted_other_tables. reflexivity. }
  unfold dispatch_contact. fold id.
  apply (triple_try_catch _ (counted id c0 n)).
  - apply (triple_bind _ _ _ (fun _ => counted id c0 n)).
    { eapply triple_weaken.
      - apply keeps_prisma. intros d a d' H [= <- <-].
        revert H. apply counted_other_tables. reflexivity.
      - intros [a|] d H; exact H. }
    intros _. apply (triple_bind _ _ _ (fun _ => counted id c0 n)).
    { eapply triple_weaken; [apply keeps_new_Date|]. intros [a|] d H; exact H. }
    intros t. apply (triple_bind _ _ _ (fun _ => counted id c0 n)).
    { eapply triple_weaken; [apply Hrows|]. intros [a|] d H; exact H. }
    intros _. apply (triple_bind _ _ _ (fun _ => counted id c0 (n + 1))).
    { apply counted_increment. left. reflexivity. }
    intros _. apply triple_ret. auto.
  - apply (triple_bind _ _ _ (fun _ => counted id c0 n)).
    { eapply triple_weaken; [apply keeps_new_Date|].
      intros [a|] d H; [exact H|]. apply (counted_mono id c0 n); [lia|exact H]. }
    intros t. apply (triple_bind _ _ _ (fun _ => counted id c0 n)).
    { eapply triple_weaken; [apply Hrows|].
      intros [a|] d H; [exact H|]. apply (counted_mono id c0 n); [lia|exact H]. }
    intros _. apply (triple_bind _ _ _ (fun _ => counted id c0 (n + 1))).
    { eapply triple_weaken; [apply counted_increment; right; reflexivity|].
      intros [a|] d H; [exact H|]. apply (counted_mono id c0 n); [lia|exact H]. }
    intros _. apply triple_ret. auto.
Qed.

Lemma counted_dispatch_batch (campaign : CampaignWithRelations.t)
    (batch : list CampaignContact.t) (c0 : Campaign.t) (n : Z) :
  triple (counted (CampaignWithRelations.id campaign) c0 n)
         (for_of batch (dispatch_contact campaign))
         (fun _ d => counted (CampaignWithRelations.id campaign) c0
                       (n + Z.of_nat (length batch)) d).
Proof.
  revert n. induction batch as [|r batch IH]; intros n; simpl for_of.
  - apply triple_ret. intros d. apply counted_mono. simpl. lia.
  - apply (triple_bind _ _ _
             (fun _ => counted (CampaignWithRelations.id campaign) c0 (n + 1))).
    + eapply triple_weaken; [apply counted_dispatch_contact|].
      intros [a|] d H; [exact H|].
      revert H. apply counted_mono. simpl length. lia.
    + intros _. eapply triple_weaken; [apply IH|].
      intros o d. apply counted_mono. simpl length. lia.
Qed.

(** One run of the worker counts each contact of its batch at most once. *)
Lemma counted_processCampaignMessages (campaign : CampaignWithRelations.t)
    (c0 : Campaign.t) :
  triple (counted (CampaignWithRelations.id campaign) c0 0)
         (processCampaignMessages campaign)
         (fun _ d =>
            counted (CampaignWithRelations.id campaign) c0
              (Z.of_nat (length (take 5 (CampaignWithRelations.contacts campaign)))) d).
Proof.
  set (id := CampaignWithRelations.id campaign).
  set (n := Z.of_nat (length (take 5 (CampaignWithRelations.contacts campaign)))).
  assert (Hstatus : forall data,
             (forall c, Campaign.sentCount (data c) = Campaign.sentCount c
                        /\ Campaign.failedCount (data c) = Campaign.failedCount c
                        /\ Campaign.deliveredCount (data c) = Campaign.deliveredCount c
                        /\ Campaign.readCount (data c) = Campaign.readCount c
                        /\ Campaign.totalContacts (data c) = Campaign.totalContacts c) ->
             keeps (counted id c0 n) (campaign_update id data ;;; ret tt)).
  { intros data Hdata. apply keeps_bind; [|intros; apply keeps_ret].
    apply counted_status_write, Hdata. }
  unfold processCampaignMessages, dispatch_loop. fold id.
  apply (triple_try_catch _ (counted id c0 n)).
  - apply (triple_bind _ _ _ (fun _ => counted id c0 n)).
    { eapply triple_weaken; [apply (counted_dispatch_batch campaign _ c0 0)|].
      intros [a|] d H; exact H. }
    intros _. apply (triple_bind _ _ _ (fun _ => counted id c0 n)).
    { eapply triple_weaken; [apply keeps_count_pending|]. intros [a|] d H; exact H. }
    intros pendingCount. destruct (pendingCount =? 0).
    + apply (triple_bind _ _ _ (fun _ => counted id c0 n)).
      { eapply triple_weaken; [apply keeps_new_Date|]. intros [a|] d H; exact H. }
      intros t. eapply triple_weaken; [apply Hstatus|].
      * intros c. destruct c; simpl. auto.
      * intros [a|] d H; exact H.
    + eapply triple_weaken; [apply keeps_ret|]. intros [a|] d H; exact H.
  - apply Hstatus. intros c. destruct c; simpl. auto.
Qed.

(** The first start of a campaign as POST / creates it (counters 0,
    [totalContacts] the number of its rows), with the run of the worker
    it launches, leaves the counters within bounds, whatever database
    calls fail. *)
Lemma first_run_keeps_counters_bounded
    (w : World) (id userId : string) (c : Campaign.t) :
  campaigns (store w) !! id = Some c ->
  Campaign.sentCount c = 0 -> Campaign.failedCount c = 0 ->
  Campaign.deliveredCount c = 0 -> Campaign.readCount c = 0 ->
  Campaign.totalContacts c = Z.of_nat (length (contacts_of (store w) id)) ->
  exists c',
    campaigns (after (start_and_dispatch id userId) w) !! id = Some c'
    /\ counters_bounded c'.
Proof.
  intros Hc Hs Hf Hd Hr Ht.
  assert (Hbounded : forall n d,
             n <= Z.of_nat (length (contacts_of (store w) id)) ->
             counted id c n d ->
             exists c', campaigns d !! id = Some c' /\ counters_bounded c').
  { intros n d Hn (c' & Hc' & Hsum & Hs' & Hf' & Hd' & Hr' & Ht').
    exists c'. split; [exact Hc'|]. unfold counters_bounded. lia. }
  assert (Hc0 : counted id c 0 (store w)).
  { exists c. split; [exact Hc|]. lia. }
  unfold after, start_and_dispatch, bind.
  destruct (startCampaign_cases w id userId c Hc)
    as [(r & w1 & Hrun & Hst) | (r & w1 & Hrun & Hst)]; rewrite Hrun; simpl.
  - apply (Hbounded 0); [lia|]. rewrite Hst. exact Hc0.
  - apply (Hbounded (Z.of_nat (length (take 5 (contacts_of (store w) id)))));
      [rewrite length_take; lia|].
    apply (counted_processCampaignMessages
             (CampaignWithRelations.mk id c _ (contacts_of (store w) id)) c w1).
    simpl. rewrite Hst.
    exists (Campaign_set.startedAt (Some (now w))
              (Campaign_set.status CampaignStatus.RUNNING c)).
    simpl. rewrite lookup_insert_eq. split; [reflexivity|].
    destruct c; simpl in *; lia.
Qed.

(** C2 at the failing input: campaign [c6] has six contacts.  Start it
    (five rows are dispatched, the campaign stays RUNNING), pause it, edit
    it (the edit puts it back to DRAFT), start it again: the worker
    dispatches the same five rows a second time, and [sentCount] is 10 for
    [totalContacts] 6. *)
Theorem restart_counts_contacts_twice :
  let edited :=
    Scenario.run (updateCampaign "c6" "tenant" Scenario.rename) Scenario.paused6 in
  let restarted := Scenario.run (start_and_dispatch "c6" "tenant") edited in
  counters_bounded (Scenario.campaign_of Scenario.started6 "c6")
  /\ campaign_status (store Scenario.started6) "c6" = Some CampaignStatus.RUNNING
  /\ campaign_status (store Scenario.paused6) "c6" = Some CampaignStatus.PAUSED
  /\ campaign_status (store edited) "c6" = Some CampaignStatus.DRAFT
  /\ exists c,
       campaigns (store restarted) !! "c6" = Some c
       /\ Campaign.sentCount c = 10
       /\ Campaign.failedCount c = 0
       /\ Campaign.totalContacts c = 6
       /\ ~ counters_bounded c.
Proof.
  intros edited restarted. split; [|split; [|split; [|split]]].
  - unfold counters_bounded. vm_compute. repeat split; discriminate.
  - reflexivity.
  - reflexivity.
  - reflexivity.
  - eexists. split; [vm_compute; reflexivity|].
    repeat split. unfold counters_bounded. simpl. lia.
Qed.

(** ** More on the quota ledger *)

Lemma checkUsageLimit_outcome
    (w : World) (userId resource planId : string) (user : User.t) (plan : Plan.t) :
  next_call_succeeds w ->
  users (store w) !! userId = Some user ->
  User.planId user = Some planId ->
  plans (store w) !! planId = Some plan ->
  let limit := Plan.limits plan !! resource in
  let used := or_zero (User.quotaUsed user !! resource) in
  outcome (checkUsageLimit resource userId) w
  = Returns (if strict_ne limit (-1) && js_ge used limit
             then Status 403 (usage_exceeded_body resource limit used)
             else Next).
Proof.
  intros Hnext Hu Hp Hplan limit used.
  unfold outcome, checkUsageLimit, try_catch, bind, user_findUnique_plan.
  rewrite prisma_succeeds by assumption.
  rewrite Hu. simpl. rewrite Hp. simpl. rewrite Hplan. simpl.
  fold limit used. destruct (strict_ne limit (-1) && js_ge used limit); reflexivity.
Qed.

(** The test [limit !== -1 && used >= limit] fails exactly below the
    limit. *)
Lemma below_limit_spec (limit : option Z) (used : Z) :
  strict_ne limit (-1) && js_ge used limit = false <-> below_limit limit used.
Proof.
  unfold below_limit, strict_ne, js_ge. destruct limit as [L|]; simpl.
  - destruct (Z.eqb_spec L (-1)) as [->|Hne]; simpl.
    + split; auto.
    + destruct (Z.leb_spec L used) as [Hle|Hlt]; simpl.
      * split; [discriminate|].
        intros [H|[H|(L' & H & Hlt)]]; try discriminate.
        -- injection H as H. contradiction.
        -- injection H as <-. lia.
      * split; eauto.
  - split; auto.
Qed.

(** X1: for a tenant with a plan, the usage-limit check calls next()
    exactly when the resource is unlisted, unlimited (-1) or used below
    its cap; in any other case it replies "Usage limit exceeded". *)
Theorem checkUsageLimit_decision
    (w : World) (userId resource planId : string) (user : User.t) (plan : Plan.t) :
  next_call_succeeds w ->
  users (store w) !! userId = Some user ->
  User.planId user = Some planId ->
  plans (store w) !! planId = Some plan ->
  let limit := Plan.limits plan !! resource in
  let used := or_zero (User.quotaUsed user !! resource) in
  (outcome (checkUsageLimit resource userId) w = Returns Next
   <-> below_limit limit used)
  /\ (~ below_limit limit used ->
      outcome (checkUsageLimit resource userId) w
      = Returns (Status 403 (usage_exceeded_body resource limit used))).
Proof.
  intros Hnext Hu Hp Hplan limit used.
  rewrite (checkUsageLimit_outcome w userId resource planId user plan
             Hnext Hu Hp Hplan).
  fold limit used. rewrite <- (below_limit_spec limit used).
  destruct (strict_ne limit (-1) && js_ge used limit).
  - split; [split; discriminate|reflexivity].
  - split; [split; reflexivity|]. intros Hn. exfalso. apply Hn. reflexivity.
Qed.

Lemma checkUsageLimit_decision_witness :
  outcome (checkUsageLimit "messages" "tenant") Scenario.world
  = Returns (Status 403 (usage_exceeded_body "messages" (Some 5) 5))
  /\ (outcome (checkUsageLimit "flows" "tenant") Scenario.world = Returns Next
      <-> below_limit None 70).
Proof.
  split.
  - destruct (checkUsageLimit_decision Scenario.world "tenant" "messages"
                "plan-capped" Scenario.tenant Scenario.capped) as [_ Hreject];
      [reflexivity | reflexivity | reflexivity | reflexivity |].
    apply Hreject. intros [H|[H|(L & H & Hlt)]]; try discriminate.
    injection H as <-. vm_compute in Hlt. discriminate.
  - apply (checkUsageLimit_decision Scenario.world "tenant" "flows"
             "plan-capped" Scenario.tenant Scenario.capped); reflexivity.
Defined.

(** X2: a user that is unknown, has no plan, or whose plan row is
    missing is refused with 403 "No active plan", whatever the resource. *)
Theorem checkUsageLimit_without_plan (w : World) (userId resource : string) :
  next_call_succeeds w ->
  (users (store w) !! userId ≫= User.planId) ≫= (fun p => plans (store w) !! p)
  = None ->
  outcome (checkUsageLimit resource userId) w
  = Returns (Status 403 [("error", JString "No active plan")]).
Proof.
  intros Hnext Hnone.
  unfold outcome, checkUsageLimit, try_catch, bind, user_findUnique_plan.
  rewrite prisma_succeeds by assumption.
  destruct (users (store w) !! userId) as [u|]; simpl in *; [|reflexivity].
  rewrite Hnone. reflexivity.
Qed.

Lemma checkUsageLimit_without_plan_witness :
  outcome (checkUsageLimit "messages" "nobody") Scenario.world
  = Returns (Status 403 [("error", JString "No active plan")]).
Proof.
  apply (checkUsageLimit_without_plan Scenario.world "nobody" "messages");
    reflexivity.
Defined.

(** X3: the usage-limit check never rejects its promise and never writes:
    for every schedule of database faults it returns a reply and leaves
    the store as it was, and when its lookup is rejected the reply is
    500. *)
Theorem checkUsageLimit_always_replies (w : World) (userId resource : string) :
  (exists r, outcome (checkUsageLimit resource userId) w = Returns r)
  /\ after (checkUsageLimit resource userId) w = store w
  /\ (hd false (faults w) = true ->
      outcome (checkUsageLimit resource userId) w
      = Returns (Status 500 [("error", JString "Failed to check usage limit")])).
Proof.
  split; [|split; [apply checkUsageLimit_reads_only|]].
  - unfold outcome, checkUsageLimit, try_catch, bind, user_findUnique_plan, prisma.
    destruct (faults w) as [|[] fs]; simpl; eauto;
      destruct (users (store w) !! userId) as [u|]; simpl; eauto;
      destruct (User.planId u ≫= _) as [p|]; simpl; eauto;
      destruct (strict_ne _ _ && js_ge _ _); simpl; eauto.
  - unfold outcome, checkUsageLimit, try_catch, bind, user_findUnique_plan, prisma.
    destruct (faults w) as [|[] fs]; simpl; try discriminate. reflexivity.
Qed.

Lemma checkUsageLimit_always_replies_witness :
  outcome (checkUsageLimit "messages" "tenant") (mkWorld Scenario.db [true] 1000)
  = Returns (Status 500 [("error", JString "Failed to check usage limit")])
  /\ after (checkUsageLimit "messages" "tenant") (mkWorld Scenario.db [true] 1000)
     = Scenario.db.
Proof.
  destruct (checkUsageLimit_always_replies (mkWorld Scenario.db [true] 1000)
              "tenant" "messages") as (_ & Hkept & H500).
  split; [apply H500; reflexivity | exact Hkept].
Defined.


(** Doubles hold the integers up to 2^53 in magnitude, so a sum within
    that bound is the exact sum. *)
Lemma to_double_exact (n : Z) :
  Z.abs n <= 9007199254740992 -> to_double n = n.
Proof.
  intros Hn. unfold to_double.
  destruct (Z.eq_dec (Z.abs n) 9007199254740992) as [Heq|Hne].
  - assert (Hcases : n = 9007199254740992 \/ n = -9007199254740992) by lia.
    destruct Hcases as [-> | ->]; vm_compute; reflexivity.
  - assert (Hlog : Z.log2 (Z.abs n) - 52 <= 0).
    { destruct (Z.eq_dec (Z.abs n) 0) as [H0|H0].
      - rewrite H0. simpl. lia.
      - assert (Hlt : Z.log2 (Z.abs n) < 53).
        { apply Z.log2_lt_pow2; [lia|]. change (2 ^ 53) with 9007199254740992. lia. }
        lia. }
    apply Z.leb_le in Hlog. rewrite Hlog. reflexivity.
Qed.

Lemma js_add_safe (a b : Z) : safe_integer (a + b) -> js_add a b = a + b.
Proof.
  unfold safe_integer, js_add. intros H. apply to_double_exact. lia.
Qed.

(** The store after an increment that went through. *)
Lemma incrementUsage_run (w : World) (userId resource : string) (amount : Z)
    (user : User.t) :
  fault_free w ->
  users (store w) !! userId = Some user ->
  incrementUsage userId resource amount w
  = (Returns tt,
     mkWorld
       (set_users
          (insert userId
             (User.set_quotaUsed
                (<[resource := js_add (or_zero (User.quotaUsed user !! resource)) amount]>
                   (User.quotaUsed user)) user))
          (store w))
       [] (now w)).
Proof.
  intros Hff Hu. unfold incrementUsage, try_catch, bind.
  rewrite prisma_fault_free by assumption. simpl. rewrite Hu.
  rewrite prisma_fault_free by reflexivity. simpl. rewrite Hu. reflexivity.
Qed.

Lemma usage_after_write (d : DB) (userId resource : string) (user : User.t)
    (v : Z) (other : string) :
  usage (set_users
           (insert userId
              (User.set_quotaUsed (<[resource := v]> (User.quotaUsed user)) user)) d)
        userId other
  = if bool_decide (other = resource) then v
    else or_zero (User.quotaUsed user !! other).
Proof.
  unfold usage. simpl. rewrite lookup_insert_eq. simpl.
  case_bool_decide as Ho.
  - subst other. rewrite lookup_insert_eq. reflexivity.
  - rewrite lookup_insert_ne by congruence. reflexivity.
Qed.

(** X4: an increment that goes through adds [amount] to the usage of that
    resource (a resource never used counts from 0), provided the sum is a
    safe integer, which doubles add exactly; it leaves the user's other
    resources, the user's plan and every other user as they were. *)
Theorem incrementUsage_adds
    (w : World) (userId resource : string) (amount : Z) (user : User.t) :
  fault_free w ->
  users (store w) !! userId = Some user ->
  safe_integer (usage (store w) userId resource + amount) ->
  let d' := after (incrementUsage userId resource amount) w in
  usage d' userId resource = usage (store w) userId resource + amount
  /\ (forall other, other <> resource ->
        usage d' userId other = usage (store w) userId other)
  /\ (User.planId <$> users d' !! userId) = Some (User.planId user)
  /\ (forall u, u <> userId -> users d' !! u = users (store w) !! u)
  /\ plans d' = plans (store w).
Proof.
  intros Hff Hu Hsafe d'. unfold d', after.
  rewrite (incrementUsage_run w userId resource amount user Hff Hu). simpl.
  assert (Hused : usage (store w) userId resource
                  = or_zero (User.quotaUsed user !! resource))
    by (unfold usage; rewrite Hu; reflexivity).
  rewrite Hused in Hsafe. rewrite (js_add_safe _ _ Hsafe).
  repeat split.
  - rewrite usage_after_write, bool_decide_eq_true_2 by reflexivity.
    rewrite Hused. reflexivity.
  - intros other Hne.
    rewrite usage_after_write, bool_decide_eq_false_2 by assumption.
    unfold usage. rewrite Hu. reflexivity.
  - simpl. rewrite lookup_insert_eq. reflexivity.
  - intros u Hne. simpl. rewrite lookup_insert_ne by congruence. reflexivity.
Qed.

Lemma incrementUsage_adds_witness :
  usage (after (incrementUsage "tenant" "messages" 3) Scenario.world)
        "tenant" "messages" = 8
  /\ usage (after (incrementUsage "tenant" "contacts" 3) Scenario.world)
           "tenant" "contacts" = 3.
Proof.
  destruct (incrementUsage_adds Scenario.world "tenant" "messages" 3 Scenario.tenant)
    as [H1 _]; [reflexivity | reflexivity | vm_compute; discriminate |].
  destruct (incrementUsage_adds Scenario.world "tenant" "contacts" 3 Scenario.tenant)
    as [H2 _]; [reflexivity | reflexivity | vm_compute; discriminate |].
  split; [exact H1 | exact H2].
Defined.

Lemma incrementUsage_cases (w : World) (userId resource : string) (amount : Z) :
  outcome (incrementUsage userId resource amount) w = Returns tt
  /\ (users (store w) !! userId = None ->
      after (incrementUsage userId resource amount) w = store w)
  /\ (after (incrementUsage userId resource amount) w = store w
      \/ exists user,
           users (store w) !! userId = Some user
           /\ after (incrementUsage userId resource amount) w
              = set_users
                  (insert userId
                     (User.set_quotaUsed
                        (<[resource := js_add (or_zero (User.quotaUsed user !! resource))
                                         amount]> (User.quotaUsed user)) user))
                  (store w)).
Proof.
  unfold outcome, after, incrementUsage, try_catch, bind, prisma.
  destruct (users (store w) !! userId) as [user|] eqn:Hu;
    destruct (faults w) as [|[] [|[] fs]]; simpl; rewrite ?Hu; simpl;
    repeat split; eauto; try discriminate.
Qed.

(** X5: [incrementUsage] is best effort.  It never rejects its promise;
    for an unknown user it writes nothing; and under any schedule of
    database faults the store is either as it was or holds the
    increment (the exact sum, for a sum that is a safe integer): a lost
    increment is silent. *)
Theorem incrementUsage_best_effort
    (w : World) (userId resource : string) (amount : Z) :
  outcome (incrementUsage userId resource amount) w = Returns tt
  /\ (users (store w) !! userId = None ->
      after (incrementUsage userId resource amount) w = store w)
  /\ (safe_integer (usage (store w) userId resource + amount) ->
      after (incrementUsage userId resource amount) w = store w
      \/ exists user,
           users (store w) !! userId = Some user
           /\ after (incrementUsage userId resource amount) w
              = set_users
                  (insert userId
                     (User.set_quotaUsed
                        (<[resource := or_zero (User.quotaUsed user !! resource)
                                       + amount]> (User.quotaUsed user)) user))
                  (store w)).
Proof.
  destruct (incrementUsage_cases w userId resource amount) as (Hret & Hnone & Hcases).
  split; [exact Hret|]. split; [exact Hnone|].
  intros Hsafe. destruct Hcases as [Hkept | (user & Hu & Hinc)]; [left; exact Hkept|].
  right. exists user. split; [exact Hu|].
  unfold usage in Hsafe. rewrite Hu in Hsafe.
  rewrite Hinc, (js_add_safe _ _ Hsafe). reflexivity.
Qed.

(** An unknown user; and the tenant of the scenario when the write of the
    increment is rejected, and when it goes through. *)
Lemma incrementUsage_best_effort_witness :
  (outcome (incrementUsage "nobody" "messages" 1) Scenario.world = Returns tt
   /\ after (incrementUsage "nobody" "messages" 1) Scenario.world = Scenario.db)
  /\ after (incrementUsage "tenant" "messages" 1)
           (mkWorld Scenario.db [false; true] 1000) = Scenario.db
  /\ usage (after (incrementUsage "tenant" "messages" 1) Scenario.world)
           "tenant" "messages" = 6.
Proof.
  split; [|split].
  - destruct (incrementUsage_best_effort Scenario.world "nobody" "messages" 1)
      as (Hret & Hnone & _).
    split; [exact Hret | apply Hnone; reflexivity].
  - destruct (incrementUsage_best_effort (mkWorld Scenario.db [false; true] 1000)
                "tenant" "messages" 1) as (_ & _ & Hsafe).
    destruct Hsafe as [Hkept | (user & Hu & Hinc)];
      [vm_compute; discriminate | exact Hkept |].
    exfalso. injection Hu as <-.
    apply (f_equal (fun d => usage d "tenant" "messages")) in Hinc.
    vm_compute in Hinc. discriminate.
  - destruct (incrementUsage_best_effort Scenario.world "tenant" "messages" 1)
      as (_ & _ & Hsafe).
    destruct Hsafe as [Hkept | (user & Hu & Hinc)]; [vm_compute; discriminate | |].
    + exfalso.
      apply (f_equal (fun d => usage d "tenant" "messages")) in Hkept.
      vm_compute in Hkept. discriminate.
    + rewrite Hinc. injection Hu as <-. reflexivity.
Defined.

Lemma checkUsageLimit_next_below
    (w : World) (userId resource planId : string) (user : User.t) (plan : Plan.t) :
  users (store w) !! userId = Some user ->
  User.planId user = Some planId ->
  plans (store w) !! planId = Some plan ->
  outcome (checkUsageLimit resource userId) w = Returns Next ->
  below_limit (Plan.limits plan !! resource)
              (or_zero (User.quotaUsed user !! resource)).
Proof.
  intros Hu Hp Hplan Hnext.
  assert (Hcall : next_call_succeeds w).
  { unfold next_call_succeeds. destruct (hd false (faults w)) eqn:Hhd; [|reflexivity].
    exfalso. revert Hnext.
    unfold outcome, checkUsageLimit, try_catch, bind, user_findUnique_plan, prisma.
    destruct (faults w) as [|[] fs]; simpl in *; discriminate. }
  rewrite (checkUsageLimit_outcome w userId resource planId user plan
             Hcall Hu Hp Hplan) in Hnext.
  apply below_limit_spec.
  destruct (strict_ne _ _ && js_ge _ _); [discriminate|reflexivity].
Qed.

(** The check of a tenant below the cap, with no database fault. *)
Lemma checkUsageLimit_run_next
    (w : World) (userId resource planId : string) (user : User.t) (plan : Plan.t)
    (L : Z) :
  fault_free w ->
  users (store w) !! userId = Some user ->
  User.planId user = Some planId ->
  plans (store w) !! planId = Some plan ->
  Plan.limits plan !! resource = Some L ->
  or_zero (User.quotaUsed user !! resource) < L ->
  checkUsageLimit resource userId w = (Returns Next, mkWorld (store w) [] (now w)).
Proof.
  intros Hff Hu Hp Hplan HL Hlt.
  unfold checkUsageLimit, try_catch, bind, user_findUnique_plan.
  rewrite prisma_fault_free by assumption. simpl.
  rewrite Hu. simpl. rewrite Hp. simpl. rewrite Hplan. simpl. rewrite HL.
  unfold js_ge. destruct (Z.leb_spec L (or_zero (User.quotaUsed user !! resource)));
    [lia|]. rewrite andb_false_r. reflexivity.
Qed.

(** A route of a guard and a handler: the handler runs on the world the
    guard left, and only when the guard called next(). *)
Lemma after_guarded_route (guard handler : Eff reply) (w : World) :
  after (express_chain [guard; handler]) w
  = match outcome guard w with
    | Returns Next => after handler (snd (guard w))
    | _ => after guard w
    end.
Proof.
  unfold after, outcome. simpl. unfold bind, ret.
  destruct (guard w) as [[[]|] w1]; simpl; try reflexivity.
  destruct (handler w1) as [[[]|] w2]; reflexivity.
Qed.

(** X6: a route that checks the limit and then counts one use keeps the
    usage within a cap [L] as long as requests are handled one at a time:
    usage at most [L] before such a request is at most [L] after it, for
    every schedule of database faults.  It is no guarantee for requests
    that overlap: when two requests at usage [L - 1] both pass the check
    before either increment, both are let through and the usage ends at
    [L + 1]. *)
Theorem guarded_increment_stays_within_limit
    (w : World) (userId resource planId : string) (user : User.t) (plan : Plan.t)
    (L : Z) (done : reply) :
  users (store w) !! userId = Some user ->
  User.planId user = Some planId ->
  plans (store w) !! planId = Some plan ->
  Plan.limits plan !! resource = Some L ->
  safe_integer L ->
  0 <= usage (store w) userId resource ->
  (usage (store w) userId resource <= L ->
   usage (after (metered_route resource userId done) w) userId resource <= L)
  /\ (fault_free w ->
      usage (store w) userId resource = L - 1 ->
      outcome (two_requests_overlapped resource userId) w = Returns (Next, Next)
      /\ usage (after (two_requests_overlapped resource userId) w) userId resource
         = L + 1).
Proof.
  intros Hu Hp Hplan HL Hsafe Hpos.
  assert (Hused : usage (store w) userId resource
                  = or_zero (User.quotaUsed user !! resource))
    by (unfold usage; rewrite Hu; reflexivity).
  unfold safe_integer in Hsafe. split.
  - intros Hle. unfold metered_route. rewrite after_guarded_route.
    pose proof (checkUsageLimit_reads_only resource userId w) as Hread.
    destruct (outcome (checkUsageLimit resource userId) w) as [[]|] eqn:Hout;
      try (rewrite Hread; exact Hle).
    pose proof (checkUsageLimit_next_below w userId resource planId user plan
                  Hu Hp Hplan Hout) as Hbelow.
    rewrite HL in Hbelow.
    assert (Hlt : or_zero (User.quotaUsed user !! resource) < L).
    { destruct Hbelow as [H|[H|(L' & H & Hlt)]]; try discriminate.
      - injection H as ->. lia.
      - injection H as <-. exact Hlt. }
    set (w1 := snd (checkUsageLimit resource userId w)).
    assert (Hst : store w1 = store w) by exact Hread.
    assert (Hsame : after (incrementUsage userId resource 1 ;;; ret done) w1
                    = after (incrementUsage userId resource 1) w1).
    { destruct (incrementUsage_cases w1 userId resource 1) as (Hret & _).
      unfold after, outcome, bind, ret in *.
      destruct (incrementUsage userId resource 1 w1) as [[[]|] w2];
        [reflexivity|discriminate]. }
    rewrite Hsame.
    destruct (incrementUsage_cases w1 userId resource 1)
      as (_ & _ & [Hkept | (user' & Hu' & Hinc)]).
    + rewrite Hkept, Hst. exact Hle.
    + rewrite Hst in Hu'. rewrite Hu in Hu'. injection Hu' as <-.
      rewrite Hinc, usage_after_write, bool_decide_eq_true_2 by reflexivity.
      rewrite js_add_safe by (unfold safe_integer; lia). lia.
  - intros Hff Hlast. rewrite Hused in Hlast, Hpos.
    assert (Hlt : or_zero (User.quotaUsed user !! resource) < L) by lia.
    pose proof (checkUsageLimit_run_next w userId resource planId user plan L
                  Hff Hu Hp Hplan HL Hlt) as Hcheck1.
    pose proof (checkUsageLimit_run_next (mkWorld (store w) [] (now w))
                  userId resource planId user plan L
                  eq_refl Hu Hp Hplan HL Hlt) as Hcheck2.
    pose proof (incrementUsage_run (mkWorld (store w) [] (now w))
                  userId resource 1 user eq_refl Hu) as Hinc1.
    cbn [store now] in Hcheck2, Hinc1.
    set (first_use := js_add (or_zero (User.quotaUsed user !! resource)) 1) in *.
    set (user1 := User.set_quotaUsed
                    (<[resource := first_use]> (User.quotaUsed user)) user) in *.
    set (d1 := set_users (insert userId user1) (store w)) in *.
    assert (Hu1 : users d1 !! userId = Some user1)
      by (unfold d1; simpl; apply lookup_insert_eq).
    pose proof (incrementUsage_run (mkWorld d1 [] (now w))
                  userId resource 1 user1 eq_refl Hu1) as Hinc2.
    cbn [store now] in Hinc2.
    unfold outcome, after, two_requests_overlapped, bind, ret.
    rewrite Hcheck1, Hcheck2, Hinc1, Hinc2. split; [reflexivity|].
    cbn [snd store].
    rewrite usage_after_write, bool_decide_eq_true_2 by reflexivity.
    unfold user1. cbn [User.quotaUsed User.set_quotaUsed].
    rewrite lookup_insert_eq. cbn [or_zero default].
    unfold first_use.
    rewrite (js_add_safe (or_zero (User.quotaUsed user !! resource)) 1)
      by (unfold safe_integer; lia).
    unfold js_add, id. rewrite to_double_exact by lia. lia.
Qed.

(** The tenant one message below the cap of 5: a request handled alone
    leaves the usage at 5, two overlapping requests leave it at 6. *)
Lemma guarded_increment_stays_within_limit_witness :
  usage (store Cases.one_left) "tenant" "messages" = 4
  /\ usage (after (metered_route "messages" "tenant" (Status 201 [])) Cases.one_left)
           "tenant" "messages" <= 5
  /\ usage (after (two_requests_overlapped "messages" "tenant") Cases.one_left)
           "tenant" "messages" = 6.
Proof.
  split; [reflexivity|].
  destruct (guarded_increment_stays_within_limit Cases.one_left "tenant" "messages"
              "plan-capped"
              (User.mk (Some "plan-capped") {[ "messages" := 4 ]})
              Scenario.capped 5 (Status 201 []))
    as [Halone Hoverlap]; try reflexivity; try (vm_compute; discriminate).
  split.
  - apply Halone. vm_compute. discriminate.
  - apply Hoverlap; reflexivity.
Defined.

(** ** Feature gate *)

Lemma checkPlanAccess_run (access : gmap string UserAccess.t)
    (w : World) (feature userId : string) (user : User.t) :
  next_call_succeeds w ->
  users (store w) !! userId = Some user ->
  let columns := access_of access userId in
  let plan := User.planId user ≫= (fun p => plans (store w) !! p) in
  outcome (checkPlanAccess access feature userId) w
  = Returns
      (if bool_decide (UserAccess.role columns = Role.SUPER_ADMIN) then Next
       else match plan with
            | None =>
                Status 403 [("error", JString "No active plan");
                            ("feature", JString feature);
                            ("upgradeRequired", JBool true)]
            | Some p =>
                if negb (includes (Plan.features p) feature)
                then Status 403
                       [("error", JString "Feature not available in your plan");
                        ("feature", JString feature);
                        ("currentPlan", JString (Plan.name p));
                        ("upgradeRequired", JBool true)]
                else match UserAccess.planEndDate columns with
                     | Some e =>
                         if e <? now w
                         then Status 403 [("error", JString "Plan expired");
                                          ("expiredAt", JNumber e);
                                          ("renewalRequired", JBool true)]
                         else Next
                     | None => Next
                     end
            end).
Proof.
  intros Hnext Hu columns plan.
  unfold outcome, checkPlanAccess, try_catch, bind, user_findUnique_plan, new_Date.
  rewrite prisma_succeeds by assumption. rewrite Hu. simpl.
  fold columns plan.
  destruct (bool_decide (UserAccess.role columns = Role.SUPER_ADMIN)); [reflexivity|].
  destruct plan as [p|]; [|reflexivity].
  destruct (negb (includes (Plan.features p) feature)); [reflexivity|].
  destruct (UserAccess.planEndDate columns) as [e|]; [|reflexivity].
  simpl. destruct (e <? now w); reflexivity.
Qed.

(** X7: the feature gate calls next() exactly for a super admin, or for
    a user whose plan lists the feature and has not ended (a plan that
    ends at this very instant still counts); a super admin passes with
    no plan at all. *)
Theorem checkPlanAccess_decision (access : gmap string UserAccess.t)
    (w : World) (feature userId : string) (user : User.t) :
  next_call_succeeds w ->
  users (store w) !! userId = Some user ->
  outcome (checkPlanAccess access feature userId) w = Returns Next
  <-> has_access (access_of access userId)
        (User.planId user ≫= (fun p => plans (store w) !! p)) feature (now w).
Proof.
  intros Hnext Hu.
  rewrite (checkPlanAccess_run access w feature userId user Hnext Hu).
  unfold has_access, includes.
  set (columns := access_of access userId).
  set (plan := User.planId user ≫= _).
  case_bool_decide as Hrole; [split; auto|].
  destruct plan as [p|].
  - case_bool_decide as Hfeat; simpl.
    + destruct (UserAccess.planEndDate columns) as [e|] eqn:He.
      * destruct (Z.ltb_spec e (now w)) as [Hlt|Hge].
        -- split; [discriminate|].
           intros [H|(p' & [= <-] & _ & Hend)]; [contradiction|].
           specialize (Hend e eq_refl). lia.
        -- split; [|reflexivity]. intros _. right. exists p.
           repeat split; auto. intros e' [= <-]. exact Hge.
      * split; [|reflexivity]. intros _. right. exists p.
        repeat split; auto. discriminate.
    + split; [discriminate|].
      intros [H|(p' & [= <-] & Hin & _)]; contradiction.
  - split; [discriminate|]. intros [H|(p' & H & _)]; [contradiction|discriminate].
Qed.

Lemma checkPlanAccess_decision_witness :
  outcome (checkPlanAccess Cases.access "retargeting" "root") Cases.world
  = Returns Next
  /\ outcome (checkPlanAccess Cases.access "campaigns" "tenant") Cases.world
     = Returns Next
  /\ outcome (checkPlanAccess Cases.access "retargeting" "tenant") Cases.world
     <> Returns Next.
Proof.
  split; [|split].
  - apply (checkPlanAccess_decision Cases.access Cases.world "retargeting" "root"
             (User.mk None ∅)); [reflexivity | reflexivity |].
    left. reflexivity.
  - apply (checkPlanAccess_decision Cases.access Cases.world "campaigns" "tenant"
             Scenario.tenant); [reflexivity | reflexivity |].
    right. exists Scenario.capped. split; [reflexivity|]. split.
    + apply (bool_decide_unpack _). vm_compute. exact I.
    + intros e [= <-]. vm_compute. discriminate.
  - intros Hnext.
    apply (checkPlanAccess_decision Cases.access Cases.world "retargeting" "tenant"
             Scenario.tenant) in Hnext; [|reflexivity|reflexivity].
    destruct Hnext as [H|(p & Hp & Hin & _)]; [discriminate|].
    injection Hp as <-. revert Hin. apply (bool_decide_unpack _). vm_compute. exact I.
Defined.

(** X8: the feature gate only reads and always replies: for every
    schedule of database faults it returns a reply and leaves the store as
    it was; an unknown user gets 401 "User not found", and a rejected
    lookup 500. *)
Theorem checkPlanAccess_always_replies (access : gmap string UserAccess.t)
    (w : World) (feature userId : string) :
  (exists r, outcome (checkPlanAccess access feature userId) w = Returns r)
  /\ after (checkPlanAccess access feature userId) w = store w
  /\ (next_call_succeeds w -> users (store w) !! userId = None ->
      outcome (checkPlanAccess access feature userId) w
      = Returns (Status 401 [("error", JString "User not found")]))
  /\ (hd false (faults w) = true ->
      outcome (checkPlanAccess access feature userId) w
      = Returns (Status 500 [("error", JString "Failed to check plan access")])).
Proof.
  unfold next_call_succeeds, outcome, after, checkPlanAccess, try_catch, bind,
    user_findUnique_plan, new_Date, prisma.
  destruct (faults w) as [|[] fs]; simpl;
    (destruct (users (store w) !! userId) as [u|] eqn:Hu; simpl;
     [ destruct (bool_decide (UserAccess.role (access_of access userId)
                              = Role.SUPER_ADMIN)); simpl;
       [ | destruct (User.planId u ≫= (fun p => plans (store w) !! p)) as [p|];
           simpl;
           [ destruct (negb (includes (Plan.features p) feature)); simpl;
             [ | destruct (UserAccess.planEndDate (access_of access userId)) as [e|];
                 simpl; [destruct (e <? now w); simpl|] ] | ] ] | ]);
    repeat split; intros; eauto; try discriminate.
Qed.

Lemma checkPlanAccess_always_replies_witness :
  outcome (checkPlanAccess Cases.access "campaigns" "nobody") Cases.world
  = Returns (Status 401 [("error", JString "User not found")])
  /\ outcome (checkPlanAccess Cases.access "campaigns" "tenant")
             (mkWorld Cases.db [true] 1000)
     = Returns (Status 500 [("error", JString "Failed to check plan access")]).
Proof.
  destruct (checkPlanAccess_always_replies Cases.access Cases.world
              "campaigns" "nobody") as (_ & _ & H401 & _).
  destruct (checkPlanAccess_always_replies Cases.access
              (mkWorld Cases.db [true] 1000) "campaigns" "tenant")
    as (_ & _ & _ & H500).
  split; [apply H401; reflexivity | apply H500; reflexivity].
Defined.


(** ** Admin routes on users *)

Lemma logAuditAction_run (w : World) :
  exists fs, logAuditAction w = (Returns tt, mkWorld (store w) fs (now w)).
Proof.
  unfold logAuditAction, try_catch, prisma, ret.
  destruct (faults w) as [|[] fs]; simpl; eauto.
Qed.

Lemma resetUserQuota_run (w : World) (id : string) (user : User.t) :
  next_call_succeeds w ->
  users (store w) !! id = Some user ->
  exists fs,
    resetUserQuota id w
    = (Returns (UserBody 200 (Some "User quota reset successfully")
                  (User.set_quotaUsed ∅ user)),
       mkWorld (set_users (insert id (User.set_quotaUsed ∅ user)) (store w))
               fs (now w)).
Proof.
  intros Hnext Hu. unfold resetUserQuota, try_catch, bind, user_update.
  rewrite prisma_succeeds by assumption. rewrite Hu.
  match goal with |- context [logAuditAction ?w1] =>
    destruct (logAuditAction_run w1) as [fs ->] end.
  simpl. eauto.
Qed.

(** X9: resetting the quota of a known user zeroes the usage of every
    resource, keeps the user's plan and every other user, and replies 200
    with the user, also when the audit log cannot be written. *)
Theorem resetUserQuota_zeroes_usage (w : World) (id : string) (user : User.t) :
  next_call_succeeds w ->
  users (store w) !! id = Some user ->
  let d' := after (resetUserQuota id) w in
  outcome (resetUserQuota id) w
  = Returns (UserBody 200 (Some "User quota reset successfully")
               (User.set_quotaUsed ∅ user))
  /\ (forall resource, usage d' id resource = 0)
  /\ User.planId <$> users d' !! id = Some (User.planId user)
  /\ (forall u, u <> id -> users d' !! u = users (store w) !! u)
  /\ plans d' = plans (store w).
Proof.
  intros Hnext Hu d'.
  destruct (resetUserQuota_run w id user Hnext Hu) as [fs Hrun].
  unfold d', outcome, after. rewrite Hrun. simpl. unfold usage. simpl.
  rewrite lookup_insert_eq. simpl. repeat split.
  intros u Hne. rewrite lookup_insert_ne by congruence. reflexivity.
Qed.

Lemma resetUserQuota_zeroes_usage_witness :
  usage Scenario.db "tenant" "messages" = 5
  /\ usage (after (resetUserQuota "tenant")
                  (mkWorld Scenario.db [false; true] 1000)) "tenant" "messages" = 0.
Proof.
  split; [reflexivity|].
  destruct (resetUserQuota_zeroes_usage (mkWorld Scenario.db [false; true] 1000)
              "tenant" Scenario.tenant) as (_ & Hzero & _);
    [reflexivity | reflexivity |].
  apply Hzero.
Defined.

(** X10: resetting the quota of an unknown user replies 500, not 404,
    and writes nothing; and whatever database call fails, the handler
    returns a reply. *)
Theorem resetUserQuota_unknown_user (w : World) (id : string) :
  (exists r, outcome (resetUserQuota id) w = Returns r)
  /\ (users (store w) !! id = None ->
      outcome (resetUserQuota id) w
      = Returns (UserError 500 "Failed to reset user quota")
      /\ after (resetUserQuota id) w = store w).
Proof.
  unfold outcome, after, resetUserQuota, try_catch, bind, user_update,
    logAuditAction, try_catch, prisma, ret.
  destruct (users (store w) !! id) as [u|] eqn:Hu;
    destruct (faults w) as [|[] [|[] fs]]; simpl; rewrite ?Hu; simpl;
    repeat split; eauto; try discriminate.
Qed.

Lemma resetUserQuota_unknown_user_witness :
  outcome (resetUserQuota "nobody") Scenario.world
  = Returns (UserError 500 "Failed to reset user quota")
  /\ after (resetUserQuota "nobody") Scenario.world = Scenario.db.
Proof.
  destruct (resetUserQuota_unknown_user Scenario.world "nobody") as [_ Hunknown].
  apply Hunknown. reflexivity.
Defined.


(** X11: after a quota reset the usage-limit check decides on usage 0:
    the tenant is let through for every resource that is unlisted,
    unlimited or capped above 0, whatever had been used before. *)
Theorem reset_then_check (w : World) (id resource planId : string)
    (user : User.t) (plan : Plan.t) :
  fault_free w ->
  users (store w) !! id = Some user ->
  User.planId user = Some planId ->
  plans (store w) !! planId = Some plan ->
  outcome (checkUsageLimit resource id) (snd (resetUserQuota id w)) = Returns Next
  <-> below_limit (Plan.limits plan !! resource) 0.
Proof.
  intros Hff Hu Hp Hplan.
  destruct (resetUserQuota_run w id user (fault_free_next w Hff) Hu) as [fs Hrun].
  assert (Hfs : fs = []).
  { revert Hrun. unfold resetUserQuota, try_catch, bind, user_update, logAuditAction,
      try_catch.
    rewrite prisma_fault_free by assumption. rewrite Hu.
    rewrite prisma_fault_free by reflexivity. simpl. congruence. }
  rewrite Hrun. subst fs. simpl.
  rewrite (checkUsageLimit_outcome
             (mkWorld (set_users (insert id (User.set_quotaUsed ∅ user)) (store w))
                      [] (now w))
             id resource planId (User.set_quotaUsed ∅ user) plan);
    [| reflexivity | simpl; apply lookup_insert_eq | exact Hp | exact Hplan].
  simpl. rewrite lookup_empty. simpl.
  rewrite <- (below_limit_spec (Plan.limits plan !! resource) 0).
  destruct (strict_ne _ _ && js_ge _ _); split; try discriminate; reflexivity.
Qed.

Lemma reset_then_check_witness :
  outcome (checkUsageLimit "messages" "tenant") Scenario.world <> Returns Next
  /\ outcome (checkUsageLimit "messages" "tenant")
             (snd (resetUserQuota "tenant" Scenario.world)) = Returns Next.
Proof.
  split; [vm_compute; discriminate|].
  apply (reset_then_check Scenario.world "tenant" "messages" "plan-capped"
           Scenario.tenant Scenario.capped); try reflexivity.
  right; right. exists 5. split; [reflexivity | lia].
Defined.

Lemma updateUserPlan_run (w : World) (id planId : string) (user : User.t)
    (plan : Plan.t) :
  fault_free w ->
  users (store w) !! id = Some user ->
  plans (store w) !! planId = Some plan ->
  updateUserPlan id planId w
  = (Returns (UserBody 200 None (User.mk (Some planId) ∅)),
     mkWorld (set_users (insert id (User.mk (Some planId) ∅)) (store w))
             [] (now w)).
Proof.
  intros Hff Hu Hplan.
  unfold updateUserPlan, try_catch, bind, user_update, logAuditAction, try_catch.
  rewrite prisma_fault_free by assumption. simpl.
  unfold prisma. simpl. rewrite Hu, Hplan. simpl. rewrite Hu. reflexivity.
Qed.

(** X12: changing the plan of a user puts the user on the new plan with
    an empty usage record, and leaves every other user alone; from then
    on the usage-limit check decides on the caps of the new plan and
    usage 0. *)
Theorem updateUserPlan_switches_plan (w : World) (id planId resource : string)
    (user : User.t) (plan : Plan.t) :
  fault_free w ->
  users (store w) !! id = Some user ->
  plans (store w) !! planId = Some plan ->
  let w' := snd (updateUserPlan id planId w) in
  users (store w') !! id = Some (User.mk (Some planId) ∅)
  /\ (forall u, u <> id -> users (store w') !! u = users (store w) !! u)
  /\ usage (store w') id resource = 0
  /\ (outcome (checkUsageLimit resource id) w' = Returns Next
      <-> below_limit (Plan.limits plan !! resource) 0).
Proof.
  intros Hff Hu Hplan w'. unfold w'.
  rewrite (updateUserPlan_run w id planId user plan Hff Hu Hplan). simpl.
  split; [apply lookup_insert_eq|]. split; [|split].
  - intros u Hne. apply lookup_insert_ne. congruence.
  - unfold usage. simpl. rewrite lookup_insert_eq. reflexivity.
  - rewrite (checkUsageLimit_outcome
               (mkWorld (set_users (insert id (User.mk (Some planId) ∅)) (store w))
                        [] (now w))
               id resource planId (User.mk (Some planId) ∅) plan);
      [| reflexivity | simpl; apply lookup_insert_eq | reflexivity | exact Hplan].
    simpl. rewrite lookup_empty. simpl.
    rewrite <- (below_limit_spec (Plan.limits plan !! resource) 0).
    destruct (strict_ne _ _ && js_ge _ _); split; try discriminate; reflexivity.
Qed.

Lemma updateUserPlan_switches_plan_witness :
  outcome (checkUsageLimit "messages" "tenant") Cases.world <> Returns Next
  /\ outcome (checkUsageLimit "messages" "tenant")
             (snd (updateUserPlan "tenant" "plan-open" Cases.world)) = Returns Next.
Proof.
  split; [vm_compute; discriminate|].
  destruct (updateUserPlan_switches_plan Cases.world "tenant" "plan-open" "messages"
              Scenario.tenant Cases.open_plan) as (_ & _ & _ & Hiff);
    [reflexivity | reflexivity | reflexivity |].
  apply Hiff. right; left. reflexivity.
Defined.

(** X13: a plan change for an unknown user, or to an unknown plan, is
    refused with 404 and writes nothing; when both are unknown the reply
    names the user. *)
Theorem updateUserPlan_not_found (w : World) (id planId : string) :
  fault_free w ->
  (users (store w) !! id = None ->
     outcome (updateUserPlan id planId) w = Returns (UserError 404 "User not found")
     /\ after (updateUserPlan id planId) w = store w)
  /\ (is_Some (users (store w) !! id) -> plans (store w) !! planId = None ->
     outcome (updateUserPlan id planId) w = Returns (UserError 404 "Plan not found")
     /\ after (updateUserPlan id planId) w = store w).
Proof.
  intros Hff.
  unfold outcome, after, updateUserPlan, try_catch, bind.
  rewrite prisma_fault_free by assumption. simpl.
  unfold prisma. simpl.
  split.
  - intros ->. auto.
  - intros [u ->] ->. auto.
Qed.

Lemma updateUserPlan_not_found_witness :
  outcome (updateUserPlan "nobody" "plan-none") Cases.world
  = Returns (UserError 404 "User not found")
  /\ outcome (updateUserPlan "tenant" "plan-none") Cases.world
     = Returns (UserError 404 "Plan not found").
Proof.
  destruct (updateUserPlan_not_found Cases.world "nobody" "plan-none")
    as [Huser _]; [reflexivity|].
  destruct (updateUserPlan_not_found Cases.world "tenant" "plan-none")
    as [_ Hplan]; [reflexivity|].
  split.
  - apply Huser. reflexivity.
  - apply Hplan; [eexists; reflexivity | reflexivity].
Defined.

(** ** More on the campaign routes *)

Lemma status_set_completedAt (v : option Z) (c : Campaign.t) :
  Campaign.status (Campaign_set.completedAt v c) = Campaign.status c.
Proof. destruct c; reflexivity. Qed.

Lemma startCampaign_refused_reply (w : World) (id userId : string) (c : Campaign.t) :
  next_call_succeeds w ->
  find_campaign (store w) id userId = Some c ->
  Campaign.status c <> CampaignStatus.DRAFT ->
  Campaign.status c <> CampaignStatus.SCHEDULED ->
  startCampaign id userId w
  = (Returns (Status 400 [("error", JString "Campaign cannot be started")], None),
     mkWorld (store w) (tail (faults w)) (now w)).
Proof.
  intros Hnext Hf Hd Hs.
  unfold startCampaign, try_catch, bind, campaign_findFirst_include.
  rewrite prisma_succeeds by assumption. rewrite Hf. simpl.
  rewrite !is_status_false by assumption. reflexivity.
Qed.

Lemma pauseCampaign_run (w : World) (id userId : string) (c : Campaign.t) :
  fault_free w ->
  find_campaign (store w) id userId = Some c ->
  Campaign.status c = CampaignStatus.RUNNING ->
  pauseCampaign id userId w
  = (Returns (Status 200 [("message", JString "Campaign paused successfully")]),
     mkWorld (set_campaigns
                (insert id (Campaign_set.status CampaignStatus.PAUSED c)) (store w))
             [] (now w)).
Proof.
  intros Hff Hf Hs. destruct (find_campaign_Some _ _ _ _ Hf) as [Hl _].
  unfold pauseCampaign, try_catch, bind, campaign_findFirst, campaign_update.
  rewrite prisma_fault_free by assumption. rewrite Hf.
  rewrite (is_status_true _ _ Hs). simpl.
  rewrite prisma_fault_free by reflexivity. simpl. rewrite Hl. reflexivity.
Qed.

(** X14: pausing a RUNNING campaign replies 200 and makes one write, the
    update of the campaign's status to PAUSED.  Of the campaign's columns
    that the model carries (all but [createdAt] and [updatedAt], the
    latter a stamp that Prisma renews on every update) only [status]
    changes: owner, account, template, name, description, the three
    timestamps and the five counters are as they were.  The other
    campaigns, the contact rows (the PENDING ones included), the
    messages, the users and the plans are as they were. *)
Theorem pause_changes_status_only (w : World) (id userId : string) (c : Campaign.t) :
  fault_free w ->
  find_campaign (store w) id userId = Some c ->
  Campaign.status c = CampaignStatus.RUNNING ->
  outcome (pauseCampaign id userId) w
  = Returns (Status 200 [("message", JString "Campaign paused successfully")])
  /\ after (pauseCampaign id userId) w
     = set_campaigns (insert id (Campaign_set.status CampaignStatus.PAUSED c))
         (store w)
  /\ campaign_status (after (pauseCampaign id userId) w) id
     = Some CampaignStatus.PAUSED
  /\ campaignContacts (after (pauseCampaign id userId) w)
     = campaignContacts (store w)
  /\ (exists c', campaigns (after (pauseCampaign id userId) w) !! id = Some c'
                 /\ Campaign.status c' = CampaignStatus.PAUSED
                 /\ same_but_status c c')
  /\ (forall other, other <> id ->
        campaigns (after (pauseCampaign id userId) w) !! other
        = campaigns (store w) !! other)
  /\ messages (after (pauseCampaign id userId) w) = messages (store w)
  /\ users (after (pauseCampaign id userId) w) = users (store w)
  /\ plans (after (pauseCampaign id userId) w) = plans (store w).
Proof.
  intros Hff Hf Hs. unfold outcome, after, campaign_status.
  rewrite (pauseCampaign_run w id userId c Hff Hf Hs). simpl.
  rewrite lookup_insert_eq. simpl. rewrite status_set_status.
  repeat (split; [reflexivity|]).
  split.
  - eexists. split; [reflexivity|]. split; [apply status_set_status|].
    destruct c. repeat split.
  - split; [|auto]. intros other Hne. apply lookup_insert_ne. congruence.
Qed.

Lemma pause_changes_status_only_witness :
  campaign_status (after (pauseCampaign "c6" "tenant") Scenario.started6) "c6"
  = Some CampaignStatus.PAUSED
  /\ campaignContacts (after (pauseCampaign "c6" "tenant") Scenario.started6)
     = campaignContacts (store Scenario.started6)
  /\ (Campaign.sentCount
        <$> campaigns (after (pauseCampaign "c6" "tenant") Scenario.started6) !! "c6")
     = Some 5
  /\ messages (after (pauseCampaign "c6" "tenant") Scenario.started6)
     = messages (store Scenario.started6).
Proof.
  destruct (pause_changes_status_only Scenario.started6 "c6" "tenant"
              (Scenario.campaign_of Scenario.started6 "c6"))
    as (_ & _ & Hstatus & Hrows & (c' & Hc' & _ & Hsame) & _ & Hmsgs & _);
    [reflexivity | reflexivity | reflexivity |].
  split; [exact Hstatus|]. split; [exact Hrows|]. split; [|exact Hmsgs].
  rewrite Hc'. simpl. f_equal.
  destruct Hsame as (_ & _ & _ & _ & _ & _ & _ & _ & _ & Hsent & _).
  rewrite Hsent. reflexivity.
Defined.

(** X15: there is no resume.  After a pause that went through, a start
    request is refused with 400 "Campaign cannot be started" and a second
    pause with 400 "Campaign is not running"; neither writes. *)
Theorem paused_campaign_cannot_be_started
    (w : World) (id userId : string) (c : Campaign.t) :
  fault_free w ->
  find_campaign (store w) id userId = Some c ->
  Campaign.status c = CampaignStatus.RUNNING ->
  let paused := snd (pauseCampaign id userId w) in
  outcome (start_and_dispatch id userId) paused
  = Returns (Status 400 [("error", JString "Campaign cannot be started")])
  /\ after (start_and_dispatch id userId) paused = store paused
  /\ outcome (pauseCampaign id userId) paused
     = Returns (Status 400 [("error", JString "Campaign is not running")])
  /\ after (pauseCampaign id userId) paused = store paused.
Proof.
  intros Hff Hf Hs paused. unfold paused.
  destruct (find_campaign_Some _ _ _ _ Hf) as [Hl Ho].
  rewrite (pauseCampaign_run w id userId c Hff Hf Hs).
  set (c' := Campaign_set.status CampaignStatus.PAUSED c).
  set (w' := mkWorld _ [] (now w)). simpl snd.
  assert (Hs' : Campaign.status c' = CampaignStatus.PAUSED)
    by apply status_set_status.
  assert (Hl' : campaigns (store w') !! id = Some c')
    by (simpl; apply lookup_insert_eq).
  assert (Hf' : find_campaign (store w') id userId = Some c').
  { apply find_campaign_owner; [exact Hl'|]. unfold c'. destruct c; exact Ho. }
  assert (Hstart : startCampaign id userId w'
                   = (Returns (Status 400
                                 [("error", JString "Campaign cannot be started")],
                               None),
                      mkWorld (store w') (tail (faults w')) (now w'))).
  { apply (startCampaign_refused_reply w' id userId c'); try assumption;
      try reflexivity; rewrite Hs'; discriminate. }
  repeat split.
  - unfold outcome, start_and_dispatch, bind. rewrite Hstart. reflexivity.
  - unfold after, start_and_dispatch, bind. rewrite Hstart. reflexivity.
  - unfold outcome, pauseCampaign, try_catch, bind, campaign_findFirst.
    rewrite prisma_fault_free by reflexivity. rewrite Hf'.
    rewrite is_status_false by (rewrite Hs'; discriminate). reflexivity.
  - apply (pauseCampaign_refused w' id userId c' Hl'). rewrite Hs'. discriminate.
Qed.

Lemma paused_campaign_cannot_be_started_witness :
  outcome (start_and_dispatch "c6" "tenant") Scenario.paused6
  = Returns (Status 400 [("error", JString "Campaign cannot be started")])
  /\ outcome (pauseCampaign "c6" "tenant") Scenario.paused6
     = Returns (Status 400 [("error", JString "Campaign is not running")]).
Proof.
  destruct (paused_campaign_cannot_be_started Scenario.started6 "c6" "tenant"
              (Scenario.campaign_of Scenario.started6 "c6"))
    as (Hstart & _ & Hpause & _); [reflexivity | reflexivity | reflexivity |].
  split; [exact Hstart | exact Hpause].
Defined.

(** X16: a campaign that does not exist, or belongs to another user, is
    out of reach: edit, start, pause, delete and read all reply 404
    "Campaign not found", and none of them writes, whatever database call
    fails. *)
Theorem foreign_campaign_not_found
    (w : World) (id userId : string) (body : UpdateBody) :
  find_campaign (store w) id userId = None ->
  let not_found := Status 404 [("error", JString "Campaign not found")] in
  (next_call_succeeds w ->
     outcome (updateCampaign id userId body) w = Returns not_found
     /\ outcome (start_and_dispatch id userId) w = Returns not_found
     /\ outcome (pauseCampaign id userId) w = Returns not_found
     /\ outcome (deleteCampaign id userId) w = Returns not_found
     /\ outcome (getCampaign id userId) w = Returns (inl not_found))
  /\ after (updateCampaign id userId body) w = store w
  /\ after (start_and_dispatch id userId) w = store w
  /\ after (pauseCampaign id userId) w = store w
  /\ after (deleteCampaign id userId) w = store w
  /\ after (getCampaign id userId) w = store w.
Proof.
  intros Hf not_found. split.
  - intros Hnext.
    unfold outcome, updateCampaign, start_and_dispatch, startCampaign, pauseCampaign,
      deleteCampaign, getCampaign, try_catch, bind, campaign_findFirst,
      campaign_findFirst_include.
    rewrite !prisma_succeeds by assumption. rewrite Hf. simpl. auto.
  - unfold after, updateCampaign, start_and_dispatch, startCampaign, pauseCampaign,
      deleteCampaign, getCampaign, try_catch, bind, campaign_findFirst,
      campaign_findFirst_include, prisma.
    rewrite Hf. destruct (faults w) as [|[] fs]; simpl; auto.
Qed.

Lemma foreign_campaign_not_found_witness :
  outcome (updateCampaign "c6" "intruder" Scenario.rename) Scenario.world
  = Returns (Status 404 [("error", JString "Campaign not found")])
  /\ outcome (deleteCampaign "c6" "intruder") Scenario.world
     = Returns (Status 404 [("error", JString "Campaign not found")])
  /\ after (deleteCampaign "c6" "intruder") Scenario.world = Scenario.db.
Proof.
  destruct (foreign_campaign_not_found Scenario.world "c6" "intruder" Scenario.rename)
    as (Hreply & _ & _ & _ & Hdel & _); [reflexivity|].
  destruct Hreply as (Hupdate & _ & _ & Hdelete & _); [reflexivity|].
  split; [exact Hupdate | split; [exact Hdelete | exact Hdel]].
Defined.

Lemma contacts_after_cascade (t : list CampaignContact.t) (id other : string) :
  filter (fun r => CampaignContact.campaignId r = other)
         (filter (fun r => CampaignContact.campaignId r <> id) t)
  = if decide (other = id) then []
    else filter (fun r => CampaignContact.campaignId r = other) t.
Proof.
  induction t as [|r t IH]; [destruct (decide (other = id)); reflexivity|].
  rewrite (filter_cons (fun r => CampaignContact.campaignId r <> id)).
  rewrite (filter_cons (fun r => CampaignContact.campaignId r = other) r t).
  destruct (decide (CampaignContact.campaignId r <> id)) as [Hne|He].
  - rewrite filter_cons, IH.
    destruct (decide (CampaignContact.campaignId r = other)) as [Ho|Ho];
      destruct (decide (other = id)); try reflexivity; congruence.
  - rewrite IH.
    destruct (decide (CampaignContact.campaignId r = other)) as [Ho|Ho];
      destruct (decide (other = id)); try reflexivity.
    exfalso. apply He. congruence.
Qed.

Lemma detached_messages (id : string) (ms : list Message.t) :
  Forall (fun m => Message.campaignId m <> Some id) (map (detach_message id) ms).
Proof.
  apply Forall_forall. intros m' Hin.
  apply (list_elem_of_fmap_1 (detach_message id)) in Hin as (m & -> & _).
  unfold detach_message. case_bool_decide; simpl; [discriminate|assumption].
Qed.

Lemma deleteCampaign_run (w : World) (id userId : string) (c : Campaign.t) :
  fault_free w ->
  find_campaign (store w) id userId = Some c ->
  Campaign.status c <> CampaignStatus.RUNNING ->
  deleteCampaign id userId w
  = (Returns (Status 200 [("message", JString "Campaign deleted successfully")]),
     mkWorld
       (set_messages (map (detach_message id))
          (set_campaignContacts
             (filter (fun r => CampaignContact.campaignId r <> id))
             (set_campaigns (delete id) (store w))))
       [] (now w)).
Proof.
  intros Hff Hf Hs. destruct (find_campaign_Some _ _ _ _ Hf) as [Hl _].
  unfold deleteCampaign, try_catch, bind, campaign_findFirst, campaign_delete.
  rewrite prisma_fault_free by assumption. rewrite Hf.
  rewrite (is_status_false _ _ Hs). simpl.
  rewrite prisma_fault_free by reflexivity. simpl. rewrite Hl. reflexivity.
Qed.

(** X17: a RUNNING campaign cannot be deleted: the request is refused
    with 400 "Cannot delete running campaign", and the campaign, its rows
    and its messages stay, whatever database call fails. *)
Theorem delete_refused_while_running
    (w : World) (id userId : string) (c : Campaign.t) :
  campaigns (store w) !! id = Some c ->
  Campaign.status c = CampaignStatus.RUNNING ->
  after (deleteCampaign id userId) w = store w
  /\ (next_call_succeeds w -> Campaign.userId c = userId ->
      outcome (deleteCampaign id userId) w
      = Returns (Status 400 [("error", JString "Cannot delete running campaign")])).
Proof.
  intros Hl Hs. split.
  - unfold after, deleteCampaign, try_catch, bind, campaign_findFirst, prisma.
    destruct (find_campaign_cases _ id userId _ Hl) as [Hf|Hf]; rewrite Hf;
      destruct (faults w) as [|[] fs]; simpl;
      rewrite ?(is_status_true _ _ Hs); simpl; auto.
  - intros Hnext Ho.
    unfold outcome, deleteCampaign, try_catch, bind, campaign_findFirst.
    rewrite prisma_succeeds by assumption.
    rewrite (find_campaign_owner _ _ _ _ Hl Ho). rewrite (is_status_true _ _ Hs).
    reflexivity.
Qed.

Lemma delete_refused_while_running_witness :
  after (deleteCampaign "c6" "tenant") Scenario.started6 = store Scenario.started6
  /\ outcome (deleteCampaign "c6" "tenant") Scenario.started6
     = Returns (Status 400 [("error", JString "Cannot delete running campaign")]).
Proof.
  destruct (delete_refused_while_running Scenario.started6 "c6" "tenant"
              (Scenario.campaign_of Scenario.started6 "c6"))
    as [Hkept Hreply]; [reflexivity | reflexivity |].
  split; [exact Hkept | apply Hreply; reflexivity].
Defined.

(** X18: deleting a campaign that is not RUNNING removes the campaign
    and all of its contact rows, and leaves every other campaign and the
    rows of every other campaign as they were; the campaign is then not
    found for anyone.  No message is removed or added: the messages of
    the campaign stay in place with [campaignId] null and every other
    column as it was, the other messages are as they were; users and
    plans are as they were. *)
Theorem delete_removes_campaign_and_rows
    (w : World) (id userId : string) (c : Campaign.t) :
  fault_free w ->
  find_campaign (store w) id userId = Some c ->
  Campaign.status c <> CampaignStatus.RUNNING ->
  let d' := after (deleteCampaign id userId) w in
  outcome (deleteCampaign id userId) w
  = Returns (Status 200 [("message", JString "Campaign deleted successfully")])
  /\ campaigns d' !! id = None
  /\ (forall anyone, find_campaign d' id anyone = None)
  /\ contacts_of d' id = []
  /\ (forall other, other <> id ->
        campaigns d' !! other = campaigns (store w) !! other
        /\ contacts_of d' other = contacts_of (store w) other)
  /\ length (messages d') = length (messages (store w))
  /\ Forall (fun m => Message.campaignId m <> Some id) (messages d')
  /\ (forall (i : nat) (m : Message.t),
        messages (store w) !! i = Some m ->
        messages d' !! i
        = Some (if bool_decide (Message.campaignId m = Some id)
                then without_campaign m else m))
  /\ users d' = users (store w)
  /\ plans d' = plans (store w).
Proof.
  intros Hff Hf Hs d'. unfold d', outcome, after.
  rewrite (deleteCampaign_run w id userId c Hff Hf Hs). simpl.
  split; [reflexivity|]. split; [apply lookup_delete_eq|].
  split; [|split; [|split; [|split; [|split; [|split]]]]].
  - intros anyone. unfold find_campaign. simpl. rewrite lookup_delete_eq. reflexivity.
  - unfold contacts_of. simpl. rewrite contacts_after_cascade.
    destruct (decide (id = id)); [reflexivity|congruence].
  - intros other Hne. split.
    + apply lookup_delete_ne. congruence.
    + unfold contacts_of. simpl. rewrite contacts_after_cascade.
      destruct (decide (other = id)); [congruence|reflexivity].
  - apply length_map.
  - apply detached_messages.
  - intros i m Hm. rewrite lookup_updated_rows, Hm. simpl. f_equal.
  - split; reflexivity.
Qed.

(** Campaign [c1] after its run has one message; deleting the campaign
    keeps that message, without its campaign, and the older message as it
    was. *)
Lemma delete_removes_campaign_and_rows_witness :
  let d' := after (deleteCampaign "c1" "tenant") Scenario.completed1 in
  map Message.campaignId (messages (store Scenario.completed1)) = [None; Some "c1"]
  /\ campaigns d' !! "c1" = None
  /\ contacts_of d' "c1" = []
  /\ contacts_of d' "c6" = contacts_of Scenario.db "c6"
  /\ length (messages d') = 2%nat
  /\ messages d' !! 0%nat = messages (store Scenario.completed1) !! 0%nat
  /\ messages d' !! 1%nat
     = without_campaign <$> messages (store Scenario.completed1) !! 1%nat.
Proof.
  intros d'. split; [reflexivity|].
  destruct (delete_removes_campaign_and_rows Scenario.completed1 "c1" "tenant"
              (Scenario.campaign_of Scenario.completed1 "c1"))
    as (_ & Hgone & _ & Hrows & Hothers & Hlen & _ & Hmsgs & _);
    [reflexivity | reflexivity | discriminate |].
  split; [exact Hgone|]. split; [exact Hrows|]. split; [|split; [|split]].
  - destruct (Hothers "c6") as [_ H6]; [discriminate|].
    fold d' in H6. rewrite H6. reflexivity.
  - fold d' in Hlen. rewrite Hlen. reflexivity.
  - destruct (messages (store Scenario.completed1) !! 0%nat) as [m|] eqn:Hm;
      [|vm_compute in Hm; discriminate].
    fold d' in Hmsgs. rewrite (Hmsgs 0%nat m Hm).
    vm_compute in Hm. injection Hm as <-. reflexivity.
  - destruct (messages (store Scenario.completed1) !! 1%nat) as [m|] eqn:Hm;
      [|vm_compute in Hm; discriminate].
    fold d' in Hmsgs. rewrite (Hmsgs 1%nat m Hm).
    vm_compute in Hm. injection Hm as <-. reflexivity.
Defined.

(** ** Campaign creation *)

Lemma found_ids_NoDup (catalog : Catalog.t) (ids : list string) (userId : string) :
  NoDup (map Contact.id (Catalog.contacts catalog)) ->
  NoDup (map Contact.id (contacts_findMany catalog ids userId)).
Proof.
  intros Hnd. apply (sublist_NoDup _ _ Hnd).
  change (Contact.id <$> contacts_findMany catalog ids userId
          `sublist_of` Contact.id <$> Catalog.contacts catalog).
  apply fmap_sublist. apply sublist_filter.
Qed.

Lemma found_ids_elem (catalog : Catalog.t) (ids : list string) (userId x : string) :
  x ∈ map Contact.id (contacts_findMany catalog ids userId)
  <-> x ∈ ids /\ owned catalog userId x.
Proof.
  unfold contacts_findMany, owned. split.
  - intros Hin. apply (list_elem_of_fmap_1 Contact.id) in Hin as (c & -> & Hc).
    apply list_elem_of_filter in Hc as [[Hid Ho] Hc]. eauto.
  - intros [Hin (c & Hc & <- & Ho)].
    apply (list_elem_of_fmap_2 Contact.id). apply list_elem_of_filter. auto.
Qed.

(** The length test of POST / passes exactly when the ids of the request
    are distinct contacts of the user. *)
Lemma found_all_iff (catalog : Catalog.t) (ids : list string) (userId : string) :
  NoDup (map Contact.id (Catalog.contacts catalog)) ->
  length (contacts_findMany catalog ids userId) = length ids
  <-> NoDup ids /\ forall x, x ∈ ids -> owned catalog userId x.
Proof.
  intros Hnd.
  pose proof (found_ids_NoDup catalog ids userId Hnd) as Hfound.
  set (found := map Contact.id (contacts_findMany catalog ids userId)) in *.
  assert (Hlen : length found = length (contacts_findMany catalog ids userId))
    by apply length_map.
  assert (Hsub : found ⊆+ ids).
  { apply NoDup_submseteq; [exact Hfound|].
    intros x Hx. apply found_ids_elem in Hx. tauto. }
  split.
  - intros Heq.
    assert (Hperm : found ≡ₚ ids).
    { apply (submseteq_length_Permutation _ _ Hsub). lia. }
    split; [rewrite <- Hperm; exact Hfound|].
    intros x Hx. rewrite <- Hperm in Hx. apply found_ids_elem in Hx. tauto.
  - intros [Hids Howned].
    assert (Hsup : ids ⊆+ found).
    { apply NoDup_submseteq; [exact Hids|].
      intros x Hx. apply found_ids_elem. auto. }
    apply submseteq_length in Hsub. apply submseteq_length in Hsup. lia.
Qed.

Lemma pending_rows_keys (id : string) (contacts : list Contact.t) :
  map row_key (pending_rows id contacts)
  = map (fun c => (id, Contact.id c)) contacts.
Proof. unfold pending_rows. rewrite map_map. reflexivity. Qed.

Lemma pending_rows_of_campaign (id : string) (contacts : list Contact.t) :
  filter (fun r => CampaignContact.campaignId r = id) (pending_rows id contacts)
  = pending_rows id contacts.
Proof.
  induction contacts as [|c cs IH]; [reflexivity|].
  simpl. rewrite filter_cons_True by reflexivity. f_equal. exact IH.
Qed.

Lemma pending_rows_of_other (id other : string) (contacts : list Contact.t) :
  other <> id ->
  filter (fun r => CampaignContact.campaignId r = other) (pending_rows id contacts)
  = [].
Proof.
  intros Hne. induction contacts as [|c cs IH]; [reflexivity|].
  simpl. rewrite filter_cons_False by (simpl; congruence). exact IH.
Qed.

(** The new rows respect the unique key of the table. *)
Lemma pending_rows_fit (t : list CampaignContact.t) (id : string)
    (contacts : list Contact.t) :
  NoDup (map row_key t) ->
  filter (fun r => CampaignContact.campaignId r = id) t = [] ->
  NoDup (map Contact.id contacts) ->
  NoDup (map row_key (t ++ pending_rows id contacts)).
Proof.
  intros Ht Hnone Hids. rewrite map_app. apply NoDup_app. split; [exact Ht|]. split.
  - intros k Hk Hk'. rewrite pending_rows_keys in Hk'.
    apply (list_elem_of_fmap_1 (fun c => (id, Contact.id c))) in Hk' as (c & -> & _).
    apply (list_elem_of_fmap_1 row_key) in Hk as (r & Hr & Hin).
    apply (filter_nil_not_elem_of _ _ r Hnone); [|exact Hin].
    unfold row_key in Hr. congruence.
  - rewrite pending_rows_keys.
    rewrite <- (map_map Contact.id (fun k => (id, k))).
    assert (Hinj : Inj (=) (=) (fun k : string => (id, k)))
      by (intros k1 k2 [= ->]; reflexivity).
    apply (NoDup_fmap_2 (fun k : string => (id, k))). exact Hids.
Qed.

Lemma createCampaign_run (catalog : Catalog.t) (w : World) (id userId : string)
    (body : CreateBody) :
  let found := contacts_findMany catalog (new_contactIds body) userId in
  let c := new_campaign userId body (length found) in
  fault_free w ->
  account_and_template_ok catalog userId body ->
  length found = length (new_contactIds body) ->
  campaigns (store w) !! id = None ->
  NoDup (map row_key (campaignContacts (store w) ++ pending_rows id found)) ->
  createCampaign catalog id userId body w
  = (Returns (Entity 201 c),
     mkWorld (set_campaignContacts (fun t => t ++ pending_rows id found)
                (set_campaigns (insert id c) (store w)))
             [] (now w)).
Proof.
  intros found c Hff [Hacc Htpl] Hlen Hfresh Hkeys.
  unfold createCampaign, try_catch, bind, campaign_create, campaignContact_createMany.
  rewrite prisma_fault_free by assumption. simpl.
  rewrite (bool_decide_eq_true_2 _ Hacc). simpl.
  assert (Htemplate :
            match new_templateId body with
            | Some templateId =>
                prisma (fun d =>
                  Some (bool_decide (Catalog.templateRows catalog !! templateId
                                     = Some (userId, TemplateStatus.APPROVED)), d))
            | None => ret true
            end (mkWorld (store w) [] (now w))
            = (Returns true, mkWorld (store w) [] (now w))).
  { destruct (new_templateId body) as [t|]; [|reflexivity].
    rewrite prisma_fault_free by reflexivity. simpl.
    rewrite (bool_decide_eq_true_2 _ (Htpl t eq_refl)). reflexivity. }
  rewrite Htemplate. simpl.
  unfold prisma at 1. simpl. fold found. rewrite Hlen, Nat.eqb_refl. simpl.
  unfold prisma at 1. simpl. rewrite Hfresh. simpl.
  unfold prisma. simpl. rewrite (bool_decide_eq_true_2 _ Hkeys).
  rewrite <- Hlen. reflexivity.
Qed.

(** X19: a creation that goes through stores a campaign in DRAFT (or
    SCHEDULED when a schedule is given) with all counters 0 and
    [totalContacts] the number of contact ids of the request, and one
    PENDING row per contact, each contact once; the table keeps its unique
    key. *)
Theorem createCampaign_creates_fresh (catalog : Catalog.t) (w : World)
    (id userId : string) (body : CreateBody) :
  fault_free w ->
  account_and_template_ok catalog userId body ->
  NoDup (map Contact.id (Catalog.contacts catalog)) ->
  NoDup (new_contactIds body) ->
  (forall x, x ∈ new_contactIds body -> owned catalog userId x) ->
  campaigns (store w) !! id = None ->
  contacts_of (store w) id = [] ->
  NoDup (map row_key (campaignContacts (store w))) ->
  let d' := after (createCampaign catalog id userId body) w in
  let c := new_campaign userId body (length (new_contactIds body)) in
  outcome (createCampaign catalog id userId body) w = Returns (Entity 201 c)
  /\ campaigns d' !! id = Some c
  /\ Campaign.totalContacts c = Z.of_nat (length (contacts_of d' id))
  /\ Forall (fun r => CampaignContact.status r = CampaignContactStatus.PENDING)
            (contacts_of d' id)
  /\ map CampaignContact.contactId (contacts_of d' id) ≡ₚ new_contactIds body
  /\ NoDup (map row_key (campaignContacts d'))
  /\ (forall other, other <> id ->
        campaigns d' !! other = campaigns (store w) !! other
        /\ contacts_of d' other = contacts_of (store w) other).
Proof.
  intros Hff Hok Hcat Hids Howned Hfresh Hnone Htable d' c.
  set (found := contacts_findMany catalog (new_contactIds body) userId).
  assert (Hlen : length found = length (new_contactIds body)).
  { apply found_all_iff; auto. }
  assert (Hfound : NoDup (map Contact.id found)) by (apply found_ids_NoDup, Hcat).
  assert (Hkeys : NoDup (map row_key (campaignContacts (store w)
                                      ++ pending_rows id found))).
  { apply pending_rows_fit; assumption. }
  unfold d', c, outcome, after.
  rewrite (createCampaign_run catalog w id userId body Hff Hok Hlen Hfresh Hkeys).
  fold found. simpl. rewrite Hlen.
  assert (Hrows : contacts_of
                    (set_campaignContacts (fun t => t ++ pending_rows id found)
                       (set_campaigns
                          (insert id (new_campaign userId body
                                        (length (new_contactIds body))))
                          (store w))) id
                  = pending_rows id found).
  { unfold contacts_of in *. simpl. rewrite filter_app, Hnone.
    apply pending_rows_of_campaign. }
  rewrite Hrows.
  split; [reflexivity|]. split; [apply lookup_insert_eq|]. split; [|split; [|split]].
  - simpl. unfold pending_rows. rewrite length_map, Hlen. reflexivity.
  - unfold pending_rows. apply Forall_forall. intros r Hr.
    apply (list_elem_of_fmap_1 _ found) in Hr as (k & -> & _). reflexivity.
  - unfold pending_rows. rewrite map_map. simpl.
    change (map Contact.id found ≡ₚ new_contactIds body).
    apply NoDup_Permutation; [exact Hfound | exact Hids |].
    intros x.
    pose proof (found_ids_elem catalog (new_contactIds body) userId x) as Hx.
    fold found in Hx. split; [tauto|]. intros Hin. apply Hx. auto.
  - split; [exact Hkeys|]. intros other Hne. split.
    + apply lookup_insert_ne. congruence.
    + unfold contacts_of. simpl. rewrite filter_app.
      rewrite (pending_rows_of_other id other found Hne). apply app_nil_r.
Qed.

Lemma createCampaign_creates_fresh_witness :
  let d' := after (createCampaign Cases.catalog "new" "tenant"
                     (Cases.request ["k3"; "k1"])) Scenario.world in
  contacts_of d' "new"
  = [Scenario.contact_row "new" "k1"; Scenario.contact_row "new" "k3"]
  /\ Campaign.totalContacts <$> campaigns d' !! "new" = Some 2.
Proof.
  intros d'.
  destruct (createCampaign_creates_fresh Cases.catalog Scenario.world "new" "tenant"
              (Cases.request ["k3"; "k1"]))
    as (_ & Hc & _).
  - reflexivity.
  - split; [reflexivity|]. intros t [= <-]. reflexivity.
  - apply (bool_decide_unpack _). vm_compute. exact I.
  - apply (bool_decide_unpack _). vm_compute. exact I.
  - intros x Hx.
    apply elem_of_cons in Hx as [->|Hx];
      [|apply elem_of_cons in Hx as [->|Hx]; [|inversion Hx]].
    + exists (Contact.mk "k3" "tenant"). split; [|split; reflexivity].
      apply (bool_decide_unpack _). vm_compute. exact I.
    + exists (Contact.mk "k1" "tenant"). split; [|split; reflexivity].
      apply (bool_decide_unpack _). vm_compute. exact I.
  - reflexivity.
  - reflexivity.
  - apply (bool_decide_unpack _). vm_compute. exact I.
  - split; [reflexivity|]. fold d' in Hc. rewrite Hc. reflexivity.
Defined.

(** X20: creation takes only the user's own contacts: when the contact
    ids of the request are not distinct ids of contacts of that user (one
    is unknown, belongs to another user, or is repeated), the request is
    refused with 400 "Some contacts not found" and nothing is written. *)
Theorem createCampaign_foreign_contact (catalog : Catalog.t) (w : World)
    (id userId : string) (body : CreateBody) :
  fault_free w ->
  account_and_template_ok catalog userId body ->
  NoDup (map Contact.id (Catalog.contacts catalog)) ->
  ~ (NoDup (new_contactIds body)
     /\ forall x, x ∈ new_contactIds body -> owned catalog userId x) ->
  outcome (createCampaign catalog id userId body) w
  = Returns (Status 400 [("error", JString "Some contacts not found")])
  /\ after (createCampaign catalog id userId body) w = store w.
Proof.
  intros Hff [Hacc Htpl] Hcat Hbad.
  unfold outcome, after, createCampaign, try_catch, bind.
  rewrite prisma_fault_free by assumption. simpl.
  rewrite (bool_decide_eq_true_2 _ Hacc). simpl.
  assert (Htemplate :
            match new_templateId body with
            | Some templateId =>
                prisma (fun d =>
                  Some (bool_decide (Catalog.templateRows catalog !! templateId
                                     = Some (userId, TemplateStatus.APPROVED)), d))
            | None => ret true
            end (mkWorld (store w) [] (now w))
            = (Returns true, mkWorld (store w) [] (now w))).
  { destruct (new_templateId body) as [t|]; [|reflexivity].
    rewrite prisma_fault_free by reflexivity. simpl.
    rewrite (bool_decide_eq_true_2 _ (Htpl t eq_refl)). reflexivity. }
  rewrite Htemplate. simpl. unfold prisma. simpl.
  destruct (Nat.eqb_spec (length (contacts_findMany catalog (new_contactIds body)
                                    userId))
                         (length (new_contactIds body))) as [Heq|Hne].
  - exfalso. apply Hbad. apply (found_all_iff catalog _ userId Hcat). exact Heq.
  - simpl. auto.
Qed.

Lemma createCampaign_foreign_contact_witness :
  outcome (createCampaign Cases.catalog "new" "tenant" (Cases.request ["k1"; "k9"]))
          Scenario.world
  = Returns (Status 400 [("error", JString "Some contacts not found")])
  /\ after (createCampaign Cases.catalog "new" "tenant" (Cases.request ["k1"; "k9"]))
           Scenario.world = Scenario.db.
Proof.
  apply (createCampaign_foreign_contact Cases.catalog Scenario.world "new" "tenant"
           (Cases.request ["k1"; "k9"])).
  - reflexivity.
  - split; [reflexivity|]. intros t [= <-]. reflexivity.
  - apply (bool_decide_unpack _). vm_compute. exact I.
  - intros [_ Howned].
    destruct (Howned "k9") as (c & Hc & Hid & Ho).
    + apply (bool_decide_unpack _). vm_compute. exact I.
    + revert Hid Ho. revert Hc. unfold Cases.catalog. simpl.
      intros Hc. repeat (apply elem_of_cons in Hc as [->|Hc]); simpl;
        try discriminate; try (intros; discriminate).
      inversion Hc.
Defined.

(** X21: a request that names a WhatsApp account of another user (or
    none), or a template that is not an approved template of the user, is
    refused with 404 before anything is written. *)
Theorem createCampaign_foreign_account_or_template (catalog : Catalog.t)
    (w : World) (id userId : string) (body : CreateBody) :
  fault_free w ->
  (Catalog.whatsappAccounts catalog !! new_whatsappAccountId body <> Some userId ->
     outcome (createCampaign catalog id userId body) w
     = Returns (Status 404 [("error", JString "WhatsApp account not found")])
     /\ after (createCampaign catalog id userId body) w = store w)
  /\ (Catalog.whatsappAccounts catalog !! new_whatsappAccountId body = Some userId ->
      forall t, new_templateId body = Some t ->
      Catalog.templateRows catalog !! t <> Some (userId, TemplateStatus.APPROVED) ->
      outcome (createCampaign catalog id userId body) w
      = Returns (Status 404 [("error", JString "Template not found or not approved")])
      /\ after (createCampaign catalog id userId body) w = store w).
Proof.
  intros Hff. unfold outcome, after, createCampaign, try_catch, bind.
  rewrite prisma_fault_free by assumption. simpl. split.
  - intros Hacc. rewrite (bool_decide_eq_false_2 _ Hacc). simpl. auto.
  - intros Hacc t Ht Hrow. rewrite (bool_decide_eq_true_2 _ Hacc). simpl.
    rewrite Ht. unfold prisma at 1. simpl.
    rewrite (bool_decide_eq_false_2 _ Hrow). simpl. auto.
Qed.

Lemma createCampaign_foreign_account_or_template_witness :
  outcome (createCampaign Cases.catalog "new" "other" (Cases.request ["k9"]))
          Scenario.world
  = Returns (Status 404 [("error", JString "WhatsApp account not found")])
  /\ outcome (createCampaign Cases.catalog "new" "tenant"
                (mkCreateBody "wa-1" "Spring" None (Some "t-wait") ["k1"] None))
             Scenario.world
     = Returns (Status 404 [("error", JString "Template not found or not approved")]).
Proof.
  destruct (createCampaign_foreign_account_or_template Cases.catalog Scenario.world
              "new" "other" (Cases.request ["k9"])) as [Haccount _]; [reflexivity|].
  destruct (createCampaign_foreign_account_or_template Cases.catalog Scenario.world
              "new" "tenant"
              (mkCreateBody "wa-1" "Spring" None (Some "t-wait") ["k1"] None))
    as [_ Htemplate]; [reflexivity|].
  split.
  - apply Haccount. vm_compute. discriminate.
  - apply (Htemplate eq_refl "t-wait" eq_refl). vm_compute. discriminate.
Defined.

(** X22: creation is not atomic.  When the insert of the contact rows is
    rejected after the campaign row went in, the reply is 500 and the
    store keeps a campaign whose [totalContacts] counts contacts for which
    no row exists. *)
Theorem createCampaign_not_atomic (catalog : Catalog.t) (w : World)
    (id userId : string) (body : CreateBody) :
  let found := contacts_findMany catalog (new_contactIds body) userId in
  faults w = [false; false; false; true] ->
  new_templateId body = None ->
  Catalog.whatsappAccounts catalog !! new_whatsappAccountId body = Some userId ->
  length found = length (new_contactIds body) ->
  campaigns (store w) !! id = None ->
  outcome (createCampaign catalog id userId body) w
  = Returns (Status 500 [("error", JString "Failed to create campaign")])
  /\ campaigns (after (createCampaign catalog id userId body) w) !! id
     = Some (new_campaign userId body (length (new_contactIds body)))
  /\ campaignContacts (after (createCampaign catalog id userId body) w)
     = campaignContacts (store w).
Proof.
  intros found Hf Htpl Hacc Hlen Hfresh.
  unfold outcome, after, createCampaign, try_catch, bind, campaign_create,
    campaignContact_createMany, prisma.
  rewrite Hf, Htpl. simpl. rewrite (bool_decide_eq_true_2 _ Hacc). simpl.
  fold found. rewrite Hlen, Nat.eqb_refl. simpl. rewrite Hfresh. simpl.
  rewrite lookup_insert_eq. rewrite <- Hlen. auto.
Qed.

Lemma createCampaign_not_atomic_witness :
  let body := mkCreateBody "wa-1" "Spring" None None ["k1"; "k2"] None in
  let d' := after (createCampaign Cases.catalog "new" "tenant" body)
                  (mkWorld Scenario.db [false; false; false; true] 1000) in
  Campaign.totalContacts <$> campaigns d' !! "new" = Some 2
  /\ contacts_of d' "new" = [].
Proof.
  intros body d'.
  destruct (createCampaign_not_atomic Cases.catalog
              (mkWorld Scenario.db [false; false; false; true] 1000)
              "new" "tenant" body) as (_ & Hc & Hrows);
    [reflexivity | reflexivity | reflexivity | reflexivity | reflexivity |].
  fold d' in Hc, Hrows. split.
  - rewrite Hc. reflexivity.
  - unfold contacts_of. rewrite Hrows. reflexivity.
Defined.

(** ** Runs of the worker that complete the campaign *)

Lemma sent_twice (t : Z) (r : CampaignContact.t) :
  CampaignContact_set.sent t (CampaignContact_set.sent t r)
  = CampaignContact_set.sent t r.
Proof. destruct r; reflexivity. Qed.

Lemma mark_sent_cons (id : string) (b : CampaignContact.t)
    (batch : list CampaignContact.t) (t : Z) (r : CampaignContact.t) :
  mark_sent id batch t
    (if same_row id (CampaignContact.contactId b) r
     then CampaignContact_set.sent t r else r)
  = mark_sent id (b :: batch) t r.
Proof.
  unfold mark_sent. cbn [existsb].
  destruct (same_row id (CampaignContact.contactId b) r) eqn:Hb; cbn [orb].
  - assert (Hsame : existsb (fun b' => same_row id (CampaignContact.contactId b')
                                         (CampaignContact_set.sent t r)) batch
                    = existsb (fun b' => same_row id (CampaignContact.contactId b') r)
                              batch).
    { induction batch as [|b' bs IH]; [reflexivity|].
      simpl. rewrite same_row_sent, IH. reflexivity. }
    rewrite Hsame. clear Hsame.
    destruct (existsb _ batch); [apply sent_twice|reflexivity].
  - reflexivity.
Qed.

Lemma sentCount_add (c : Campaign.t) (n : nat) :
  Campaign_set.sentCount
    (Campaign.sentCount (increment_sentCount c) + Z.of_nat n)
    (increment_sentCount c)
  = Campaign_set.sentCount (Campaign.sentCount c + Z.of_nat (S n)) c.
Proof. destruct c. unfold increment_sentCount. simpl. f_equal. lia. Qed.

(** The loop on a batch, no fault: the world it leaves. *)
Lemma dispatch_batch_run (campaign : CampaignWithRelations.t)
    (batch : list CampaignContact.t) (w : World) (c : Campaign.t) :
  let id := CampaignWithRelations.id campaign in
  fault_free w ->
  campaigns (store w) !! id = Some c ->
  (forall r, r ∈ batch -> row_present id (CampaignContact.contactId r) (store w)) ->
  exists w',
    for_of batch (dispatch_contact campaign) w = (Returns tt, w')
    /\ fault_free w' /\ now w' = now w
    /\ campaigns (store w')
       = <[id := Campaign_set.sentCount
                   (Campaign.sentCount c + Z.of_nat (length batch)) c]>
           (campaigns (store w))
    /\ campaignContacts (store w')
       = map (mark_sent id batch (now w)) (campaignContacts (store w))
    /\ messages (store w')
       = messages (store w) ++ map (campaign_message campaign) batch.
Proof.
  intros id. revert w c.
  induction batch as [|r batch IH]; intros w c Hff Hc Hrows.
  - exists w. simpl. split; [reflexivity|]. split; [exact Hff|]. split; [reflexivity|].
    split; [|split].
    + symmetry. apply insert_id. rewrite Hc. f_equal.
      destruct c; simpl; f_equal; lia.
    + symmetry. unfold mark_sent. simpl. apply map_id.
    + symmetry. apply app_nil_r.
  - simpl for_of. unfold bind.
    rewrite (dispatch_contact_fault_free campaign r w c Hff Hc)
      by (apply Hrows, list_elem_of_here).
    fold id.
    destruct (IH (mkWorld
                    (set_campaigns (insert id (increment_sentCount c))
                       (set_campaignContacts
                          (map (fun x => if same_row id (CampaignContact.contactId r) x
                                         then CampaignContact_set.sent (now w) x
                                         else x))
                          (set_messages
                             (fun ms => ms ++ [campaign_message campaign r])
                             (store w))))
                    [] (now w))
                 (increment_sentCount c))
      as (w' & Hrun & Hff' & Hnow & Hcamp & Htable & Hmsgs).
    + reflexivity.
    + simpl. apply lookup_insert_eq.
    + intros r' Hr'. unfold row_present. simpl.
      rewrite existsb_same_row_updated by (intros; apply same_row_sent).
      apply Hrows, list_elem_of_further, Hr'.
    + exists w'. split; [exact Hrun|]. split; [exact Hff'|].
      split; [exact Hnow|]. split; [|split].
      * rewrite Hcamp. simpl. rewrite insert_insert_eq. f_equal.
        apply sentCount_add.
      * rewrite Htable. simpl. rewrite map_map. apply map_ext.
        intros x. apply mark_sent_cons.
      * rewrite Hmsgs. simpl. rewrite <- app_assoc. reflexivity.
Qed.

Lemma marked_rows_sent (id : string) (t : list CampaignContact.t) (at_ : Z) :
  Forall (fun r => CampaignContact.status r = CampaignContactStatus.SENT
                   /\ CampaignContact.sentAt r = Some at_)
    (filter (fun r => CampaignContact.campaignId r = id)
       (map (mark_sent id (filter (fun r => CampaignContact.campaignId r = id) t) at_)
            t)).
Proof.
  apply Forall_forall. intros r' Hr'.
  apply list_elem_of_filter in Hr' as [Hc Hin].
  apply (list_elem_of_fmap_1 _ t) in Hin as (r & -> & Hr).
  assert (Hid : CampaignContact.campaignId r = id).
  { revert Hc. unfold mark_sent. destruct (existsb _ _); [|auto].
    destruct r; simpl. auto. }
  assert (Hex : existsb (fun b => same_row id (CampaignContact.contactId b) r)
                        (filter (fun r => CampaignContact.campaignId r = id) t)
                = true).
  { apply existsb_exists. exists r. split.
    - apply list_elem_of_In, list_elem_of_filter. auto.
    - unfold same_row. rewrite !bool_decide_eq_true_2; auto. }
  unfold mark_sent. rewrite Hex. destruct r; simpl. auto.
Qed.

Lemma startCampaign_run (w : World) (id userId : string) (c : Campaign.t) :
  fault_free w ->
  find_campaign (store w) id userId = Some c ->
  Campaign.status c = CampaignStatus.DRAFT
  \/ Campaign.status c = CampaignStatus.SCHEDULED ->
  startCampaign id userId w
  = (Returns (Status 200 [("message", JString "Campaign started successfully")],
              Some (CampaignWithRelations.mk id c
                      (Campaign.templateId c ≫= (fun t => templates (store w) !! t))
                      (contacts_of (store w) id))),
     mkWorld
       (set_campaigns
          (insert id (Campaign_set.startedAt (Some (now w))
                        (Campaign_set.status CampaignStatus.RUNNING c)))
          (store w))
       [] (now w)).
Proof.
  intros Hff Hf Hs. destruct (find_campaign_Some _ _ _ _ Hf) as [Hl _].
  unfold startCampaign, try_catch, bind, campaign_findFirst_include, new_Date,
    campaign_update.
  rewrite prisma_fault_free by assumption. rewrite Hf. simpl.
  assert (Hg : negb (is_status c CampaignStatus.DRAFT)
               && negb (is_status c CampaignStatus.SCHEDULED) = false).
  { destruct Hs as [Hs|Hs]; rewrite (is_status_true _ _ Hs); simpl;
      auto using andb_false_r. }
  rewrite Hg. unfold prisma. simpl. rewrite Hl. reflexivity.
Qed.

(** The start of a campaign of at most five rows and the run of its
    worker, no fault: the reply and the world they leave. *)
Lemma small_campaign_run (w : World) (id userId : string) (c : Campaign.t) :
  let rows := contacts_of (store w) id in
  fault_free w ->
  find_campaign (store w) id userId = Some c ->
  Campaign.status c = CampaignStatus.DRAFT
  \/ Campaign.status c = CampaignStatus.SCHEDULED ->
  (length rows <= 5)%nat ->
  exists d2 c',
    start_and_dispatch id userId w
    = (Returns (Status 200 [("message", JString "Campaign started successfully")]),
       mkWorld (set_campaigns (insert id c') d2) [] (now w))
    /\ Campaign.status c' = CampaignStatus.COMPLETED
    /\ Campaign.startedAt c' = Some (now w)
    /\ Campaign.completedAt c' = Some (now w)
    /\ Campaign.sentCount c' = Campaign.sentCount c + Z.of_nat (length rows)
    /\ Campaign.failedCount c' = Campaign.failedCount c
    /\ Campaign.totalContacts c' = Campaign.totalContacts c
    /\ Forall (fun r => CampaignContact.status r = CampaignContactStatus.SENT
                        /\ CampaignContact.sentAt r = Some (now w))
              (contacts_of d2 id)
    /\ length (messages d2) = (length (messages (store w)) + length rows)%nat.
Proof.
  intros rows Hff Hf Hs Hlen.
  destruct (find_campaign_Some _ _ _ _ Hf) as [Hl _].
  set (campaign := CampaignWithRelations.mk id c
                     (Campaign.templateId c ≫= (fun t => templates (store w) !! t))
                     rows).
  set (c1 := Campaign_set.startedAt (Some (now w))
               (Campaign_set.status CampaignStatus.RUNNING c)).
  set (w1 := mkWorld (set_campaigns (insert id c1) (store w)) [] (now w)).
  assert (Hstart : startCampaign id userId w
                   = (Returns (Status 200
                                 [("message", JString "Campaign started successfully")],
                               Some campaign), w1))
    by (apply startCampaign_run; assumption).
  destruct (dispatch_batch_run campaign rows w1 c1)
    as (w2 & Hbatch & Hff2 & Hnow2 & Hcamp2 & Htable2 & Hmsgs2).
  { reflexivity. }
  { simpl. apply lookup_insert_eq. }
  { intros r Hr. unfold row_present. simpl.
    apply (row_present_in_table (store w) id r Hr). }
  simpl in Hnow2, Hcamp2, Htable2, Hmsgs2.
  set (c2 := Campaign_set.sentCount
               (Campaign.sentCount c1 + Z.of_nat (length rows)) c1) in *.
  set (c3 := Campaign_set.completedAt (Some (now w))
               (Campaign_set.status CampaignStatus.COMPLETED c2)).
  assert (Hsent : Forall (fun r => CampaignContact.status r = CampaignContactStatus.SENT
                                   /\ CampaignContact.sentAt r = Some (now w))
                         (contacts_of (store w2) id)).
  { unfold contacts_of. rewrite Htable2. apply marked_rows_sent. }
  assert (Hnone : filter (fun r => is_pending r = true) (contacts_of (store w2) id)
                  = []).
  { induction Hsent as [|r rs [Hr _] _ IH]; [reflexivity|].
    rewrite filter_cons_False; [exact IH|].
    unfold is_pending. rewrite bool_decide_eq_false_2; [discriminate|].
    rewrite Hr. discriminate. }
  assert (Hworker : processCampaignMessages campaign w1
                    = (Returns tt,
                       mkWorld (set_campaigns (insert id c3) (store w2)) [] (now w))).
  { unfold processCampaignMessages, try_catch, dispatch_loop, bind.
    simpl CampaignWithRelations.contacts. simpl CampaignWithRelations.id.
    rewrite (take_ge rows 5 Hlen). rewrite Hbatch.
    unfold campaignContact_count_pending.
    rewrite prisma_fault_free by assumption. rewrite Hnone. simpl.
    unfold new_Date, campaign_update. rewrite Hnow2.
    unfold prisma. simpl. rewrite Hcamp2, lookup_insert_eq. reflexivity. }
  exists (store w2), c3. split.
  { unfold start_and_dispatch, bind. rewrite Hstart. simpl.
    unfold detached. rewrite Hworker. reflexivity. }
  split; [|split; [|split; [|split; [|split; [|split; [|split]]]]]];
    try (unfold c3, c2, c1; destruct c; reflexivity).
  - exact Hsent.
  - rewrite Hmsgs2, length_app, length_map. reflexivity.
Qed.

(** X23: a campaign of at most five contacts is dispatched in one run.
    With no database fault, its start and the run of the worker leave it
    COMPLETED, started and completed at the time of the request, with
    [sentCount] raised by the number of its rows and [failedCount] as it
    was; each of its rows is SENT, and one message per row is appended. *)
Theorem worker_completes_small_campaign
    (w : World) (id userId : string) (c : Campaign.t) :
  let rows := contacts_of (store w) id in
  let d' := after (start_and_dispatch id userId) w in
  fault_free w ->
  find_campaign (store w) id userId = Some c ->
  Campaign.status c = CampaignStatus.DRAFT
  \/ Campaign.status c = CampaignStatus.SCHEDULED ->
  (length rows <= 5)%nat ->
  outcome (start_and_dispatch id userId) w
  = Returns (Status 200 [("message", JString "Campaign started successfully")])
  /\ (exists c',
        campaigns d' !! id = Some c'
        /\ Campaign.status c' = CampaignStatus.COMPLETED
        /\ Campaign.startedAt c' = Some (now w)
        /\ Campaign.completedAt c' = Some (now w)
        /\ Campaign.sentCount c' = Campaign.sentCount c + Z.of_nat (length rows)
        /\ Campaign.failedCount c' = Campaign.failedCount c
        /\ Campaign.totalContacts c' = Campaign.totalContacts c)
  /\ Forall (fun r => CampaignContact.status r = CampaignContactStatus.SENT
                      /\ CampaignContact.sentAt r = Some (now w))
            (contacts_of d' id)
  /\ length (messages d') = (length (messages (store w)) + length rows)%nat.
Proof.
  intros rows d' Hff Hf Hs Hlen.
  destruct (small_campaign_run w id userId c Hff Hf Hs Hlen)
    as (d2 & c' & Hrun & Hfacts).
  unfold d', outcome, after. rewrite Hrun. simpl.
  split; [reflexivity|].
  destruct Hfacts as (H1 & H2 & H3 & H4 & H5 & H6 & Hsent & Hmsgs).
  split; [|split; [exact Hsent | exact Hmsgs]].
  exists c'. split; [apply lookup_insert_eq|]. auto 10.
Qed.

Lemma worker_completes_small_campaign_witness :
  campaigns (after (start_and_dispatch "c1" "tenant") Scenario.world) !! "c1"
  = Some (Campaign.mk "tenant" "wa-1" None "Launch" None CampaignStatus.COMPLETED
            None (Some 1000) (Some 1000) 1 1 0 0 0).
Proof.
  destruct (worker_completes_small_campaign Scenario.world "c1" "tenant"
              (Scenario.created 1))
    as (_ & (c' & Hc' & _) & _);
    [reflexivity | reflexivity | left; reflexivity | vm_compute; lia |].
  rewrite Hc'. revert Hc'. vm_compute. intros [= <-]. reflexivity.
Defined.

(** X24: end to end.  A campaign created for at most five distinct
    contacts of the user and then started is, with no database fault,
    COMPLETED after the first run of the worker, with [sentCount] equal to
    [totalContacts], [failedCount] 0 and every one of its rows SENT. *)
Theorem create_then_start_completes (catalog : Catalog.t) (w : World)
    (id userId : string) (body : CreateBody) :
  fault_free w ->
  account_and_template_ok catalog userId body ->
  NoDup (map Contact.id (Catalog.contacts catalog)) ->
  NoDup (new_contactIds body) ->
  (forall x, x ∈ new_contactIds body -> owned catalog userId x) ->
  campaigns (store w) !! id = None ->
  contacts_of (store w) id = [] ->
  NoDup (map row_key (campaignContacts (store w))) ->
  (length (new_contactIds body) <= 5)%nat ->
  let created := snd (createCampaign catalog id userId body w) in
  let d' := after (start_and_dispatch id userId) created in
  exists c',
    campaigns d' !! id = Some c'
    /\ Campaign.status c' = CampaignStatus.COMPLETED
    /\ Campaign.totalContacts c' = Z.of_nat (length (new_contactIds body))
    /\ Campaign.sentCount c' = Campaign.totalContacts c'
    /\ Campaign.failedCount c' = 0
    /\ Forall (fun r => CampaignContact.status r = CampaignContactStatus.SENT)
              (contacts_of d' id).
Proof.
  intros Hff Hok Hcat Hids Howned Hfresh Hnone Htable Hfive created d'.
  set (found := contacts_findMany catalog (new_contactIds body) userId).
  assert (Hlen : length found = length (new_contactIds body))
    by (apply found_all_iff; auto).
  assert (Hkeys : NoDup (map row_key (campaignContacts (store w)
                                      ++ pending_rows id found))).
  { apply pending_rows_fit; try assumption. apply found_ids_NoDup, Hcat. }
  set (c := new_campaign userId body (length found)).
  assert (Hcreated : created
                     = mkWorld (set_campaignContacts (fun t => t ++ pending_rows id found)
                                  (set_campaigns (insert id c) (store w)))
                               [] (now w)).
  { unfold created.
    rewrite (createCampaign_run catalog w id userId body Hff Hok Hlen Hfresh Hkeys).
    reflexivity. }
  assert (Hrows : contacts_of (store created) id = pending_rows id found).
  { rewrite Hcreated. unfold contacts_of in *. simpl. rewrite filter_app, Hnone.
    apply pending_rows_of_campaign. }
  destruct (small_campaign_run created id userId c)
    as (d2 & c' & Hrun & Hst & _ & _ & Hsent & Hfailed & Htotal & Hall & _).
  - rewrite Hcreated. reflexivity.
  - rewrite Hcreated. apply find_campaign_owner; [|reflexivity].
    simpl. apply lookup_insert_eq.
  - unfold c, new_campaign. simpl. destruct (new_scheduledAt body); auto.
  - rewrite Hrows. unfold pending_rows. rewrite length_map, Hlen. exact Hfive.
  - unfold d', after. rewrite Hrun. simpl. exists c'.
    split; [apply lookup_insert_eq|]. split; [exact Hst|].
    rewrite Hrows in Hsent. unfold pending_rows in Hsent.
    rewrite length_map in Hsent.
    split; [rewrite Htotal; unfold c; simpl; rewrite Hlen; reflexivity|].
    split; [rewrite Hsent, Htotal; unfold c; simpl; lia|].
    split; [rewrite Hfailed; reflexivity|].
    eapply Forall_impl; [exact Hall|]. intros r [Hr _]. exact Hr.
Qed.

Lemma create_then_start_completes_witness :
  let created := snd (createCampaign Cases.catalog "new" "tenant"
                        (Cases.request ["k1"; "k2"; "k3"]) Scenario.world) in
  campaigns (after (start_and_dispatch "new" "tenant") created) !! "new"
  = Some (Campaign.mk "tenant" "wa-1" (Some "t-ok") "Spring" None
            CampaignStatus.COMPLETED None (Some 1000) (Some 1000) 3 3 0 0 0).
Proof.
  intros created.
  destruct (create_then_start_completes Cases.catalog Scenario.world "new" "tenant"
              (Cases.request ["k1"; "k2"; "k3"])) as (c' & Hc' & _).
  - reflexivity.
  - split; [reflexivity|]. intros t [= <-]. reflexivity.
  - apply (bool_decide_unpack _). vm_compute. exact I.
  - apply (bool_decide_unpack _). vm_compute. exact I.
  - intros x Hx. exists (Contact.mk x "tenant").
    repeat (apply elem_of_cons in Hx as [->|Hx]);
      try (split; [apply (bool_decide_unpack _); vm_compute; exact I
                  | split; reflexivity]).
    inversion Hx.
  - reflexivity.
  - reflexivity.
  - apply (bool_decide_unpack _). vm_compute. exact I.
  - vm_compute. lia.
  - fold created in Hc'. rewrite Hc'. revert Hc'. vm_compute.
    intros [= <-]. reflexivity.
Defined.

(** ** More on the counters *)

Lemma first_run_keeps_counters_bounded_witness :
  exists c',
    campaigns (after (start_and_dispatch "c6" "tenant")
                     (mkWorld Scenario.db [false; false; true; false; true] 1000))
      !! "c6" = Some c'
    /\ counters_bounded c'.
Proof.
  apply (first_run_keeps_counters_bounded
           (mkWorld Scenario.db [false; false; true; false; true] 1000)
           "c6" "tenant" (Scenario.created 6)); reflexivity.
Defined.

(** X26: whatever state the campaign is in and whatever database call
    fails, one run of the worker raises [sentCount] and [failedCount] by
    at most five together, lowers neither, and leaves [deliveredCount],
    [readCount] and [totalContacts] as they were. *)
Theorem worker_run_counts_at_most_five
    (campaign : CampaignWithRelations.t) (w : World) (c : Campaign.t) :
  campaigns (store w) !! CampaignWithRelations.id campaign = Some c ->
  exists c',
    campaigns (after (processCampaignMessages campaign) w)
      !! CampaignWithRelations.id campaign = Some c'
    /\ Campaign.sentCount c' + Campaign.failedCount c'
       <= Campaign.sentCount c + Campaign.failedCount c + 5
    /\ Campaign.sentCount c <= Campaign.sentCount c'
    /\ Campaign.failedCount c <= Campaign.failedCount c'
    /\ Campaign.deliveredCount c' = Campaign.deliveredCount c
    /\ Campaign.readCount c' = Campaign.readCount c
    /\ Campaign.totalContacts c' = Campaign.totalContacts c.
Proof.
  intros Hc.
  destruct (counted_processCampaignMessages campaign c w)
    as (c' & Hc' & Hsum & Hrest).
  { exists c. split; [exact Hc|]. lia. }
  exists c'. split; [exact Hc'|]. split; [|exact Hrest].
  rewrite length_take in Hsum. lia.
Qed.

Lemma worker_run_counts_at_most_five_witness :
  exists c',
    campaigns (after (processCampaignMessages
                        (CampaignWithRelations.mk "c6"
                           (Scenario.campaign_of Scenario.started6 "c6") None
                           (contacts_of (store Scenario.started6) "c6")))
                     Scenario.started6) !! "c6" = Some c'
    /\ Campaign.sentCount c' + Campaign.failedCount c' <= 5 + 0 + 5.
Proof.
  destruct (worker_run_counts_at_most_five
              (CampaignWithRelations.mk "c6"
                 (Scenario.campaign_of Scenario.started6 "c6") None
                 (contacts_of (store Scenario.started6) "c6"))
              Scenario.started6 (Scenario.campaign_of Scenario.started6 "c6"))
    as (c' & Hc' & Hsum & _); [reflexivity|].
  exists c'. split; [exact Hc' | exact Hsum].
Defined.

(** ** More on status ingestion *)

Lemma handleMessageStatus_returns (cb : StatusCallback) (w : World) :
  outcome (handleMessageStatus cb) w = Returns tt.
Proof.
  unfold outcome, handleMessageStatus, try_catch, message_updateMany, prisma, ret.
  destruct (data_accepted (status_updateData cb));
    destruct (faults w) as [|[] fs]; reflexivity.
Qed.

Lemma handleStatuses_returns (statuses : list StatusCallback) (w : World) :
  outcome (handleStatuses statuses) w = Returns tt.
Proof.
  unfold handleStatuses. revert w.
  induction statuses as [|cb cbs IH]; intros w; [reflexivity|].
  simpl. unfold outcome, bind in *.
  pose proof (handleMessageStatus_returns cb w) as Hcb. unfold outcome in Hcb.
  destruct (handleMessageStatus cb w) as [[[]|] w1]; simpl in *; [|discriminate].
  apply IH.
Qed.

Lemma provider_id_kept (u : UpdateData) (id : string) (m : Message.t) :
  Message.whatsappMessageId (if addressed id m then apply_update u m else m)
  = Message.whatsappMessageId m.
Proof. destruct (addressed id m); reflexivity. Qed.

(** X27: status ingestion writes messages only, and only their status,
    timestamps and error message.  Whatever callbacks a webhook delivers
    and whatever database call fails, the loop over them returns, and the
    campaigns (so their delivered and read counters), the campaign-contact
    rows, the users and the plans are as they were; no message is added or
    removed and none changes its provider message id. *)
Theorem ingestion_writes_messages_only
    (statuses : list StatusCallback) (w : World) :
  let d' := after (handleStatuses statuses) w in
  outcome (handleStatuses statuses) w = Returns tt
  /\ campaigns d' = campaigns (store w)
  /\ campaignContacts d' = campaignContacts (store w)
  /\ users d' = users (store w)
  /\ plans d' = plans (store w)
  /\ map Message.whatsappMessageId (messages d')
     = map Message.whatsappMessageId (messages (store w)).
Proof.
  intros d'. split; [apply handleStatuses_returns|].
  apply (keeps_for_of
           (fun d => campaigns d = campaigns (store w)
                     /\ campaignContacts d = campaignContacts (store w)
                     /\ users d = users (store w)
                     /\ plans d = plans (store w)
                     /\ map Message.whatsappMessageId (messages d)
                        = map Message.whatsappMessageId (messages (store w))));
    [|auto 10].
  intros cb _. unfold handleMessageStatus, message_updateMany.
  apply keeps_try_catch; [|apply keeps_ret].
  apply keeps_prisma. intros d a d1 (Hc & Hr & Hu & Hp & Hids).
  destruct (data_accepted (status_updateData cb)); [|discriminate].
  intros [= _ <-]. simpl.
  repeat split; try assumption.
  rewrite map_map. rewrite <- Hids. apply map_ext. intros m. apply provider_id_kept.
Qed.

Lemma apply_no_update (m : Message.t) :
  apply_update (mkUpdateData None None None None) m = m.
Proof. destruct m; reflexivity. Qed.

Lemma set_messages_same (d : DB) (f : list Message.t -> list Message.t) :
  f (messages d) = messages d -> set_messages f d = d.
Proof. destruct d; unfold set_messages; simpl. intros ->. reflexivity. Qed.

(** X28: a callback changes nothing at all when its status is none of
    delivered, read and failed (as for "sent"), or when no message carries
    its provider message id (as for a campaign message, which the worker
    stores without one). *)
Theorem callback_without_effect (cb : StatusCallback) (w : World) :
  (cb_status cb <> "delivered" /\ cb_status cb <> "read" /\ cb_status cb <> "failed")
  \/ Forall (fun m => Message.whatsappMessageId m <> Some (cb_id cb))
            (messages (store w)) ->
  after (handleMessageStatus cb) w = store w.
Proof.
  intros Hcase.
  assert (Hsame : map (fun m => if addressed (cb_id cb) m
                                then apply_update (status_updateData cb) m else m)
                      (messages (store w))
                  = messages (store w)).
  { destruct Hcase as [(Hd & Hr & Hf) | Hnone].
    - unfold status_updateData. rewrite !bool_decide_eq_false_2 by assumption.
      rewrite <- (map_id (messages (store w))) at 2. apply map_ext.
      intros m. rewrite apply_no_update. destruct (addressed _ m); reflexivity.
    - rewrite <- (map_id (messages (store w))) at 2. apply map_ext_in.
      intros m Hm. rewrite Forall_forall in Hnone.
      unfold addressed. rewrite bool_decide_eq_false_2; [reflexivity|].
      apply Hnone, list_elem_of_In, Hm. }
  unfold after, handleMessageStatus, try_catch, message_updateMany, prisma, ret.
  destruct (data_accepted (status_updateData cb));
    destruct (faults w) as [|[] fs]; simpl; try reflexivity;
    apply set_messages_same, Hsame.
Qed.

Lemma callback_without_effect_witness :
  after (handleMessageStatus (Scenario.callback "sent" 30)) Scenario.world
  = Scenario.db
  /\ after (handleMessageStatus (mkStatusCallback "wamid.2" "read" (Some 30) None))
           Scenario.world = Scenario.db.
Proof.
  split.
  - apply (callback_without_effect (Scenario.callback "sent" 30) Scenario.world).
    left. repeat split; discriminate.
  - apply (callback_without_effect (mkStatusCallback "wamid.2" "read" (Some 30) None)
             Scenario.world).
    right. apply (bool_decide_unpack _). vm_compute. exact I.
Defined.

Lemma apply_update_twice (u : UpdateData) (m : Message.t) :
  apply_update u (apply_update u m) = apply_update u m.
Proof.
  destruct u as [s d r e], m. unfold apply_update, written_date. simpl.
  destruct s, d as [[]|], r as [[]|], e; reflexivity.
Qed.

(** X29: a callback delivered twice does what it does once: with no
    database fault, ingesting the same callback a second time leaves the
    store as the first ingestion left it. *)
Theorem duplicate_callback_is_harmless (cb : StatusCallback) (w : World) :
  fault_free w ->
  after (handleMessageStatus cb ;;; handleMessageStatus cb) w
  = after (handleMessageStatus cb) w.
Proof.
  intros Hff.
  destruct (data_accepted (status_updateData cb)) eqn:Hdata.
  - unfold after, bind.
    rewrite (handleMessageStatus_run w cb (fault_free_next w Hff) Hdata). rewrite Hff.
    rewrite handleMessageStatus_run by (reflexivity || exact Hdata). simpl.
    destruct (store w) as [p u t c r ms]. unfold set_messages. simpl. f_equal.
    rewrite map_map. apply map_ext. intros m.
    destruct (addressed (cb_id cb) m) eqn:Ha; [|rewrite Ha; reflexivity].
    assert (Ha' : addressed (cb_id cb) (apply_update (status_updateData cb) m) = true)
      by exact Ha.
    rewrite Ha'. apply apply_update_twice.
  - pose proof (handleMessageStatus_refused w cb Hdata) as [Hret Hkept].
    unfold after, outcome, bind in *.
    destruct (handleMessageStatus cb w) as [[[]|] w1]; simpl in *; [|discriminate].
    pose proof (handleMessageStatus_refused w1 cb Hdata) as [_ Hkept1].
    unfold after in Hkept1. rewrite Hkept1. reflexivity.
Qed.

Lemma duplicate_callback_is_harmless_witness :
  after (handleMessageStatus (Scenario.callback "delivered" 30)
         ;;; handleMessageStatus (Scenario.callback "delivered" 30)) Scenario.world
  = after (handleMessageStatus (Scenario.callback "delivered" 30)) Scenario.world.
Proof.
  apply (duplicate_callback_is_harmless (Scenario.callback "delivered" 30)
           Scenario.world).
  reflexivity.
Defined.

Lemma messages_after_two_callbacks (a b : StatusCallback) (w : World) (i : nat) :
  fault_free w ->
  data_accepted (status_updateData a) = true ->
  data_accepted (status_updateData b) = true ->
  messages (after (handleMessageStatus a ;;; handleMessageStatus b) w) !! i
  = (fun m =>
       let m1 := if addressed (cb_id a) m
                 then apply_update (status_updateData a) m else m in
       if addressed (cb_id b) m1 then apply_update (status_updateData b) m1 else m1)
    <$> messages (store w) !! i.
Proof.
  intros Hff Ha Hb. unfold after, bind.
  rewrite (handleMessageStatus_run w a (fault_free_next w Hff) Ha). rewrite Hff.
  rewrite handleMessageStatus_run by (reflexivity || exact Hb). simpl.
  rewrite map_map. apply lookup_updated_rows.
Qed.

(** X30: a delivered and a read callback for the same message, each with
    a timestamp that is a time from 1970 to the year 9999, leave both
    timestamps in place in either order of arrival, each from its own
    callback; the status is that of the callback that came last, so a
    delivered callback that arrives after the read one takes the message
    back from READ to DELIVERED. *)
Theorem delivered_and_read_in_either_order
    (delivered read : StatusCallback) (deliveredAt readAt : Z)
    (w : World) (i : nat) (m : Message.t) :
  fault_free w ->
  cb_status delivered = "delivered" ->
  cb_status read = "read" ->
  timestamped delivered deliveredAt ->
  timestamped read readAt ->
  cb_id delivered = cb_id read ->
  messages (store w) !! i = Some m ->
  Message.whatsappMessageId m = Some (cb_id read) ->
  (exists m',
      messages (after (handleMessageStatus delivered ;;; handleMessageStatus read) w)
        !! i = Some m'
      /\ Message.status m' = MessageStatus.READ
      /\ Message.deliveredAt m' = Some (deliveredAt * 1000)
      /\ Message.readAt m' = Some (readAt * 1000))
  /\ (exists m',
      messages (after (handleMessageStatus read ;;; handleMessageStatus delivered) w)
        !! i = Some m'
      /\ Message.status m' = MessageStatus.DELIVERED
      /\ Message.deliveredAt m' = Some (deliveredAt * 1000)
      /\ Message.readAt m' = Some (readAt * 1000)).
Proof.
  intros Hff Hd Hr Htd Htr Hid Hm Hwa.
  assert (Ha : forall u, addressed (cb_id read) (apply_update u m) = true).
  { intros u. unfold addressed. apply bool_decide_eq_true_2. exact Hwa. }
  assert (Ha0 : addressed (cb_id read) m = true).
  { unfold addressed. apply bool_decide_eq_true_2. exact Hwa. }
  assert (Hdd : data_accepted (status_updateData delivered) = true)
    by (apply dated_data_accepted; intros _; exists deliveredAt; exact Htd).
  assert (Hdr : data_accepted (status_updateData read) = true)
    by (apply dated_data_accepted; intros _; exists readAt; exact Htr).
  split; rewrite messages_after_two_callbacks by assumption; rewrite Hm; simpl;
    rewrite ?Hid, Ha0, Ha; eexists; (split; [reflexivity|]);
    unfold status_updateData;
    rewrite Hd, Hr, (timestamped_date _ _ Htd), (timestamped_date _ _ Htr);
    simpl; auto.
Qed.

Lemma delivered_and_read_in_either_order_witness :
  map Message.status
      (messages (after (handleMessageStatus (Scenario.callback "read" 20)
                        ;;; handleMessageStatus (Scenario.callback "delivered" 10))
                       Scenario.world))
  = [MessageStatus.DELIVERED]
  /\ exists m',
       messages (after (handleMessageStatus (Scenario.callback "read" 20)
                        ;;; handleMessageStatus (Scenario.callback "delivered" 10))
                       Scenario.world) !! 0%nat = Some m'
       /\ Message.deliveredAt m' = Some 10000
       /\ Message.readAt m' = Some 20000.
Proof.
  split; [reflexivity|].
  destruct (delivered_and_read_in_either_order (Scenario.callback "delivered" 10)
              (Scenario.callback "read" 20) 10 20 Scenario.world 0
              (Scenario.outbound_message MessageStatus.SENT))
    as [_ (m' & Hm' & _ & Hd & Hr)];
    try reflexivity; try (split; [reflexivity | lia]).
  exists m'. split; [exact Hm' | split; [exact Hd | exact Hr]].
Defined.
